(** * Skill sync tool: a shallow embedding of the two [manage_skills.py] scripts

    The repository holds two command-line scripts that copy "skill"
    directories from a source root into a per-user destination root:

    - [opencode-installer/manage_skills.py], one fixed destination;
    - [skills-manager/manage_skills.py], the unified manager with a
      target and a scope.

    Both are embedded below, function by function, over

    - a model of [pathlib]'s absolute POSIX paths (section Paths);
    - a small state-and-exception monad carrying the file system and the
      lines printed so far (section Monad);
    - an interface [FileSystem] for the library calls the scripts make
      ([Path.exists], [Path.is_dir], [Path.iterdir], [shutil.rmtree],
      [Path.mkdir(parents=True, exist_ok=True)], [shutil.copytree]);
    - one instance of that interface on directory trees (section Trees),
      without symbolic links, ownership or permissions.  A name of more
      than 255 bytes is refused there as the kernel refuses it
      ([ENAMETOOLONG]); the limit on the length of a whole path
      ([PATH_MAX]) is not modelled.

    Theorems that hold whatever the library calls do are stated over the
    interface; those that need the contents of directories are stated on
    the tree instance. *)

From Stdlib Require Import List String Ascii Bool Arith ZArith Lia.
From Stdlib Require Import Init.Byte.
From Stdlib Require Import Numbers.DecimalString.
Import ListNotations.

Local Open Scope string_scope.
Local Open Scope list_scope.

Set Implicit Arguments.

(* ===================================================================== *)
(** ** Strings *)
(* ===================================================================== *)

(** [s.startswith(p)] *)
Definition startswith (s p : string) : bool := String.prefix p s.

(** [str(n)] for a length. *)
Definition str_nat (n : nat) : string := NilEmpty.string_of_uint (Nat.to_uint n).

(** [c.upper()] on the ASCII letters. *)
Definition upper_ascii (c : ascii) : ascii :=
  let n := nat_of_ascii c in
  if ((97 <=? n)%nat && (n <=? 122)%nat)%bool then ascii_of_nat (n - 32) else c.

(** [s.upper()] *)
Fixpoint upper (s : string) : string :=
  match s with
  | EmptyString => EmptyString
  | String c s' => String (upper_ascii c) (upper s')
  end.

(** [sep * n] for a one-character separator line. *)
Fixpoint repeat_char (c : ascii) (n : nat) : string :=
  match n with
  | O => EmptyString
  | S k => String c (repeat_char c k)
  end.

(** [s.split(sep)] for a one-character separator: never empty. *)
Fixpoint split_on (sep : ascii) (s : string) : list string :=
  match s with
  | EmptyString => [EmptyString]
  | String c s' =>
      if Ascii.eqb c sep then EmptyString :: split_on sep s'
      else match split_on sep s' with
           | [] => [String c EmptyString]
           | w :: ws => String c w :: ws
           end
  end.

(** Python truthiness of [args.skill]: [None] and [""] are falsy. *)
Definition truthy (s : option string) : bool :=
  match s with
  | None => false
  | Some EmptyString => false
  | Some _ => true
  end.

(* ===================================================================== *)
(** ** Paths *)
(* ===================================================================== *)

(** An absolute [PurePosixPath]: its parts after the root.  [Path.home()],
    [Path.cwd()] and [Path(__file__).resolve()] are absolute, and joining
    keeps a path absolute, so the scripts never hold a relative path.
    (A leading double slash, which [pathlib] keeps as a distinct root, is
    read as a single one.) *)
Definition path := list string.

(** The parts [pathlib] keeps of a string: empty segments and ["."] are
    dropped, [".."] is kept. *)
Definition keep_part (c : string) : bool :=
  negb (c =? "") && negb (c =? ".").

Definition parse_parts (s : string) : list string :=
  filter keep_part (split_on "/" s).

(** [p / s]: an absolute [s] replaces [p]. *)
Definition joinpath (p : path) (s : string) : path :=
  if startswith s "/" then parse_parts s else p ++ parse_parts s.

(** [p.parent]: lexical; the root is its own parent. *)
Definition parent (p : path) : path := removelast p.

(** [p.name]: the last part, [""] for the root. *)
Definition name (p : path) : string := last p "".

(** [str(p)] *)
Definition str (p : path) : string :=
  "/" ++ String.concat "/" p.

(** [p == q] *)
Definition path_eqb (p q : path) : bool :=
  if list_eq_dec string_dec p q then true else false.

Declare Scope path_scope.
Delimit Scope path_scope with path.
Infix "/" := joinpath : path_scope.

(** [sep not in s] *)
Fixpoint lacks (sep : ascii) (s : string) : bool :=
  match s with
  | EmptyString => true
  | String c s' => negb (Ascii.eqb c sep) && lacks sep s'
  end.

(** A name that denotes one directory entry: what [iterdir] yields and
    what the specification calls a skill name. *)
Definition plain_name (s : string) : bool :=
  negb (s =? "") && negb (s =? ".") && negb (s =? "..") && lacks "/" s.

(** A path without [".."] parts. *)
Definition canonical (p : path) : bool :=
  forallb (fun c => negb (c =? "..")) p.

(* ===================================================================== *)
(** ** The library interface *)
(* ===================================================================== *)

(** What the scripts ask of the file system.  [W] is the state of the
    file system.  The three calls that change it return the new state and,
    when they raise, the text of the exception; a call may have changed
    the state before it raises.  [Path.exists] gives [False] for a path
    that is missing or leads through a file and lets every other
    [OSError] through (before Python 3.12), a name that is too long for
    one: [fs_exists] is the answer or the text of that exception.
    [Path.is_dir] raises alike, but the scripts call it only on a path
    for which [exists] has just returned [True] and on the entries that
    [iterdir] has just listed, where the lookup it repeats succeeds:
    [fs_is_dir] is total. *)
Class FileSystem (W : Type) := {
  fs_exists : path -> W -> string + bool;
  fs_is_dir : path -> W -> bool;
  fs_iterdir : path -> W -> string + list string;
  fs_rmtree : path -> W -> W * option string;
  fs_mkdir_parents : path -> W -> W * option string;
  fs_copytree : path -> path -> W -> W * option string
}.

(** The process environment the scripts read. *)
Record env := {
  home : path;          (* Path.home() *)
  cwd : path;           (* Path.cwd() *)
  script : path         (* Path(__file__).resolve() *)
}.

(* ===================================================================== *)
(** ** Monad *)
(* ===================================================================== *)

(** What [print] and [parser.print_help] write. *)
Inductive output :=
| Line (s : string)
| Help.

(** How a computation ends: with a value, by [sys.exit(code)], or with an
    exception.  [SystemExit] is not an [Exception], so [except Exception]
    lets it through. *)
Inductive control (A : Type) :=
| Normal (a : A)
| Exited (code : Z)
| Raised (e : string).

Arguments Normal {A} a.
Arguments Exited {A} code.
Arguments Raised {A} e.

Section Monad.

Context {W : Type}.

Record state := {
  world : W;
  stdout : list output
}.

Definition M (A : Type) := state -> control A * state.

Definition ret {A} (a : A) : M A := fun s => (Normal a, s).

Definition bind {A B} (m : M A) (k : A -> M B) : M B :=
  fun s =>
    match m s with
    | (Normal a, s') => k a s'
    | (Exited c, s') => (Exited c, s')
    | (Raised e, s') => (Raised e, s')
    end.

Definition print (l : string) : M unit :=
  fun s => (Normal tt, {| world := world s; stdout := stdout s ++ [Line l] |}).

Definition print_help : M unit :=
  fun s => (Normal tt, {| world := world s; stdout := stdout s ++ [Help] |}).

Definition sys_exit {A} (code : Z) : M A := fun s => (Exited code, s).

Definition raise {A} (e : string) : M A := fun s => (Raised e, s).

(** [try: m except Exception as e: h e] *)
Definition try_except {A} (m : M A) (h : string -> M A) : M A :=
  fun s =>
    match m s with
    | (Raised e, s') => h e s'
    | r => r
    end.

(** A call that only reads the file system. *)
Definition read {A} (f : W -> A) : M A :=
  fun s => (Normal (f (world s)), s).

(** A call that reads the file system and may raise. *)
Definition read_or_raise {A} (f : W -> string + A) : M A :=
  fun s =>
    match f (world s) with
    | inl e => (Raised e, s)
    | inr a => (Normal a, s)
    end.

(** A call that changes the file system and may raise. *)
Definition write_or_raise (f : W -> W * option string) : M unit :=
  fun s =>
    let (w', r) := f (world s) in
    let s' := {| world := w'; stdout := stdout s |} in
    match r with
    | Some e => (Raised e, s')
    | None => (Normal tt, s')
    end.

(** The exit status of the interpreter: 0 when [main] returns, the
    argument of [sys.exit], 1 after an uncaught exception. *)
Definition exit_code {A} (r : control A * state) : Z :=
  match fst r with
  | Normal _ => 0%Z
  | Exited c => c
  | Raised _ => 1%Z
  end.

End Monad.

Arguments state W : clear implicits.
Arguments M W A : clear implicits.

Declare Scope monad_scope.
Delimit Scope monad_scope with monad.
Notation "x <- m ;; k" := (bind m (fun x => k))
  (at level 61, m at next level, right associativity) : monad_scope.
Notation "m ;; k" := (bind m (fun _ => k))
  (at level 61, right associativity) : monad_scope.
Local Open Scope monad_scope.

Section LibraryCalls.

Context {W : Type} `{FileSystem W}.

Definition exists_ (p : path) : M W bool := read_or_raise (fs_exists p).
Definition is_dir (p : path) : M W bool := read (fs_is_dir p).
Definition iterdir (p : path) : M W (list string) := read_or_raise (fs_iterdir p).
Definition rmtree (p : path) : M W unit := write_or_raise (fs_rmtree p).
Definition mkdir_parents (p : path) : M W unit := write_or_raise (fs_mkdir_parents p).
Definition copytree (src dst : path) : M W unit := write_or_raise (fs_copytree src dst).

(** [[d.name for d in root.iterdir() if keep d]], the test reading the
    file system. *)
Fixpoint select (keep : string -> M W bool) (names : list string) : M W (list string) :=
  match names with
  | [] => ret []
  | n :: rest =>
      b <- keep n ;;
      l <- select keep rest ;;
      ret (if b then n :: l else l)
  end.

End LibraryCalls.

(** [sorted(names)]: insertion sort by code point order. *)
Fixpoint insert_sorted (x : string) (l : list string) : list string :=
  match l with
  | [] => [x]
  | y :: l' => if String.leb x y then x :: l else y :: insert_sorted x l'
  end.

Definition sorted (l : list string) : list string :=
  fold_right insert_sorted [] l.

(* ===================================================================== *)
(** ** [opencode-installer/manage_skills.py] *)
(* ===================================================================== *)

Module OpencodeInstaller.

(** The [argparse] namespace after [parse_args]. *)
Record args := {
  command : option string;
  skill : option string;
  all : bool
}.

Section Program.

Context {W : Type} `{FileSystem W}.
Variable e : env.

Definition get_source_skills_dir : M W path :=
  let script_dir := parent (script e) in
  let repo_root := parent script_dir in
  let skills_dir := (repo_root / "skills")%path in
  ex <- exists_ skills_dir ;;
  bad <- (if negb ex then ret true
          else d <- is_dir skills_dir ;; ret (negb d)) ;;
  if bad then
    print ("Error: Could not locate source skills directory at " ++ str skills_dir) ;;
    sys_exit 1
  else ret skills_dir.

Definition get_dest_skills_dir : M W path :=
  let dest_dir := (((home e / ".config") / "opencode") / "skills")%path in
  ret dest_dir.

(** [d.is_dir() and not d.name.startswith(".")] for the entry [n] of [root]. *)
Definition visible_dir (root : path) (n : string) : M W bool :=
  let d := root ++ [n] in
  isd <- is_dir d ;;
  ret (isd && negb (startswith (name d) ".")).

Fixpoint print_each (l : list string) : M W unit :=
  match l with
  | [] => ret tt
  | skill :: rest => print (" - " ++ skill) ;; print_each rest
  end.

Definition list_installed_skills (dest_root : path) : M W unit :=
  ex <- exists_ dest_root ;;
  if negb ex then
    print "No skills installed yet (destination directory does not exist)."
  else
    entries <- iterdir dest_root ;;
    skills <- select (visible_dir dest_root) entries ;;
    match skills with
    | [] => print "No skills installed."
    | _ =>
        print ("Installed Skills (" ++ str_nat (List.length skills) ++ "):") ;;
        print_each (sorted skills)
    end.

Definition install_skill (plugin_name : string) (source_path dest_path : path)
  : M W bool :=
  print ("Installing '" ++ plugin_name ++ "'...") ;;
  ex <- exists_ source_path ;;
  if negb ex then
    print ("  Warning: Source skill '" ++ plugin_name ++ "' not found at "
           ++ str source_path ++ ". Skipping.") ;;
    ret false
  else
    try_except
      (dex <- exists_ dest_path ;;
       (if dex then
          print ("  Removing existing installation at " ++ str dest_path) ;;
          rmtree dest_path
        else ret tt) ;;
       mkdir_parents (parent dest_path) ;;
       copytree source_path dest_path ;;
       print ("  ✅ Successfully installed to " ++ str dest_path) ;;
       ret true)
      (fun err =>
         print ("  ❌ Error installing " ++ plugin_name ++ ": " ++ err) ;;
         ret false).

Definition remove_skill (plugin_name : string) (dest_path : path) : M W bool :=
  print ("Removing '" ++ plugin_name ++ "'...") ;;
  ex <- exists_ dest_path ;;
  if negb ex then
    print ("  Warning: Skill '" ++ plugin_name ++ "' is not installed (path "
           ++ str dest_path ++ " not found). Skipping.") ;;
    ret false
  else
    try_except
      (rmtree dest_path ;;
       print ("  ✅ Successfully removed " ++ str dest_path) ;;
       ret true)
      (fun err =>
         print ("  ❌ Error removing " ++ plugin_name ++ ": " ++ err) ;;
         ret false).

(** The [for skill_name in skills_to_install] loop of [main]. *)
Fixpoint install_each (source_root dest_root : path) (skills : list string)
  (success_count : nat) : M W nat :=
  match skills with
  | [] => ret success_count
  | skill_name :: rest =>
      let src := (source_root / skill_name)%path in
      let dst := (dest_root / skill_name)%path in
      ok <- install_skill skill_name src dst ;;
      install_each source_root dest_root rest
        (if ok then S success_count else success_count)
  end.

(** The [for skill_name in skills_to_remove] loop of [main]. *)
Fixpoint remove_each (dest_root : path) (skills : list string)
  (success_count : nat) : M W nat :=
  match skills with
  | [] => ret success_count
  | skill_name :: rest =>
      let dst := (dest_root / skill_name)%path in
      ok <- remove_skill skill_name dst ;;
      remove_each dest_root rest
        (if ok then S success_count else success_count)
  end.

Definition command_is (a : args) (c : string) : bool :=
  match command a with
  | Some c' => c' =? c
  | None => false
  end.

(** [[args.skill]]; the branch is entered with a non-empty name only. *)
Definition named_skill (a : args) : list string :=
  match skill a with
  | Some s => [s]
  | None => []
  end.

(** [skills_to_install] of [main]. *)
Definition skills_to_install (a : args) (source_root : path) : M W (list string) :=
  if all a then
    entries <- iterdir source_root ;;
    l <- select (visible_dir source_root) entries ;;
    print ("Found " ++ str_nat (List.length l) ++ " skills to install.") ;;
    ret l
  else ret (named_skill a).

(** [skills_to_remove] of [main]. *)
Definition skills_to_remove (a : args) (dest_root : path) : M W (list string) :=
  if all a then
    ex <- exists_ dest_root ;;
    (if negb ex then print "No skills to remove." ;; sys_exit 0 else ret tt) ;;
    entries <- iterdir dest_root ;;
    l <- select (visible_dir dest_root) entries ;;
    print ("Found " ++ str_nat (List.length l) ++ " skills to remove.") ;;
    ret l
  else ret (named_skill a).

(** The [if args.command == ...] chain that ends [main]. *)
Definition dispatch (a : args) (source_root dest_root : path) : M W unit :=
  if command_is a "list" then
    list_installed_skills dest_root
  else if command_is a "install" then
    (if negb (truthy (skill a)) && negb (all a) then
       print "Error: Please specify a skill name or use --all" ;; sys_exit 1
     else ret tt) ;;
    skills <- skills_to_install a source_root ;;
    success_count <- install_each source_root dest_root skills 0 ;;
    print (repeat_char "-" 50) ;;
    print ("Done. Installed " ++ str_nat success_count ++ "/"
           ++ str_nat (List.length skills) ++ " skills.")
  else if command_is a "remove" then
    (if negb (truthy (skill a)) && negb (all a) then
       print "Error: Please specify a skill name or use --all" ;; sys_exit 1
     else ret tt) ;;
    skills <- skills_to_remove a dest_root ;;
    success_count <- remove_each dest_root skills 0 ;;
    print (repeat_char "-" 50) ;;
    print ("Done. Removed " ++ str_nat success_count ++ "/"
           ++ str_nat (List.length skills) ++ " skills.")
  else ret tt.

Definition main (a : args) : M W unit :=
  (if negb (truthy (command a)) then print_help ;; sys_exit 1 else ret tt) ;;
  source_root <- get_source_skills_dir ;;
  dest_root <- get_dest_skills_dir ;;
  print ("Source:      " ++ str source_root) ;;
  print ("Destination: " ++ str dest_root) ;;
  print (repeat_char "-" 50) ;;
  dispatch a source_root dest_root.

End Program.

End OpencodeInstaller.

(* ===================================================================== *)
(** ** [skills-manager/manage_skills.py] *)
(* ===================================================================== *)

Module SkillsManager.

(** The [argparse] namespace after [parse_args]; the parser admits the
    targets ["opencode"] and ["antigravity"] and the scopes ["global"]
    and ["workspace"], and fills in ["global"] when no scope is given. *)
Record args := {
  target : string;
  scope : string;
  command : option string;
  skill : option string;
  all : bool
}.

(** [["skills-manager", "antigravity-installer", "opencode-installer"]] *)
Definition installer_dirs : list string :=
  ["skills-manager"; "antigravity-installer"; "opencode-installer"].

(** [n in l] on strings. *)
Definition mem (n : string) (l : list string) : bool :=
  existsb (String.eqb n) l.

Section Program.

Context {W : Type} `{FileSystem W}.
Variable e : env.

Definition get_source_skills_dir : M W path :=
  let script_dir := parent (script e) in
  let repo_root := parent script_dir in
  ex <- exists_ repo_root ;;
  bad <- (if negb ex then ret true
          else d <- is_dir repo_root ;; ret (negb d)) ;;
  if bad then
    print ("Error: Could not locate source skills directory at " ++ str repo_root) ;;
    sys_exit 1
  else ret repo_root.

(** The [while current != current.parent] loop of [get_dest_skills_dir]:
    [Some] is the [return] inside the loop, [None] leaving the loop.
    Each turn shortens [current], so [length current] turns are enough
    ([search_up_fuel] below). *)
Fixpoint search_up (fuel : nat) (current : path) : M W (option path) :=
  match fuel with
  | O => ret None
  | S k =>
      if path_eqb current (parent current) then ret None
      else
        let agent_dir := (current / ".agent")%path in
        ex <- exists_ agent_dir ;;
        found <- (if ex then is_dir agent_dir else ret false) ;;
        if found then ret (Some (agent_dir / "skills")%path)
        else search_up k (parent current)
  end.

Definition get_dest_skills_dir (target scope : string) : M W path :=
  if target =? "opencode" then
    ret (((home e / ".config") / "opencode") / "skills")%path
  else if target =? "antigravity" then
    if scope =? "global" then
      ret (((home e / ".gemini") / "antigravity") / "skills")%path
    else
      let current := cwd e in
      r <- search_up (List.length current) current ;;
      match r with
      | Some d => ret d
      | None => ret ((cwd e / ".agent") / "skills")%path
      end
  else
    print ("Error: Invalid target '" ++ target ++ "'") ;;
    sys_exit 1.

(** [d.is_dir() and not d.name.startswith(".")] for the entry [n] of [root]. *)
Definition visible_dir (root : path) (n : string) : M W bool :=
  let d := root ++ [n] in
  isd <- is_dir d ;;
  ret (isd && negb (startswith (name d) ".")).

(** The test of the [install --all] comprehension. *)
Definition installable_dir (root : path) (n : string) : M W bool :=
  let d := root ++ [n] in
  isd <- is_dir d ;;
  ret (isd && negb (startswith (name d) ".")
           && negb (mem (name d) installer_dirs)).

Fixpoint print_each (l : list string) : M W unit :=
  match l with
  | [] => ret tt
  | skill :: rest => print ("  - " ++ skill) ;; print_each rest
  end.

Definition list_installed_skills (dest_root : path) : M W unit :=
  ex <- exists_ dest_root ;;
  if negb ex then
    print "No skills installed yet (destination directory does not exist)."
  else
    entries <- iterdir dest_root ;;
    skills <- select (visible_dir dest_root) entries ;;
    match skills with
    | [] => print "No skills installed."
    | _ =>
        print ("Installed Skills (" ++ str_nat (List.length skills) ++ "):") ;;
        print_each (sorted skills)
    end.

Definition install_skill (skill_name : string) (source_path dest_path : path)
  : M W bool :=
  print ("Installing '" ++ skill_name ++ "'...") ;;
  ex <- exists_ source_path ;;
  if negb ex then
    print ("  Warning: Source skill '" ++ skill_name ++ "' not found at "
           ++ str source_path ++ ". Skipping.") ;;
    ret false
  else
    try_except
      (dex <- exists_ dest_path ;;
       (if dex then
          print ("  Removing existing installation at " ++ str dest_path) ;;
          rmtree dest_path
        else ret tt) ;;
       mkdir_parents (parent dest_path) ;;
       copytree source_path dest_path ;;
       print ("  ✅ Successfully installed to " ++ str dest_path) ;;
       ret true)
      (fun err =>
         print ("  ❌ Error installing " ++ skill_name ++ ": " ++ err) ;;
         ret false).

Definition remove_skill (skill_name : string) (dest_path : path) : M W bool :=
  print ("Removing '" ++ skill_name ++ "'...") ;;
  ex <- exists_ dest_path ;;
  if negb ex then
    print ("  Warning: Skill '" ++ skill_name ++ "' is not installed (path "
           ++ str dest_path ++ " not found). Skipping.") ;;
    ret false
  else
    try_except
      (rmtree dest_path ;;
       print ("  ✅ Successfully removed " ++ str dest_path) ;;
       ret true)
      (fun err =>
         print ("  ❌ Error removing " ++ skill_name ++ ": " ++ err) ;;
         ret false).

(** The [for skill_name in skills_to_install] loop of [main]. *)
Fixpoint install_each (source_root dest_root : path) (skills : list string)
  (success_count : nat) : M W nat :=
  match skills with
  | [] => ret success_count
  | skill_name :: rest =>
      let src := (source_root / skill_name)%path in
      let dst := (dest_root / skill_name)%path in
      ok <- install_skill skill_name src dst ;;
      install_each source_root dest_root rest
        (if ok then S success_count else success_count)
  end.

(** The [for skill_name in skills_to_remove] loop of [main]. *)
Fixpoint remove_each (dest_root : path) (skills : list string)
  (success_count : nat) : M W nat :=
  match skills with
  | [] => ret success_count
  | skill_name :: rest =>
      let dst := (dest_root / skill_name)%path in
      ok <- remove_skill skill_name dst ;;
      remove_each dest_root rest
        (if ok then S success_count else success_count)
  end.

Definition command_is (a : args) (c : string) : bool :=
  match command a with
  | Some c' => c' =? c
  | None => false
  end.

(** [[args.skill]]; the branch is entered with a non-empty name only. *)
Definition named_skill (a : args) : list string :=
  match skill a with
  | Some s => [s]
  | None => []
  end.

(** [skills_to_install] of [main]. *)
Definition skills_to_install (a : args) (source_root : path) : M W (list string) :=
  if all a then
    entries <- iterdir source_root ;;
    l <- select (installable_dir source_root) entries ;;
    print ("Found " ++ str_nat (List.length l) ++ " skills to install.") ;;
    ret l
  else ret (named_skill a).

(** [skills_to_remove] of [main]. *)
Definition skills_to_remove (a : args) (dest_root : path) : M W (list string) :=
  if all a then
    ex <- exists_ dest_root ;;
    (if negb ex then print "No skills to remove." ;; sys_exit 0 else ret tt) ;;
    entries <- iterdir dest_root ;;
    l <- select (visible_dir dest_root) entries ;;
    print ("Found " ++ str_nat (List.length l) ++ " skills to remove.") ;;
    ret l
  else ret (named_skill a).

(** The scope check of [main]: the value [args.scope] holds afterwards. *)
Definition validate_scope (a : args) : M W string :=
  if (target a =? "opencode") && (scope a =? "workspace") then
    print "Warning: Open Code does not support workspace scope. Using global scope." ;;
    ret "global"
  else ret (scope a).

(** The [if args.command == ...] chain that ends [main]. *)
Definition dispatch (a : args) (source_root dest_root : path) : M W unit :=
  if command_is a "list" then
    list_installed_skills dest_root
  else if command_is a "install" then
    (if negb (truthy (skill a)) && negb (all a) then
       print "Error: Please specify a skill name or use --all" ;; sys_exit 1
     else ret tt) ;;
    skills <- skills_to_install a source_root ;;
    success_count <- install_each source_root dest_root skills 0 ;;
    print (repeat_char "=" 60) ;;
    print ("Done. Installed " ++ str_nat success_count ++ "/"
           ++ str_nat (List.length skills) ++ " skills.")
  else if command_is a "remove" then
    (if negb (truthy (skill a)) && negb (all a) then
       print "Error: Please specify a skill name or use --all" ;; sys_exit 1
     else ret tt) ;;
    skills <- skills_to_remove a dest_root ;;
    success_count <- remove_each dest_root skills 0 ;;
    print (repeat_char "=" 60) ;;
    print ("Done. Removed " ++ str_nat success_count ++ "/"
           ++ str_nat (List.length skills) ++ " skills.")
  else ret tt.

Definition main (a : args) : M W unit :=
  (if negb (truthy (command a)) then print_help ;; sys_exit 1 else ret tt) ;;
  args_scope <- validate_scope a ;;
  source_root <- get_source_skills_dir ;;
  dest_root <- get_dest_skills_dir (target a) args_scope ;;
  print (repeat_char "=" 60) ;;
  print ("Target:      " ++ upper (target a)) ;;
  print ("Source:      " ++ str source_root) ;;
  print ("Destination: " ++ str dest_root) ;;
  (if target a =? "antigravity" then
     print ("Scope:       " ++ upper args_scope)
   else ret tt) ;;
  print (repeat_char "=" 60) ;;
  dispatch a source_root dest_root.

End Program.

End SkillsManager.

(* ===================================================================== *)
(** ** Trees: the file system as a directory tree *)
(* ===================================================================== *)

(** A regular file with its bytes, or a directory with its entries.  An
    entry is found by the first occurrence of its name. *)
#[local] Set Warnings "-register-all".

Inductive node :=
| File (data : list byte)
| Dir (entries : list (string * node)).

Module Tree.

Fixpoint find_entry (n : string) (es : list (string * node)) : option node :=
  match es with
  | [] => None
  | (m, v) :: rest => if m =? n then Some v else find_entry n rest
  end.

(** The entries without those named [n]. *)
Fixpoint drop_entry (n : string) (es : list (string * node)) : list (string * node) :=
  match es with
  | [] => []
  | (m, v) :: rest =>
      if m =? n then drop_entry n rest else (m, v) :: drop_entry n rest
  end.

(** The entries with [g] applied to the one [find_entry] finds. *)
Fixpoint alter_entry (n : string) (g : node -> node) (es : list (string * node))
  : list (string * node) :=
  match es with
  | [] => []
  | (m, v) :: rest =>
      if m =? n then (m, g v) :: rest else (m, v) :: alter_entry n g rest
  end.

(** The node at a path without [".."], from the node [t]. *)
Fixpoint get (p : path) (t : node) : option node :=
  match p with
  | [] => Some t
  | c :: p' =>
      match t with
      | Dir es =>
          match find_entry c es with
          | Some v => get p' v
          | None => None
          end
      | File _ => None
      end
  end.

(** [f] applied to the entries of the directory at [p]. *)
Fixpoint update (p : path) (f : list (string * node) -> list (string * node))
  (t : node) : node :=
  match t with
  | File d => File d
  | Dir es =>
      match p with
      | [] => Dir (f es)
      | c :: p' => Dir (alter_entry c (update p' f) es)
      end
  end.

(** The tree without the entry at [p]. *)
Definition remove_at (p : path) (t : node) : node :=
  update (parent p) (drop_entry (name p)) t.

(** The tree with [v] as the entry at [p], replacing what was there. *)
Definition put_at (p : path) (v : node) (t : node) : node :=
  update (parent p) (fun es => drop_entry (name p) es ++ [(name p, v)]) t.

(** The directory at [p] emptied. *)
Definition clear_at (p : path) (t : node) : node :=
  update p (fun _ => []) t.

(** Path lookup as the kernel does it, part by part from the directory
    [cur]: every part but the last is looked up in a directory, [".."]
    is the parent (the root is its own), any other part must exist. *)
Fixpoint walk (t : node) (cur : path) (p : path) : option path :=
  match p with
  | [] => Some cur
  | c :: p' =>
      match get cur t with
      | Some (Dir _) =>
          if c =? ".." then walk t (parent cur) p'
          else match get (cur ++ [c]) t with
               | Some _ => walk t (cur ++ [c]) p'
               | None => None
               end
      | _ => None
      end
  end.

(** Where [p] leads, when it leads somewhere. *)
Definition realpath (t : node) (p : path) : option path := walk t [] p.

(** A name the kernel refuses: more than [NAME_MAX] bytes. *)
Definition long (c : string) : bool := (255 <? String.length c)%nat.

(** Why a lookup stops: the part is not there ([ENOENT]), it is looked
    up in a regular file ([ENOTDIR]), or it is not there and has more
    than 255 bytes ([ENAMETOOLONG]).  An entry that is there is found
    whatever its name; a real directory holds no name that long. *)
Inductive stop :=
| Missing
| InFile
| TooLong.

(** Where the lookup of [walk] stops, when it does. *)
Fixpoint stops (t : node) (cur : path) (p : path) : option stop :=
  match p with
  | [] => None
  | c :: p' =>
      match get cur t with
      | Some (Dir _) =>
          if c =? ".." then stops t (parent cur) p'
          else match get (cur ++ [c]) t with
               | Some _ => stops t (cur ++ [c]) p'
               | None => Some (if long c then TooLong else Missing)
               end
      | _ => Some InFile
      end
  end.

(** [str(e)] for the [OSError]s of the library calls. *)
Definition enoent (p : path) : string :=
  "[Errno 2] No such file or directory: '" ++ str p ++ "'".
Definition ebusy (p : path) : string :=
  "[Errno 16] Device or resource busy: '" ++ str p ++ "'".
Definition eexist (p : path) : string :=
  "[Errno 17] File exists: '" ++ str p ++ "'".
Definition enotdir (p : path) : string :=
  "[Errno 20] Not a directory: '" ++ str p ++ "'".
Definition etoolong (p : path) : string :=
  "[Errno 36] File name too long: '" ++ str p ++ "'".
Definition enotempty (p : path) : string :=
  "[Errno 39] Directory not empty: '" ++ str p ++ "'".

(** [shutil.rmtree] on a regular file reports the [Path] it was given,
    not its text. *)
Definition enotdir_path (p : path) : string :=
  "[Errno 20] Not a directory: PosixPath('" ++ str p ++ "')".

Definition oserror (k : stop) (p : path) : string :=
  match k with
  | Missing => enoent p
  | InFile => enotdir p
  | TooLong => etoolong p
  end.

(** The error of a call on a path that leads nowhere. *)
Definition lookup_error (t : node) (p : path) : string :=
  match stops t [] p with
  | Some k => oserror k p
  | None => enoent p
  end.

(** [p.exists()]: [False] for [ENOENT] and [ENOTDIR], the exception for
    a name that is too long. *)
Definition tree_exists (p : path) (t : node) : string + bool :=
  match realpath t p with
  | Some _ => inr true
  | None =>
      match stops t [] p with
      | Some TooLong => inl (etoolong p)
      | _ => inr false
      end
  end.

(** [p.is_dir()], for a path that [exists] or [iterdir] has vouched
    for. *)
Definition tree_is_dir (p : path) (t : node) : bool :=
  match realpath t p with
  | Some c => match get c t with
              | Some (Dir _) => true
              | _ => false
              end
  | None => false
  end.

(** The names of [p.iterdir()], in the order of the entries. *)
Definition tree_iterdir (p : path) (t : node) : string + list string :=
  match realpath t p with
  | Some c => match get c t with
              | Some (Dir es) => inr (map fst es)
              | _ => inl (enotdir p)
              end
  | None => inl (lookup_error t p)
  end.

(** [shutil.rmtree(p)]: raises on a path that leads nowhere and on a
    regular file; else deletes what the directory holds and then the
    directory itself with [os.rmdir(p)].  That call looks [p] up again:
    it fails when [p] went through what has just been deleted, the
    kernel refuses it for the root and for a path that ends in [".."],
    and in each of these cases the directory is left empty and the call
    raises. *)
Definition tree_rmtree (p : path) (t : node) : node * option string :=
  match realpath t p with
  | None => (t, Some (lookup_error t p))
  | Some c =>
      match get c t with
      | Some (Dir _) =>
          match stops (clear_at c t) [] p with
          | Some k => (clear_at c t, Some (oserror k p))
          | None =>
              match p with
              | [] => (clear_at c t, Some (ebusy p))
              | _ :: _ =>
                  if name p =? ".." then (clear_at c t, Some (enotempty p))
                  else (remove_at c t, None)
              end
          end
      | _ => (t, Some (enotdir_path p))
      end
  end.

(** [p.mkdir(parents=True, exist_ok=True)]: the parts of [p] in turn
    from the directory [cur], [seen] being the parts gone through, each
    missing one created.  [os.mkdir] is first tried on the whole path:
    until a directory has been made ([made]) an error carries the whole
    path, afterwards the path that was to be made.  A regular file on the
    way and a name that is too long raise. *)
Fixpoint mkdirs (t : node) (made : bool) (cur seen : path) (p : path) (whole : path)
  : node * option string :=
  match p with
  | [] => (t, None)
  | c :: p' =>
      let here := if made then seen ++ [c] else whole in
      if c =? ".." then mkdirs t made (parent cur) (seen ++ [c]) p' whole
      else match get (cur ++ [c]) t with
           | Some (Dir _) => mkdirs t made (cur ++ [c]) (seen ++ [c]) p' whole
           | Some (File _) =>
               (t, Some (if made then eexist here
                         else match p' with
                              | [] => eexist here
                              | _ => enotdir here
                              end))
           | None =>
               if long c then (t, Some (etoolong here))
               else mkdirs (put_at (cur ++ [c]) (Dir []) t) true
                      (cur ++ [c]) (seen ++ [c]) p' whole
           end
  end.

Definition tree_mkdir_parents (p : path) (t : node) : node * option string :=
  mkdirs t false [] [] p p.

(** [os.makedirs(p)], which [shutil.copytree] calls on its destination:
    the missing directories above [p] and [p] itself are made; the call
    raises when [p] is there already, and with the path it could not
    make when a regular file is on the way or a name is too long. *)
Fixpoint makedirs (t : node) (cur seen : path) (p : path) : node * option string :=
  match p with
  | [] => (t, Some (eexist seen))
  | c :: p' =>
      let here := seen ++ [c] in
      if c =? ".." then
        match p' with
        | [] => (t, Some (eexist here))
        | _ => makedirs t (parent cur) here p'
        end
      else match get (cur ++ [c]) t with
           | Some (Dir _) =>
               match p' with
               | [] => (t, Some (eexist here))
               | _ => makedirs t (cur ++ [c]) here p'
               end
           | Some (File _) =>
               (t, Some (match p' with
                         | [] => eexist here
                         | c1 :: _ => enotdir (here ++ [c1])
                         end))
           | None =>
               if long c then (t, Some (etoolong here))
               else match p' with
                    | [] => (put_at (cur ++ [c]) (Dir []) t, None)
                    | _ => makedirs (put_at (cur ++ [c]) (Dir []) t) (cur ++ [c]) here p'
                    end
           end
  end.

Fixpoint is_prefix (p q : path) : bool :=
  match p, q with
  | [], _ => true
  | c :: p', d :: q' => (c =? d) && is_prefix p' q'
  | _ :: _, [] => false
  end.

(** [q] without the prefix [p]. *)
Fixpoint below (p q : path) : option path :=
  match p, q with
  | [], _ => Some q
  | c :: p', d :: q' => if c =? d then below p' q' else None
  | _ :: _, [] => None
  end.

(** The destination [cd] lies in a directory that [src], with the
    entries [es], holds when the copy starts, and is not that directory:
    the copy of that directory then comes upon the destination. *)
Definition copies_into_itself (cs : path) (es : list (string * node)) (cd : path)
  : bool :=
  match below cs cd with
  | Some (b :: _ :: _) =>
      match find_entry b es with
      | Some (Dir _) => true
      | _ => false
      end
  | _ => false
  end.

(** [shutil.copytree(src, dst)]: lists [src] (which must be a
    directory), makes [dst] with [os.makedirs(dst)], then copies the
    entries it listed, the directories among them as they are when the
    copy comes to them.  Without permissions no single copy fails, so
    the outcome is the listed tree at [dst]; a destination that is a new
    entry of [src] itself is not among the entries listed.  When the
    copy comes upon its own destination it descends into what it is
    writing until the interpreter stops it: [into_itself] is what it has
    left by then and the text of the exception. *)
Definition tree_copytree (into_itself : path -> path -> node -> node * string)
  (src dst : path) (t : node) : node * option string :=
  match realpath t src with
  | None => (t, Some (lookup_error t src))
  | Some cs =>
      match get cs t with
      | Some (Dir es) =>
          let (t1, r) := makedirs t [] [] dst in
          match r with
          | Some err => (t1, Some err)
          | None =>
              match realpath t1 dst with
              | None => (t1, Some (enoent dst))
              | Some cd =>
                  if copies_into_itself cs es cd
                  then let (t2, err) := into_itself src dst t1 in (t2, Some err)
                  else (put_at cd (Dir es) t1, None)
              end
          end
      | _ => (t, Some (enotdir src))
      end
  end.

End Tree.

(** What [shutil.copytree] does once it copies a directory into itself
    depends on the interpreter, which ends the descent with a
    [RecursionError] or with the error of a path grown too long: what is
    left of the tree and the text of the exception, for a source, a
    destination and the tree after [os.makedirs]. *)
Class Interpreter := {
  copy_into_itself : path -> path -> node -> node * string
}.

#[export] Instance tree_fs `{Interpreter} : FileSystem node := {
  fs_exists := Tree.tree_exists;
  fs_is_dir := Tree.tree_is_dir;
  fs_iterdir := Tree.tree_iterdir;
  fs_rmtree := Tree.tree_rmtree;
  fs_mkdir_parents := Tree.tree_mkdir_parents;
  fs_copytree := Tree.tree_copytree copy_into_itself
}.

(** Running a script: the exit status, what was printed and the file
    system left behind. *)
Definition start (t : node) : state node := {| world := t; stdout := [] |}.

(* ===================================================================== *)
(** ** Properties that hold for every file system *)
(* ===================================================================== *)

Unset Implicit Arguments.

(** Unfolds the monad down to functions on states. *)
Arguments joinpath : simpl never.
Arguments parent : simpl never.
Arguments name : simpl never.
Arguments str : simpl never.
Arguments str_nat : simpl never.
Arguments repeat_char : simpl never.
Arguments upper : simpl never.
Arguments String.append : simpl never.

Ltac run :=
  unfold exists_, is_dir, iterdir, rmtree, mkdir_parents, copytree,
    read, read_or_raise, write_or_raise, try_except,
    print, print_help, sys_exit, raise, bind, ret;
  simpl.

Section AnyFileSystem.

Context {W : Type} `{FileSystem W}.
Variable e : env.

Import SkillsManager.

(** [args] with another scope. *)
Definition with_scope (a : args) (sc : string) : args :=
  {| target := target a; scope := sc; command := command a;
     skill := skill a; all := all a |}.

Definition downgrade_warning : output :=
  Line "Warning: Open Code does not support workspace scope. Using global scope.".

Definition opencode_global : path :=
  home e ++ [".config"; "opencode"; "skills"].

Lemma get_dest_opencode (sc : string) (s : state W) :
  get_dest_skills_dir e "opencode" sc s = (Normal opencode_global, s).
Proof.
  unfold get_dest_skills_dir, opencode_global. simpl. run.
  unfold joinpath. simpl. rewrite <- !app_assoc. reflexivity.
Qed.

(** C8.  For the target opencode every scope resolves to the one
    user-global directory [~/.config/opencode/skills]; and a run with
    target opencode and scope workspace prints the downgrade warning
    and then is the run with scope global: same destination, same
    result. *)
Theorem opencode_workspace_is_global :
  (forall (sc : string) (s : state W),
      get_dest_skills_dir e "opencode" sc s = (Normal opencode_global, s))
  /\
  (forall (a : args) (s : state W),
      truthy (command a) = true ->
      target a = "opencode" ->
      scope a = "workspace" ->
      main e a s
      = main e (with_scope a "global")
          {| world := world s; stdout := stdout s ++ [downgrade_warning] |}).
Proof.
  split.
  - intros sc s. apply get_dest_opencode.
  - intros [tg sc cmd sk al] s Hc Ht Hs. simpl in *. subst tg sc.
    unfold main, validate_scope, with_scope, command_is. simpl.
    rewrite Hc. reflexivity.
Qed.

End AnyFileSystem.

(* ===================================================================== *)
(** ** Destination resolution *)
(* ===================================================================== *)

Lemma path_eqb_eq (p q : path) : path_eqb p q = true <-> p = q.
Proof.
  unfold path_eqb. destruct (list_eq_dec string_dec p q); split; congruence.
Qed.

Lemma length_parent (p : path) : List.length (parent p) = pred (List.length p).
Proof.
  unfold parent. induction p as [|c p IH]; [reflexivity|].
  destruct p as [|d p]; [reflexivity|].
  change (removelast (c :: d :: p)) with (c :: removelast (d :: p)).
  simpl List.length in *. rewrite IH. reflexivity.
Qed.

(** Only the root is its own parent: the test of the [while] loop. *)
Lemma path_eqb_parent (p : path) :
  path_eqb p (parent p) = match p with [] => true | _ => false end.
Proof.
  destruct p as [|c p]; [reflexivity|].
  destruct (path_eqb (c :: p) (parent (c :: p))) eqn:E; [|reflexivity].
  apply path_eqb_eq in E. apply (f_equal (@List.length string)) in E.
  rewrite length_parent in E. simpl in E. lia.
Qed.

Lemma parent_snoc (p : path) (c : string) : parent (p ++ [c]) = p.
Proof. unfold parent. apply removelast_last. Qed.

Lemma joinpath_agent (p : path) : (p / ".agent")%path = p ++ [".agent"].
Proof. reflexivity. Qed.

Section Resolution.

Context {W : Type} `{FileSystem W}.
Variable e : env.

Import SkillsManager.

(** The directory [d] holds a directory [.agent]: the test of the loop,
    [agent_dir.exists() and agent_dir.is_dir()], or the exception of
    [exists]. *)
Definition has_marker (w : W) (d : path) : string + bool :=
  match fs_exists (d ++ [".agent"]) w with
  | inr true => inr (fs_is_dir (d ++ [".agent"]) w)
  | other => other
  end.

(** One turn of the loop. *)
Lemma search_up_step (k : nat) (c : string) (p : path) (s : state W) :
  search_up (S k) (p ++ [c]) s
  = match has_marker (world s) (p ++ [c]) with
    | inr true => (Normal (Some (p ++ [c] ++ [".agent"; "skills"])), s)
    | inr false => search_up k p s
    | inl err => (Raised err, s)
    end.
Proof.
  simpl. rewrite path_eqb_parent.
  destruct (p ++ [c]) as [|x q] eqn:E.
  { destruct p; discriminate. }
  rewrite <- E. rewrite parent_snoc. unfold has_marker. run.
  rewrite joinpath_agent.
  destruct (fs_exists ((p ++ [c]) ++ [".agent"]) (world s)) as [err|[|]];
    simpl; [reflexivity| |reflexivity].
  destruct (fs_is_dir ((p ++ [c]) ++ [".agent"]) (world s)); simpl; [|reflexivity].
  unfold joinpath. simpl. rewrite <- !app_assoc. reflexivity.
Qed.

(** The fuel [length current] never runs out before the loop ends: more
    fuel gives the same answer. *)
Lemma search_up_fuel (current : path) (extra : nat) (s : state W) :
  search_up (List.length current + extra) current s
  = search_up (List.length current) current s.
Proof.
  induction current as [|c p IH] using rev_ind.
  - simpl. destruct extra; reflexivity.
  - rewrite length_app. simpl List.length.
    replace (List.length p + 1 + extra) with (S (List.length p + extra)) by lia.
    replace (List.length p + 1) with (S (List.length p)) by lia.
    rewrite !search_up_step. rewrite IH. reflexivity.
Qed.

(** The nearest marked ancestor below the root wins. *)
Lemma search_up_found (anc rest : path) (s : state W) :
  anc <> [] ->
  has_marker (world s) anc = inr true ->
  (forall r r', rest = r ++ r' -> r <> [] ->
                has_marker (world s) (anc ++ r) = inr false) ->
  search_up (List.length (anc ++ rest)) (anc ++ rest) s
  = (Normal (Some (anc ++ [".agent"; "skills"])), s).
Proof.
  intros Hne Hm. induction rest as [|c p IH] using rev_ind; intros Hbelow.
  - rewrite app_nil_r.
    destruct (exists_last Hne) as [q [c ->]].
    rewrite length_app. simpl List.length.
    replace (List.length q + 1) with (S (List.length q)) by lia.
    rewrite search_up_step, Hm. rewrite <- app_assoc. reflexivity.
  - rewrite app_assoc. rewrite length_app. simpl List.length.
    replace (List.length (anc ++ p) + 1) with (S (List.length (anc ++ p))) by lia.
    rewrite search_up_step. rewrite <- app_assoc.
    rewrite (Hbelow (p ++ [c]) []).
    + apply IH. intros r r' -> Hr.
      apply (Hbelow r (r' ++ [c])); [|assumption].
      rewrite app_assoc. reflexivity.
    + rewrite app_nil_r. reflexivity.
    + destruct p; discriminate.
Qed.

(** Without a marked ancestor below the root the loop ends at the root. *)
Lemma search_up_none (current : path) (s : state W) :
  (forall anc rest, current = anc ++ rest -> anc <> [] ->
                    has_marker (world s) anc = inr false) ->
  search_up (List.length current) current s = (Normal None, s).
Proof.
  induction current as [|c p IH] using rev_ind; intros Hnone.
  - reflexivity.
  - rewrite length_app. simpl List.length.
    replace (List.length p + 1) with (S (List.length p)) by lia.
    rewrite search_up_step.
    rewrite (Hnone (p ++ [c]) []).
    + apply IH. intros anc rest -> Hne.
      apply (Hnone anc (rest ++ [c])); [|assumption].
      rewrite app_assoc. reflexivity.
    + rewrite app_nil_r. reflexivity.
    + destruct p; discriminate.
Qed.

Definition workspace_dest (s : state W) : control path * state W :=
  get_dest_skills_dir e "antigravity" "workspace" s.

Lemma workspace_dest_unfold (s : state W) :
  workspace_dest s
  = match search_up (List.length (cwd e)) (cwd e) s with
    | (Normal (Some d), s') => (Normal d, s')
    | (Normal None, s') => (Normal (cwd e ++ [".agent"; "skills"]), s')
    | (Exited c, s') => (Exited c, s')
    | (Raised x, s') => (Raised x, s')
    end.
Proof.
  unfold workspace_dest, get_dest_skills_dir. simpl. unfold bind.
  destruct (search_up (List.length (cwd e)) (cwd e) s) as [[[d|]|c|x] s']; try reflexivity.
  unfold ret, joinpath. simpl. rewrite <- !app_assoc. reflexivity.
Qed.

(** C3, as amended.  When exactly one ancestor of the current directory
    below the file system root (the current directory counts) holds a
    directory [.agent], the test of the loop giving [True] there and
    [False] at every other one, workspace resolution for antigravity
    returns [<ancestor>/.agent/skills], whichever descendant of it is
    current; when no ancestor below the root holds one, it returns
    [<cwd>/.agent/skills]. *)
Theorem workspace_resolution (s : state W) :
  (forall anc rest : path,
      cwd e = anc ++ rest ->
      anc <> [] ->
      has_marker (world s) anc = inr true ->
      (forall anc' rest' : path,
          cwd e = anc' ++ rest' -> anc' <> [] ->
          anc' <> anc -> has_marker (world s) anc' = inr false) ->
      workspace_dest s = (Normal (anc ++ [".agent"; "skills"]), s))
  /\
  ((forall anc rest : path,
       cwd e = anc ++ rest -> anc <> [] -> has_marker (world s) anc = inr false) ->
   workspace_dest s = (Normal (cwd e ++ [".agent"; "skills"]), s)).
Proof.
  split.
  - intros anc rest Hcwd Hne Hm Huniq.
    rewrite workspace_dest_unfold, Hcwd.
    rewrite search_up_found; try assumption; [reflexivity|].
    intros r r' -> Hr.
    apply (Huniq (anc ++ r) r').
    + rewrite Hcwd, app_assoc. reflexivity.
    + destruct anc; [congruence|discriminate].
    + intros Heq. apply (f_equal (@List.length string)) in Heq.
      rewrite length_app in Heq. destruct r; [congruence|]. simpl in Heq. lia.
  - intros Hnone. rewrite workspace_dest_unfold.
    rewrite search_up_none; [reflexivity|assumption].
Qed.

End Resolution.

(* ===================================================================== *)
(** ** Runs of the two scripts, for every file system *)
(* ===================================================================== *)

Lemma name_snoc (p : path) (c : string) : name (p ++ [c]) = c.
Proof. unfold name. apply last_last. Qed.

Lemma snoc_lines (A : Type) (l : list A) (x : A) (m : list A) :
  (l ++ [x]) ++ m = l ++ x :: m.
Proof. rewrite <- app_assoc. reflexivity. Qed.

(** Puts the lines printed by a run in the form [stdout s ++ lines]. *)
Ltac lines := repeat rewrite snoc_lines; repeat rewrite <- app_assoc; simpl.

Section Runs.

Context {W : Type} `{FileSystem W}.
Variable e : env.

(** [p] exists and is a directory: [p.exists() and p.is_dir()], or the
    exception of [exists]. *)
Definition dir_at (w : W) (p : path) : string + bool :=
  match fs_exists p w with
  | inr true => inr (fs_is_dir p w)
  | other => other
  end.

Lemma dir_at_true (w : W) (p : path) :
  dir_at w p = inr true -> fs_exists p w = inr true /\ fs_is_dir p w = true.
Proof.
  unfold dir_at. destruct (fs_exists p w) as [err|[|]]; try discriminate.
  intros E. injection E as E. split; [reflexivity|exact E].
Qed.

(** [<repo>/skills], where the installer looks for the skills. *)
Definition oc_source : path := parent (parent (script e)) ++ ["skills"].

(** [~/.config/opencode/skills] *)
Definition oc_dest : path := home e ++ [".config"; "opencode"; "skills"].

(** [<repo>], where the manager looks for the skills. *)
Definition sm_source : path := parent (parent (script e)).

Lemma oc_get_source_ok (s : state W) :
  dir_at (world s) oc_source = inr true ->
  OpencodeInstaller.get_source_skills_dir e s = (Normal oc_source, s).
Proof.
  unfold OpencodeInstaller.get_source_skills_dir. intros Hd.
  apply dir_at_true in Hd. destruct Hd as [He Hd].
  change (parent (parent (script e)) / "skills")%path with oc_source.
  run. rewrite He. simpl. rewrite Hd. reflexivity.
Qed.

Lemma oc_get_dest (s : state W) :
  OpencodeInstaller.get_dest_skills_dir e s = (Normal oc_dest, s).
Proof.
  unfold OpencodeInstaller.get_dest_skills_dir, oc_dest, ret, joinpath. simpl.
  rewrite <- !app_assoc. reflexivity.
Qed.

Lemma sm_get_source_ok (s : state W) :
  dir_at (world s) sm_source = inr true ->
  SkillsManager.get_source_skills_dir e s = (Normal sm_source, s).
Proof.
  unfold SkillsManager.get_source_skills_dir. intros Hd.
  apply dir_at_true in Hd. destruct Hd as [He Hd].
  fold sm_source. run. rewrite He. simpl. rewrite Hd. reflexivity.
Qed.

(** The two scripts share [install_skill], [remove_skill] and the loops. *)
Lemma install_skill_same :
  SkillsManager.install_skill (W := W) = OpencodeInstaller.install_skill (W := W).
Proof. reflexivity. Qed.

Lemma remove_skill_same :
  SkillsManager.remove_skill (W := W) = OpencodeInstaller.remove_skill (W := W).
Proof. reflexivity. Qed.


Lemma remove_each_same :
  SkillsManager.remove_each (W := W) = OpencodeInstaller.remove_each (W := W).
Proof. reflexivity. Qed.

(** *** One skill *)

Definition installing (n : string) : output := Line ("Installing '" ++ n ++ "'...").
Definition removing (n : string) : output := Line ("Removing '" ++ n ++ "'...").

Definition missing_source (n : string) (src : path) : output :=
  Line ("  Warning: Source skill '" ++ n ++ "' not found at " ++ str src ++ ". Skipping.").

Definition install_error (n err : string) : output :=
  Line ("  ❌ Error installing " ++ n ++ ": " ++ err).

Definition remove_error (n err : string) : output :=
  Line ("  ❌ Error removing " ++ n ++ ": " ++ err).

(** The file system in front of each library call of [install_skill],
    and what the call raises.  [dest_path.exists()] stands inside the
    [try] block: what it raises is caught like the exception of
    [shutil.rmtree]. *)
Definition before_mkdir (dst : path) (w : W) : W :=
  match fs_exists dst w with
  | inr true => fst (fs_rmtree dst w)
  | _ => w
  end.

Definition rmtree_raises (dst : path) (w : W) : option string :=
  match fs_exists dst w with
  | inr true => snd (fs_rmtree dst w)
  | inr false => None
  | inl err => Some err
  end.

Definition before_copy (dst : path) (w : W) : W :=
  fst (fs_mkdir_parents (parent dst) (before_mkdir dst w)).

Definition mkdir_raises (dst : path) (w : W) : option string :=
  snd (fs_mkdir_parents (parent dst) (before_mkdir dst w)).

Definition after_copy (src dst : path) (w : W) : W :=
  fst (fs_copytree src dst (before_copy dst w)).

Definition copytree_raises (src dst : path) (w : W) : option string :=
  snd (fs_copytree src dst (before_copy dst w)).

(** The first of the calls in the [try] block that raises, with its
    text. *)
Definition install_raises (src dst : path) (w : W) : option string :=
  match rmtree_raises dst w with
  | Some err => Some err
  | None =>
      match mkdir_raises dst w with
      | Some err => Some err
      | None => copytree_raises src dst w
      end
  end.

(** The file system [install_skill] leaves when the source exists. *)
Definition install_world (src dst : path) (w : W) : W :=
  match rmtree_raises dst w with
  | Some _ => before_mkdir dst w
  | None =>
      match mkdir_raises dst w with
      | Some _ => before_copy dst w
      | None => after_copy src dst w
      end
  end.

(** [install_skill] when the source is missing: a warning, [False], and
    an untouched file system. *)
Lemma install_skill_missing (n : string) (src dst : path) (s : state W) :
  fs_exists src (world s) = inr false ->
  OpencodeInstaller.install_skill n src dst s
  = (Normal false,
     {| world := world s;
        stdout := stdout s ++ [installing n; missing_source n src] |}).
Proof.
  intros Hs. unfold OpencodeInstaller.install_skill. run. rewrite Hs. simpl.
  lines. reflexivity.
Qed.

(** [install_skill] when [source_path.exists()] raises: the call stands
    outside the [try] block, so the exception leaves [install_skill]. *)
Lemma install_skill_unreadable (n : string) (src dst : path) (s : state W)
  (err : string) :
  fs_exists src (world s) = inl err ->
  OpencodeInstaller.install_skill n src dst s
  = (Raised err,
     {| world := world s; stdout := stdout s ++ [installing n] |}).
Proof.
  intros Hs. unfold OpencodeInstaller.install_skill. run. rewrite Hs. reflexivity.
Qed.

(** [install_skill] when the source exists: it returns whether no call
    raised, and prints the text of the call that did. *)
Lemma install_skill_present (n : string) (src dst : path) (s : state W) :
  fs_exists src (world s) = inr true ->
  exists mid : list output,
    OpencodeInstaller.install_skill n src dst s
    = (Normal (match install_raises src dst (world s) with
               | Some _ => false
               | None => true
               end),
       {| world := install_world src dst (world s);
          stdout := stdout s ++ installing n :: mid
                    ++ [match install_raises src dst (world s) with
                        | Some err => install_error n err
                        | None => Line ("  ✅ Successfully installed to " ++ str dst)
                        end] |}).
Proof.
  intros Hs.
  unfold OpencodeInstaller.install_skill, install_raises, install_world,
    rmtree_raises, mkdir_raises, copytree_raises, after_copy, before_copy,
    before_mkdir.
  run. rewrite Hs. simpl.
  destruct (fs_exists dst (world s)) as [err|[|]]; simpl.
  - exists []. lines. reflexivity.
  - destruct (fs_rmtree dst (world s)) as [w1 [err|]]; simpl.
    + eexists [_]. lines. reflexivity.
    + destruct (fs_mkdir_parents (parent dst) w1) as [w2 [err|]]; simpl.
      * eexists [_]. lines. reflexivity.
      * destruct (fs_copytree src dst w2) as [w3 [err|]]; simpl;
          eexists [_]; lines; reflexivity.
  - destruct (fs_mkdir_parents (parent dst) (world s)) as [w2 [err|]]; simpl.
    + exists []. lines. reflexivity.
    + destruct (fs_copytree src dst w2) as [w3 [err|]]; simpl;
        exists []; lines; reflexivity.
Qed.


Definition missing_dest (n : string) (dst : path) : output :=
  Line ("  Warning: Skill '" ++ n ++ "' is not installed (path " ++ str dst
        ++ " not found). Skipping.").

Lemma remove_skill_missing (n : string) (dst : path) (s : state W) :
  fs_exists dst (world s) = inr false ->
  OpencodeInstaller.remove_skill n dst s
  = (Normal false,
     {| world := world s;
        stdout := stdout s ++ [removing n; missing_dest n dst] |}).
Proof.
  intros Hs. unfold OpencodeInstaller.remove_skill. run. rewrite Hs. simpl.
  lines. reflexivity.
Qed.

(** [remove_skill] when [dest_path.exists()] raises: the call stands
    outside the [try] block. *)
Lemma remove_skill_unreadable (n : string) (dst : path) (s : state W)
  (err : string) :
  fs_exists dst (world s) = inl err ->
  OpencodeInstaller.remove_skill n dst s
  = (Raised err,
     {| world := world s; stdout := stdout s ++ [removing n] |}).
Proof.
  intros Hs. unfold OpencodeInstaller.remove_skill. run. rewrite Hs. reflexivity.
Qed.

Lemma remove_skill_present (n : string) (dst : path) (s : state W) :
  fs_exists dst (world s) = inr true ->
  OpencodeInstaller.remove_skill n dst s
  = (Normal (match snd (fs_rmtree dst (world s)) with
             | Some _ => false
             | None => true
             end),
     {| world := fst (fs_rmtree dst (world s));
        stdout := stdout s
                  ++ [removing n;
                      match snd (fs_rmtree dst (world s)) with
                      | Some err => remove_error n err
                      | None => Line ("  ✅ Successfully removed " ++ str dst)
                      end] |}).
Proof.
  intros Hs. unfold OpencodeInstaller.remove_skill. run. rewrite Hs. simpl.
  destruct (fs_rmtree dst (world s)) as [w1 [err|]]; simpl; lines; reflexivity.
Qed.


End Runs.

(* ===================================================================== *)
(** ** Batches *)
(* ===================================================================== *)

Section Batches.

Context {W : Type} `{FileSystem W}.
Variable e : env.

(** A comprehension whose test only reads the file system is a filter. *)
Lemma select_reads (keep : string -> M W bool) (f : string -> W -> bool)
  (names : list string) (s : state W) :
  (forall n s', keep n s' = (Normal (f n (world s')), s')) ->
  select keep names s = (Normal (filter (fun n => f n (world s)) names), s).
Proof.
  intros Hk. induction names as [|n rest IH]; [reflexivity|].
  simpl. unfold bind. rewrite Hk, IH. unfold ret.
  destruct (f n (world s)); reflexivity.
Qed.

(** The test of the comprehensions over a directory listing. *)
Definition visible (root : path) (w : W) (n : string) : bool :=
  fs_is_dir (root ++ [n]) w && negb (startswith n ".").

Definition installable (root : path) (w : W) (n : string) : bool :=
  fs_is_dir (root ++ [n]) w && negb (startswith n ".")
  && negb (SkillsManager.mem n SkillsManager.installer_dirs).

Lemma oc_visible_dir_reads (root : path) (n : string) (s : state W) :
  OpencodeInstaller.visible_dir root n s = (Normal (visible root (world s) n), s).
Proof.
  unfold OpencodeInstaller.visible_dir, visible. rewrite name_snoc. reflexivity.
Qed.

Lemma sm_visible_dir_reads (root : path) (n : string) (s : state W) :
  SkillsManager.visible_dir root n s = (Normal (visible root (world s) n), s).
Proof.
  unfold SkillsManager.visible_dir, visible. rewrite name_snoc. reflexivity.
Qed.

Lemma sm_installable_dir_reads (root : path) (n : string) (s : state W) :
  SkillsManager.installable_dir root n s = (Normal (installable root (world s) n), s).
Proof.
  unfold SkillsManager.installable_dir, installable. rewrite name_snoc. reflexivity.
Qed.

Definition found_to_install (l : list string) : output :=
  Line ("Found " ++ str_nat (List.length l) ++ " skills to install.").

Definition found_to_remove (l : list string) : output :=
  Line ("Found " ++ str_nat (List.length l) ++ " skills to remove.").


Definition removed_of (k n : nat) : output :=
  Line ("Done. Removed " ++ str_nat k ++ "/" ++ str_nat n ++ " skills.").

(** *** The loops *)











(** *** The selections with [--all] *)

Lemma oc_skills_to_remove_all (a : OpencodeInstaller.args) (d : path) (s : state W)
  (names : list string) :
  OpencodeInstaller.all a = true ->
  fs_exists d (world s) = inr true ->
  fs_iterdir d (world s) = inr names ->
  let l := filter (visible d (world s)) names in
  OpencodeInstaller.skills_to_remove a d s
  = (Normal l, {| world := world s; stdout := stdout s ++ [found_to_remove l] |}).
Proof.
  intros Ha Hex Hit l. unfold OpencodeInstaller.skills_to_remove.
  rewrite Ha. unfold bind at 1. unfold exists_, read_or_raise. rewrite Hex. cbn [negb].
  unfold bind at 1. unfold ret at 1. unfold bind at 1.
  unfold iterdir, read_or_raise. rewrite Hit. unfold bind at 1.
  rewrite (select_reads _ (fun n w => visible d w n))
    by (intros; apply oc_visible_dir_reads).
  reflexivity.
Qed.

Lemma sm_skills_to_remove_all (a : SkillsManager.args) (d : path) (s : state W)
  (names : list string) :
  SkillsManager.all a = true ->
  fs_exists d (world s) = inr true ->
  fs_iterdir d (world s) = inr names ->
  let l := filter (visible d (world s)) names in
  SkillsManager.skills_to_remove a d s
  = (Normal l, {| world := world s; stdout := stdout s ++ [found_to_remove l] |}).
Proof.
  intros Ha Hex Hit l. unfold SkillsManager.skills_to_remove.
  rewrite Ha. unfold bind at 1. unfold exists_, read_or_raise. rewrite Hex. cbn [negb].
  unfold bind at 1. unfold ret at 1. unfold bind at 1.
  unfold iterdir, read_or_raise. rewrite Hit. unfold bind at 1.
  rewrite (select_reads _ (fun n w => visible d w n))
    by (intros; apply sm_visible_dir_reads).
  reflexivity.
Qed.

(** [remove --all] with a destination root that can be listed: the
    selection, the loop and the summary. *)
Lemma oc_dispatch_remove_all (a : OpencodeInstaller.args) (sroot d : path)
  (s : state W) (names : list string) (k : nat) (s' : state W) :
  OpencodeInstaller.command a = Some "remove" ->
  OpencodeInstaller.all a = true ->
  fs_exists d (world s) = inr true ->
  fs_iterdir d (world s) = inr names ->
  let l := filter (visible d (world s)) names in
  OpencodeInstaller.remove_each d l 0
    {| world := world s; stdout := stdout s ++ [found_to_remove l] |}
  = (Normal k, s') ->
  OpencodeInstaller.dispatch a sroot d s
  = (Normal tt,
     {| world := world s';
        stdout := stdout s' ++ [Line (repeat_char "-" 50);
                                removed_of k (List.length l)] |}).
Proof.
  intros Hc Ha Hex Hit l Hrun. unfold OpencodeInstaller.dispatch.
  unfold OpencodeInstaller.command_is. rewrite Hc. simpl.
  rewrite Ha, andb_false_r.
  unfold bind at 1. unfold ret at 1. unfold bind at 1.
  rewrite (oc_skills_to_remove_all a d s names Ha Hex Hit).
  unfold bind at 1. fold l. rewrite Hrun.
  unfold bind, print. cbn [world stdout]. lines. reflexivity.
Qed.

Lemma sm_dispatch_remove_all (a : SkillsManager.args) (sroot d : path)
  (s : state W) (names : list string) (k : nat) (s' : state W) :
  SkillsManager.command a = Some "remove" ->
  SkillsManager.all a = true ->
  fs_exists d (world s) = inr true ->
  fs_iterdir d (world s) = inr names ->
  let l := filter (visible d (world s)) names in
  SkillsManager.remove_each d l 0
    {| world := world s; stdout := stdout s ++ [found_to_remove l] |}
  = (Normal k, s') ->
  SkillsManager.dispatch a sroot d s
  = (Normal tt,
     {| world := world s';
        stdout := stdout s' ++ [Line (repeat_char "=" 60);
                                removed_of k (List.length l)] |}).
Proof.
  intros Hc Ha Hex Hit l Hrun. unfold SkillsManager.dispatch.
  unfold SkillsManager.command_is. rewrite Hc. simpl.
  rewrite Ha, andb_false_r.
  unfold bind at 1. unfold ret at 1. unfold bind at 1.
  rewrite (sm_skills_to_remove_all a d s names Ha Hex Hit).
  unfold bind at 1. fold l. rewrite Hrun.
  unfold bind, print. cbn [world stdout]. lines. reflexivity.
Qed.





(** [main] up to the dispatch on the command. *)
Definition oc_header : list output :=
  [Line ("Source:      " ++ str (oc_source e));
   Line ("Destination: " ++ str (oc_dest e));
   Line (repeat_char "-" 50)].

Lemma oc_main_run (a : OpencodeInstaller.args) (s : state W) :
  truthy (OpencodeInstaller.command a) = true ->
  dir_at (world s) (oc_source e) = inr true ->
  OpencodeInstaller.main e a s
  = OpencodeInstaller.dispatch a (oc_source e) (oc_dest e)
      {| world := world s; stdout := stdout s ++ oc_header |}.
Proof.
  intros Hc Hsrc. unfold OpencodeInstaller.main. rewrite Hc. simpl.
  unfold bind at 1. unfold ret at 1. unfold bind at 1.
  rewrite oc_get_source_ok by assumption.
  unfold bind at 1. rewrite oc_get_dest.
  unfold oc_header. run. lines. reflexivity.
Qed.

(** *** A batch of the installer, from the selection to the summary *)






End Batches.

(* ===================================================================== *)
(** ** Failures, missing sources and missing destinations *)
(* ===================================================================== *)

Section Failures.

Context {W : Type} `{FileSystem W}.
Variable e : env.

Lemma oc_skills_to_remove_missing (a : OpencodeInstaller.args) (root : path)
  (s : state W) :
  OpencodeInstaller.all a = true ->
  fs_exists root (world s) = inr false ->
  OpencodeInstaller.skills_to_remove a root s
  = (Exited 0,
     {| world := world s; stdout := stdout s ++ [Line "No skills to remove."] |}).
Proof.
  intros Ha Hd. unfold OpencodeInstaller.skills_to_remove. rewrite Ha.
  run. rewrite Hd. reflexivity.
Qed.


End Failures.

(* ===================================================================== *)
(** ** What reads and what deletes *)
(* ===================================================================== *)

Section Effects.

Context {W : Type} `{FileSystem W}.

(** A computation that leaves the file system as it found it. *)
Definition reads_only {A : Type} (m : M W A) : Prop :=
  forall s, world (snd (m s)) = world s.

(** [w'] is [w] after some calls of [shutil.rmtree] and nothing else. *)
Inductive deleted_from (w : W) : W -> Prop :=
| deleted_none : deleted_from w w
| deleted_more (p : path) (w' : W) :
    deleted_from w w' -> deleted_from w (fst (fs_rmtree p w')).

(** A computation that changes the file system by [shutil.rmtree] only. *)
Definition deletes_only {A : Type} (m : M W A) : Prop :=
  forall s, deleted_from (world s) (world (snd (m s))).

Lemma deleted_trans (w1 w2 w3 : W) :
  deleted_from w1 w2 -> deleted_from w2 w3 -> deleted_from w1 w3.
Proof.
  intros H12 H23. induction H23; [assumption|].
  apply deleted_more. assumption.
Qed.

Lemma reads_deletes {A : Type} (m : M W A) : reads_only m -> deletes_only m.
Proof. intros Hm s. rewrite Hm. apply deleted_none. Qed.

Lemma ret_reads {A : Type} (a : A) : reads_only (ret a : M W A).
Proof. intros s. reflexivity. Qed.

Lemma print_reads (l : string) : reads_only (print l : M W unit).
Proof. intros s. reflexivity. Qed.

Lemma print_help_reads : reads_only (print_help : M W unit).
Proof. intros s. reflexivity. Qed.

Lemma sys_exit_reads {A : Type} (c : Z) : reads_only (sys_exit c : M W A).
Proof. intros s. reflexivity. Qed.

Lemma exists_reads (p : path) : reads_only (exists_ p).
Proof.
  intros s. unfold exists_, read_or_raise.
  destruct (fs_exists p (world s)); reflexivity.
Qed.

Lemma is_dir_reads (p : path) : reads_only (is_dir p).
Proof. intros s. reflexivity. Qed.

Lemma iterdir_reads (p : path) : reads_only (iterdir p).
Proof.
  intros s. unfold iterdir, read_or_raise.
  destruct (fs_iterdir p (world s)); reflexivity.
Qed.

Lemma bind_reads {A B : Type} (m : M W A) (k : A -> M W B) :
  reads_only m -> (forall a, reads_only (k a)) -> reads_only (bind m k).
Proof.
  intros Hm Hk s. unfold bind. specialize (Hm s).
  destruct (m s) as [[a|c|x] s']; simpl in *; try assumption.
  rewrite Hk. assumption.
Qed.

Lemma bind_deletes {A B : Type} (m : M W A) (k : A -> M W B) :
  deletes_only m -> (forall a, deletes_only (k a)) -> deletes_only (bind m k).
Proof.
  intros Hm Hk s. unfold bind. specialize (Hm s).
  destruct (m s) as [[a|c|x] s']; simpl in *; try assumption.
  eapply deleted_trans; [eassumption|apply Hk].
Qed.

Lemma try_deletes {A : Type} (m : M W A) (h : string -> M W A) :
  deletes_only m -> (forall x, deletes_only (h x)) -> deletes_only (try_except m h).
Proof.
  intros Hm Hh s. unfold try_except. specialize (Hm s).
  destruct (m s) as [[a|c|x] s']; simpl in *; try assumption.
  eapply deleted_trans; [eassumption|apply Hh].
Qed.

Lemma rmtree_deletes (p : path) : deletes_only (rmtree p).
Proof.
  intros s. unfold rmtree, write_or_raise.
  pose proof (deleted_more (world s) p (world s) (deleted_none _)) as Hd.
  destruct (fs_rmtree p (world s)) as [w' [x|]]; exact Hd.
Qed.

Lemma select_reads_only (keep : string -> M W bool) (names : list string) :
  (forall n, reads_only (keep n)) -> reads_only (select keep names).
Proof.
  intros Hk. induction names as [|n rest IH]; simpl.
  - apply ret_reads.
  - apply bind_reads; [apply Hk|intros b].
    apply bind_reads; [apply IH|intros l]. apply ret_reads.
Qed.

End Effects.

(** Proves [reads_only] for straight-line code over reading calls. *)
Ltac reads :=
  repeat first
    [ apply ret_reads | apply print_reads | apply print_help_reads
    | apply sys_exit_reads | apply exists_reads | apply is_dir_reads
    | apply iterdir_reads
    | apply bind_reads; [|intro]
    | match goal with
      | |- reads_only (if ?b then _ else _) => destruct b
      | |- reads_only (match ?x with _ => _ end) => destruct x
      end ].

Section EffectsOfTheScripts.

Context {W : Type} `{FileSystem W}.
Variable e : env.

Lemma search_up_reads_only (k : nat) :
  forall current : path, reads_only (SkillsManager.search_up (W := W) k current).
Proof.
  induction k as [|k IH]; intros current; simpl.
  - apply ret_reads.
  - destruct (path_eqb current (parent current)); [apply ret_reads|].
    apply bind_reads; [apply exists_reads|intros ex].
    apply bind_reads; [destruct ex; reads|intros found].
    destruct found; [apply ret_reads|apply IH].
Qed.

Lemma sm_get_dest_reads (tg sc : string) :
  reads_only (SkillsManager.get_dest_skills_dir (W := W) e tg sc).
Proof.
  unfold SkillsManager.get_dest_skills_dir.
  destruct (tg =? "opencode"); [apply ret_reads|].
  destruct (tg =? "antigravity"); [|reads].
  destruct (sc =? "global"); [apply ret_reads|].
  apply bind_reads; [apply search_up_reads_only|intros r].
  destruct r; apply ret_reads.
Qed.

Lemma oc_get_dest_reads :
  reads_only (OpencodeInstaller.get_dest_skills_dir (W := W) e).
Proof. apply ret_reads. Qed.

Lemma sm_get_source_reads :
  reads_only (SkillsManager.get_source_skills_dir (W := W) e).
Proof. unfold SkillsManager.get_source_skills_dir. reads. Qed.

Lemma oc_get_source_reads :
  reads_only (OpencodeInstaller.get_source_skills_dir (W := W) e).
Proof. unfold OpencodeInstaller.get_source_skills_dir. reads. Qed.

Lemma sm_print_each_reads (l : list string) :
  reads_only (SkillsManager.print_each (W := W) l).
Proof. induction l; simpl; [apply ret_reads|]. apply bind_reads; [reads|intro; assumption]. Qed.

Lemma oc_print_each_reads (l : list string) :
  reads_only (OpencodeInstaller.print_each (W := W) l).
Proof. induction l; simpl; [apply ret_reads|]. apply bind_reads; [reads|intro; assumption]. Qed.

Lemma sm_list_reads (d : path) :
  reads_only (SkillsManager.list_installed_skills (W := W) d).
Proof.
  unfold SkillsManager.list_installed_skills.
  apply bind_reads; [reads|intros ex]. destruct (negb ex); [reads|].
  apply bind_reads; [reads|intros entries].
  apply bind_reads.
  - apply select_reads_only. intros n. unfold SkillsManager.visible_dir. reads.
  - intros [|x l]; [reads|].
    apply bind_reads; [reads|intro]. apply sm_print_each_reads.
Qed.

Lemma oc_list_reads (d : path) :
  reads_only (OpencodeInstaller.list_installed_skills (W := W) d).
Proof.
  unfold OpencodeInstaller.list_installed_skills.
  apply bind_reads; [reads|intros ex]. destruct (negb ex); [reads|].
  apply bind_reads; [reads|intros entries].
  apply bind_reads.
  - apply select_reads_only. intros n. unfold OpencodeInstaller.visible_dir. reads.
  - intros [|x l]; [reads|].
    apply bind_reads; [reads|intro]. apply oc_print_each_reads.
Qed.

Lemma remove_skill_deletes (n : string) (dst : path) :
  deletes_only (OpencodeInstaller.remove_skill (W := W) n dst).
Proof.
  unfold OpencodeInstaller.remove_skill.
  apply bind_deletes; [apply reads_deletes; reads|intros _].
  apply bind_deletes; [apply reads_deletes; reads|intros ex].
  destruct (negb ex); [apply reads_deletes; reads|].
  apply try_deletes.
  - apply bind_deletes; [apply rmtree_deletes|intros _]. apply reads_deletes. reads.
  - intros x. apply reads_deletes. reads.
Qed.

Lemma remove_each_deletes (droot : path) (names : list string) :
  forall k, deletes_only (OpencodeInstaller.remove_each (W := W) droot names k).
Proof.
  induction names as [|n rest IH]; intros k; simpl.
  - apply reads_deletes, ret_reads.
  - apply bind_deletes; [apply remove_skill_deletes|intros ok]. apply IH.
Qed.

Lemma sm_skills_to_remove_reads (a : SkillsManager.args) (d : path) :
  reads_only (SkillsManager.skills_to_remove (W := W) a d).
Proof.
  unfold SkillsManager.skills_to_remove. destruct (SkillsManager.all a); [|reads].
  apply bind_reads; [reads|intros ex].
  apply bind_reads; [reads|intros _].
  apply bind_reads; [reads|intros entries].
  apply bind_reads; [|intro; reads].
  apply select_reads_only. intros n. unfold SkillsManager.visible_dir. reads.
Qed.

Lemma oc_skills_to_remove_reads (a : OpencodeInstaller.args) (d : path) :
  reads_only (OpencodeInstaller.skills_to_remove (W := W) a d).
Proof.
  unfold OpencodeInstaller.skills_to_remove. destruct (OpencodeInstaller.all a); [|reads].
  apply bind_reads; [reads|intros ex].
  apply bind_reads; [reads|intros _].
  apply bind_reads; [reads|intros entries].
  apply bind_reads; [|intro; reads].
  apply select_reads_only. intros n. unfold OpencodeInstaller.visible_dir. reads.
Qed.

End EffectsOfTheScripts.

(* ===================================================================== *)
(** ** Resolution reads, and only install creates *)
(* ===================================================================== *)

Section Destinations.

Context {W : Type} `{FileSystem W}.
Variable e : env.

(** What the upward search finds in the file system [w], or the
    exception that ends it. *)
Fixpoint marked (w : W) (fuel : nat) (current : path) : string + option path :=
  match fuel with
  | O => inr None
  | S k =>
      match current with
      | [] => inr None
      | _ =>
          match has_marker w current with
          | inr true => inr (Some (current ++ [".agent"; "skills"]))
          | inr false => marked w k (parent current)
          | inl err => inl err
          end
      end
  end.

Lemma search_up_run (k : nat) :
  forall (current : path) (s : state W),
    SkillsManager.search_up k current s
    = match marked (world s) k current with
      | inr r => (Normal r, s)
      | inl err => (Raised err, s)
      end.
Proof.
  induction k as [|k IH]; intros current s; [reflexivity|].
  simpl. rewrite path_eqb_parent.
  destruct current as [|c p]; [reflexivity|].
  unfold has_marker. rewrite joinpath_agent. run.
  destruct (fs_exists _ (world s)) as [err|[|]]; simpl;
    [reflexivity|destruct (fs_is_dir _ (world s)); simpl|];
    try apply IH.
  unfold joinpath. simpl. rewrite <- app_assoc. reflexivity.
Qed.

Lemma marked_snoc (w : W) (k : nat) (p : path) (c : string) :
  marked w (S k) (p ++ [c])
  = match has_marker w (p ++ [c]) with
    | inr true => inr (Some ((p ++ [c]) ++ [".agent"; "skills"]))
    | inr false => marked w k p
    | inl err => inl err
    end.
Proof.
  simpl. destruct (p ++ [c]) as [|x q] eqn:E.
  - destruct p; discriminate.
  - rewrite <- E, parent_snoc. reflexivity.
Qed.

(** The search looks at the ancestors of its start only. *)
Lemma marked_ancestors (w1 w2 : W) (current : path) :
  (forall anc rest, current = anc ++ rest -> has_marker w1 anc = has_marker w2 anc) ->
  forall k, marked w1 k current = marked w2 k current.
Proof.
  induction current as [|c p IH] using rev_ind; intros Hm k.
  - destruct k; reflexivity.
  - destruct k as [|k]; [reflexivity|]. rewrite !marked_snoc.
    rewrite (Hm (p ++ [c]) []) by (rewrite app_nil_r; reflexivity).
    rewrite (IH) with (k := k); [reflexivity|].
    intros anc rest ->. apply (Hm anc (rest ++ [c])).
    rewrite app_assoc. reflexivity.
Qed.

(** The scope [main] passes on after its check. *)
Definition effective_scope (a : SkillsManager.args) : string :=
  if (SkillsManager.target a =? "opencode") && (SkillsManager.scope a =? "workspace")
  then "global" else SkillsManager.scope a.

(** In the file system [w], the destination of target and scope is [d]. *)
Definition resolves_to (w : W) (tg sc : string) (d : path) : Prop :=
  forall s, world s = w ->
            SkillsManager.get_dest_skills_dir e tg sc s = (Normal d, s).

Lemma sm_get_dest_determined (tg sc : string) (s1 s2 : state W) :
  (forall anc rest, cwd e = anc ++ rest ->
                    has_marker (world s1) anc = has_marker (world s2) anc) ->
  fst (SkillsManager.get_dest_skills_dir e tg sc s1)
  = fst (SkillsManager.get_dest_skills_dir e tg sc s2).
Proof.
  intros Hm. unfold SkillsManager.get_dest_skills_dir.
  destruct (tg =? "opencode"); [reflexivity|].
  destruct (tg =? "antigravity"); [|reflexivity].
  destruct (sc =? "global"); [reflexivity|].
  unfold bind. rewrite !search_up_run.
  rewrite (marked_ancestors (world s1) (world s2) (cwd e) Hm).
  destruct (marked (world s2) (List.length (cwd e)) (cwd e)) as [err|[d|]];
    reflexivity.
Qed.

Lemma sm_dispatch_deletes (a : SkillsManager.args) (sroot droot : path) :
  SkillsManager.command_is a "install" = false ->
  deletes_only (SkillsManager.dispatch (W := W) a sroot droot).
Proof.
  intros Hc. unfold SkillsManager.dispatch. rewrite Hc.
  destruct (SkillsManager.command_is a "list").
  { apply reads_deletes, sm_list_reads. }
  destruct (SkillsManager.command_is a "remove"); [|apply reads_deletes, ret_reads].
  apply bind_deletes; [apply reads_deletes; reads|intros _].
  apply bind_deletes; [apply reads_deletes, sm_skills_to_remove_reads|intros l].
  apply bind_deletes; [rewrite remove_each_same; apply remove_each_deletes|intros k].
  apply reads_deletes. reads.
Qed.

Lemma oc_dispatch_deletes (a : OpencodeInstaller.args) (sroot droot : path) :
  OpencodeInstaller.command_is a "install" = false ->
  deletes_only (OpencodeInstaller.dispatch (W := W) a sroot droot).
Proof.
  intros Hc. unfold OpencodeInstaller.dispatch. rewrite Hc.
  destruct (OpencodeInstaller.command_is a "list").
  { apply reads_deletes, oc_list_reads. }
  destruct (OpencodeInstaller.command_is a "remove"); [|apply reads_deletes, ret_reads].
  apply bind_deletes; [apply reads_deletes; reads|intros _].
  apply bind_deletes; [apply reads_deletes, oc_skills_to_remove_reads|intros l].
  apply bind_deletes; [apply remove_each_deletes|intros k].
  apply reads_deletes. reads.
Qed.

Lemma sm_main_deletes (a : SkillsManager.args) :
  SkillsManager.command_is a "install" = false ->
  deletes_only (SkillsManager.main (W := W) e a).
Proof.
  intros Hc. unfold SkillsManager.main.
  apply bind_deletes; [apply reads_deletes; reads|intros _].
  apply bind_deletes; [apply reads_deletes; unfold SkillsManager.validate_scope; reads|intros sc].
  apply bind_deletes; [apply reads_deletes, sm_get_source_reads|intros sroot].
  apply bind_deletes; [apply reads_deletes, sm_get_dest_reads|intros droot].
  do 4 (apply bind_deletes; [apply reads_deletes; reads|intros _]).
  apply bind_deletes; [apply reads_deletes; reads|intros _].
  apply bind_deletes; [apply reads_deletes; reads|intros _].
  apply sm_dispatch_deletes, Hc.
Qed.

Lemma oc_main_deletes (a : OpencodeInstaller.args) :
  OpencodeInstaller.command_is a "install" = false ->
  deletes_only (OpencodeInstaller.main (W := W) e a).
Proof.
  intros Hc. unfold OpencodeInstaller.main.
  apply bind_deletes; [apply reads_deletes; reads|intros _].
  apply bind_deletes; [apply reads_deletes, oc_get_source_reads|intros sroot].
  apply bind_deletes; [apply reads_deletes, oc_get_dest_reads|intros droot].
  do 3 (apply bind_deletes; [apply reads_deletes; reads|intros _]).
  apply oc_dispatch_deletes, Hc.
Qed.

(** C9, as amended.  Destination resolution changes nothing in the file
    system and creates no directory.  The installer's destination is a
    constant of the home directory; the manager's is determined by the
    target, the scope, the home directory, the working directory and, for
    the workspace scope, by which ancestors of the working directory hold
    a directory [.agent], which it looks up.  A run that is not an install
    changes the file system by [shutil.rmtree] at most: the calls that
    create directories are made by install alone. *)
Theorem resolution_reads_only :
  (forall s : state W,
      OpencodeInstaller.get_dest_skills_dir e s = (Normal (oc_dest e), s))
  /\
  (forall (tg sc : string) (s : state W),
      world (snd (SkillsManager.get_dest_skills_dir e tg sc s)) = world s)
  /\
  (forall (tg sc : string) (s1 s2 : state W),
      (forall anc rest, cwd e = anc ++ rest ->
                        has_marker (world s1) anc = has_marker (world s2) anc) ->
      fst (SkillsManager.get_dest_skills_dir e tg sc s1)
      = fst (SkillsManager.get_dest_skills_dir e tg sc s2))
  /\
  (forall (a : SkillsManager.args) (s : state W),
      SkillsManager.command_is a "install" = false ->
      deleted_from (world s) (world (snd (SkillsManager.main e a s))))
  /\
  (forall (a : OpencodeInstaller.args) (s : state W),
      OpencodeInstaller.command_is a "install" = false ->
      deleted_from (world s) (world (snd (OpencodeInstaller.main e a s)))).
Proof.
  repeat apply conj.
  - apply oc_get_dest.
  - intros tg sc. apply sm_get_dest_reads.
  - apply sm_get_dest_determined.
  - intros a s Hc. apply sm_main_deletes, Hc.
  - intros a s Hc. apply oc_main_deletes, Hc.
Qed.

End Destinations.

(* ===================================================================== *)
(** ** Missing sources and missing destinations *)
(* ===================================================================== *)

Section Missing.

Context {W : Type} `{FileSystem W}.
Variable e : env.


(** What the manager prints before it dispatches on the command. *)
Definition sm_header (a : SkillsManager.args) (d : path) : list output :=
  (if (SkillsManager.target a =? "opencode") && (SkillsManager.scope a =? "workspace")
   then [downgrade_warning] else [])
  ++ [Line (repeat_char "=" 60);
      Line ("Target:      " ++ upper (SkillsManager.target a));
      Line ("Source:      " ++ str (sm_source e));
      Line ("Destination: " ++ str d)]
  ++ (if SkillsManager.target a =? "antigravity"
      then [Line ("Scope:       " ++ upper (effective_scope a))] else [])
  ++ [Line (repeat_char "=" 60)].

Lemma sm_main_run (a : SkillsManager.args) (s : state W) (d : path) :
  truthy (SkillsManager.command a) = true ->
  dir_at (world s) (sm_source e) = inr true ->
  resolves_to e (world s) (SkillsManager.target a) (effective_scope a) d ->
  SkillsManager.main e a s
  = SkillsManager.dispatch a (sm_source e) d
      {| world := world s; stdout := stdout s ++ sm_header a d |}.
Proof.
  intros Hc Hsrc Hd. unfold SkillsManager.main. rewrite Hc. simpl.
  unfold bind at 1. unfold ret at 1. unfold bind at 1.
  unfold SkillsManager.validate_scope, sm_header.
  unfold effective_scope in *.
  destruct ((SkillsManager.target a =? "opencode")
            && (SkillsManager.scope a =? "workspace")).
  - unfold bind at 1. unfold print at 1. unfold ret at 1. unfold bind at 1.
    rewrite sm_get_source_ok by assumption.
    unfold bind at 1. rewrite Hd by reflexivity.
    destruct (SkillsManager.target a =? "antigravity"); run; lines; reflexivity.
  - unfold ret at 1. unfold bind at 1.
    rewrite sm_get_source_ok by assumption.
    unfold bind at 1. rewrite Hd by reflexivity.
    destruct (SkillsManager.target a =? "antigravity"); run; lines; reflexivity.
Qed.






Definition nothing_to_remove : output := Line "No skills to remove.".

Lemma oc_dispatch_remove_missing (a : OpencodeInstaller.args) (sroot droot : path)
  (s : state W) :
  OpencodeInstaller.command a = Some "remove" ->
  OpencodeInstaller.all a = true ->
  fs_exists droot (world s) = inr false ->
  OpencodeInstaller.dispatch a sroot droot s
  = (Exited 0,
     {| world := world s; stdout := stdout s ++ [nothing_to_remove] |}).
Proof.
  intros Hc Ha Hm. unfold OpencodeInstaller.dispatch.
  unfold OpencodeInstaller.command_is. rewrite Hc. simpl.
  rewrite Ha, andb_false_r.
  unfold bind at 1. unfold ret at 1. unfold bind at 1.
  rewrite oc_skills_to_remove_missing by assumption. reflexivity.
Qed.

Lemma sm_dispatch_remove_missing (a : SkillsManager.args) (sroot droot : path)
  (s : state W) :
  SkillsManager.command a = Some "remove" ->
  SkillsManager.all a = true ->
  fs_exists droot (world s) = inr false ->
  SkillsManager.dispatch a sroot droot s
  = (Exited 0,
     {| world := world s; stdout := stdout s ++ [nothing_to_remove] |}).
Proof.
  intros Hc Ha Hm. unfold SkillsManager.dispatch.
  unfold SkillsManager.command_is. rewrite Hc. simpl.
  rewrite Ha, andb_false_r.
  unfold bind at 1. unfold ret at 1. unfold bind at 1.
  unfold SkillsManager.skills_to_remove. rewrite Ha.
  run. rewrite Hm. reflexivity.
Qed.

(** C7.  When the destination root does not exist, [remove --all] says
    that there is nothing to remove, leaves the file system as it is and
    ends through [sys.exit(0)]; in both scripts, once the source root has
    been located and the destination resolved. *)
Theorem remove_all_without_destination :
  (forall (a : OpencodeInstaller.args) (s : state W),
      OpencodeInstaller.command a = Some "remove" ->
      OpencodeInstaller.all a = true ->
      dir_at (world s) (oc_source e) = inr true ->
      fs_exists (oc_dest e) (world s) = inr false ->
      let r := OpencodeInstaller.main e a s in
      exit_code r = 0%Z
      /\ world (snd r) = world s
      /\ stdout (snd r) = stdout s ++ oc_header e ++ [nothing_to_remove])
  /\
  (forall (a : SkillsManager.args) (s : state W) (d : path),
      SkillsManager.command a = Some "remove" ->
      SkillsManager.all a = true ->
      dir_at (world s) (sm_source e) = inr true ->
      resolves_to e (world s) (SkillsManager.target a) (effective_scope a) d ->
      fs_exists d (world s) = inr false ->
      let r := SkillsManager.main e a s in
      exit_code r = 0%Z
      /\ world (snd r) = world s
      /\ stdout (snd r) = stdout s ++ sm_header a d ++ [nothing_to_remove]).
Proof.
  split.
  - intros a s Hc Ha Hsrc Hm r. subst r.
    rewrite oc_main_run; [|rewrite Hc; reflexivity|assumption].
    rewrite oc_dispatch_remove_missing by assumption.
    simpl. rewrite <- app_assoc. repeat split.
  - intros a s d Hc Ha Hsrc Hd Hm r. subst r.
    rewrite (sm_main_run a s d); [|rewrite Hc; reflexivity|assumption|assumption].
    rewrite sm_dispatch_remove_missing by assumption.
    simpl. rewrite <- app_assoc. repeat split.
Qed.

End Missing.

(* ===================================================================== *)
(** ** Which skills [install --all] takes *)
(* ===================================================================== *)

Section Selection.

Context {W : Type} `{FileSystem W}.

Lemma mem_In (n : string) (l : list string) :
  SkillsManager.mem n l = true <-> In n l.
Proof.
  unfold SkillsManager.mem. rewrite existsb_exists. split.
  - intros [x [Hx E]]. apply String.eqb_eq in E. subst x. assumption.
  - intros Hn. exists n. split; [assumption|apply String.eqb_refl].
Qed.

(** C2, as amended.  With [--all], the manager takes the entries of the
    source root that are directories, whose names do not start with a dot
    and are none of the three installer directories; the installer takes
    the entries that are directories and whose names do not start with a
    dot, and has no list of excluded names.  Both keep the order of the
    listing. *)
Theorem install_all_selection :
  (forall (a : SkillsManager.args) (root : path) (s : state W) (names : list string),
      SkillsManager.all a = true ->
      fs_iterdir root (world s) = inr names ->
      let l := filter (installable root (world s)) names in
      SkillsManager.skills_to_install a root s
      = (Normal l, {| world := world s; stdout := stdout s ++ [found_to_install l] |})
      /\ forall n, In n l <->
                   In n names /\ fs_is_dir (root ++ [n]) (world s) = true
                   /\ startswith n "." = false
                   /\ ~ In n SkillsManager.installer_dirs)
  /\
  (forall (a : OpencodeInstaller.args) (root : path) (s : state W) (names : list string),
      OpencodeInstaller.all a = true ->
      fs_iterdir root (world s) = inr names ->
      let l := filter (visible root (world s)) names in
      OpencodeInstaller.skills_to_install a root s
      = (Normal l, {| world := world s; stdout := stdout s ++ [found_to_install l] |})
      /\ forall n, In n l <->
                   In n names /\ fs_is_dir (root ++ [n]) (world s) = true
                   /\ startswith n "." = false).
Proof.
  split.
  - intros a root s names Ha Hn l. split.
    + unfold SkillsManager.skills_to_install. rewrite Ha. run. rewrite Hn.
      rewrite (select_reads _ (fun n w => installable root w n))
        by (intros; apply sm_installable_dir_reads).
      reflexivity.
    + intros n. unfold l. rewrite filter_In. unfold installable.
      rewrite !andb_true_iff, !negb_true_iff.
      rewrite <- (mem_In n SkillsManager.installer_dirs).
      destruct (SkillsManager.mem n SkillsManager.installer_dirs); intuition congruence.
  - intros a root s names Ha Hn l. split.
    + unfold OpencodeInstaller.skills_to_install. rewrite Ha. run. rewrite Hn.
      rewrite (select_reads _ (fun n w => visible root w n))
        by (intros; apply oc_visible_dir_reads).
      reflexivity.
    + intros n. unfold l. rewrite filter_In. unfold visible.
      rewrite !andb_true_iff, !negb_true_iff. intuition.
Qed.

End Selection.

(* ===================================================================== *)
(** ** Facts about directory trees *)
(* ===================================================================== *)

Import Tree.

Section Entries.

Implicit Types (n m : string) (es : list (string * node)) (g : node -> node).

Lemma find_drop_same n es : find_entry n (drop_entry n es) = None.
Proof.
  induction es as [|[k v] es IH]; [reflexivity|]. simpl.
  destruct (k =? n) eqn:E; [assumption|]. simpl. rewrite E. assumption.
Qed.

Lemma find_drop_other n m es :
  m <> n -> find_entry m (drop_entry n es) = find_entry m es.
Proof.
  intros Hne. induction es as [|[k v] es IH]; [reflexivity|]. simpl.
  destruct (k =? n) eqn:E.
  - apply String.eqb_eq in E. subst k.
    destruct (n =? m) eqn:E'; [apply String.eqb_eq in E'; congruence|assumption].
  - simpl. rewrite IH. reflexivity.
Qed.

Lemma find_app n es es' :
  find_entry n (es ++ es')
  = match find_entry n es with
    | Some v => Some v
    | None => find_entry n es'
    end.
Proof.
  induction es as [|[k v] es IH]; [reflexivity|]. simpl.
  destruct (k =? n); [reflexivity|assumption].
Qed.

Lemma find_alter_same n g es :
  find_entry n (alter_entry n g es) = option_map g (find_entry n es).
Proof.
  induction es as [|[k v] es IH]; [reflexivity|]. simpl.
  destruct (k =? n) eqn:E; simpl; rewrite E; [reflexivity|assumption].
Qed.

Lemma find_alter_other n m g es :
  m <> n -> find_entry m (alter_entry n g es) = find_entry m es.
Proof.
  intros Hne. induction es as [|[k v] es IH]; [reflexivity|]. simpl.
  destruct (k =? n) eqn:E; simpl.
  - apply String.eqb_eq in E. subst k.
    destruct (n =? m) eqn:E'; [apply String.eqb_eq in E'; congruence|reflexivity].
  - rewrite IH. reflexivity.
Qed.

Lemma drop_absent n es : find_entry n es = None -> drop_entry n es = es.
Proof.
  induction es as [|[k v] es IH]; [reflexivity|]. simpl.
  destruct (k =? n); [discriminate|]. intros Hn. rewrite IH by assumption. reflexivity.
Qed.

Lemma drop_put_absent n v es :
  find_entry n es = None ->
  drop_entry n (drop_entry n es ++ [(n, v)]) = es.
Proof.
  intros Hn. rewrite (drop_absent n es Hn).
  induction es as [|[k u] es IH]; simpl.
  - rewrite String.eqb_refl. reflexivity.
  - simpl in Hn. destruct (k =? n); [discriminate|]. rewrite IH by assumption.
    reflexivity.
Qed.

Lemma alter_same_value n g es :
  (forall v, find_entry n es = Some v -> g v = v) -> alter_entry n g es = es.
Proof.
  induction es as [|[k v] es IH]; [reflexivity|]. simpl. intros Hg.
  destruct (k =? n).
  - rewrite Hg; reflexivity.
  - rewrite IH; [reflexivity|assumption].
Qed.

Lemma alter_alter n g g' es :
  alter_entry n g' (alter_entry n g es) = alter_entry n (fun v => g' (g v)) es.
Proof.
  induction es as [|[k v] es IH]; [reflexivity|]. simpl.
  destruct (k =? n) eqn:E; simpl; rewrite E; [reflexivity|].
  rewrite IH. reflexivity.
Qed.

Lemma alter_ext n g g' es :
  (forall v, find_entry n es = Some v -> g v = g' v) ->
  alter_entry n g es = alter_entry n g' es.
Proof.
  induction es as [|[k v] es IH]; [reflexivity|]. simpl. intros Hg.
  destruct (k =? n).
  - rewrite Hg; reflexivity.
  - rewrite IH; [reflexivity|assumption].
Qed.

Lemma drop_app n es es' :
  drop_entry n (es ++ es') = drop_entry n es ++ drop_entry n es'.
Proof.
  induction es as [|[k v] es IH]; [reflexivity|]. simpl.
  destruct (k =? n); [assumption|]. simpl. rewrite IH. reflexivity.
Qed.

Lemma drop_drop n es : drop_entry n (drop_entry n es) = drop_entry n es.
Proof. apply drop_absent, find_drop_same. Qed.

End Entries.

Section Lookups.

Implicit Types (p q r : path) (t v : node) (c : string)
  (f : list (string * node) -> list (string * node)).

Lemma get_app p q t :
  get (p ++ q) t = match get p t with
                   | Some v => get q v
                   | None => None
                   end.
Proof.
  revert t. induction p as [|c p IH]; intros t; [reflexivity|]. simpl.
  destruct t as [d|es]; [reflexivity|].
  destruct (find_entry c es); [apply IH|reflexivity].
Qed.

Lemma get_file p d : p <> [] -> get p (File d) = None.
Proof. destruct p; [congruence|reflexivity]. Qed.

(** What lies above an existing node is a directory. *)
Lemma get_above p q t v :
  get (p ++ q) t = Some v -> q <> [] -> exists es, get p t = Some (Dir es).
Proof.
  rewrite get_app. destruct (get p t) as [[d|es]|]; intros Hg Hq.
  - rewrite get_file in Hg by assumption. discriminate.
  - exists es. reflexivity.
  - discriminate.
Qed.

Lemma update_file p f d : update p f (File d) = File d.
Proof. destruct p; reflexivity. Qed.

(** Looking above the place of an update. *)
Lemma get_update_above q r f t :
  get q (update (q ++ r) f t) = option_map (update r f) (get q t).
Proof.
  revert t. induction q as [|c q IH]; intros t; [reflexivity|].
  destruct t as [d|es]; [reflexivity|]. simpl.
  rewrite find_alter_same. destruct (find_entry c es); simpl; [apply IH|reflexivity].
Qed.

(** Two paths that part at some name: neither is above the other. *)
Fixpoint diverge (p q : path) : bool :=
  match p, q with
  | c :: p', d :: q' => if c =? d then diverge p' q' else true
  | _, _ => false
  end.

Lemma diverge_prefix p q :
  diverge p q = negb (is_prefix p q) && negb (is_prefix q p).
Proof.
  revert q. induction p as [|c p IH]; intros [|d q]; try reflexivity.
  simpl. rewrite (String.eqb_sym d c). destruct (c =? d); simpl; [apply IH|reflexivity].
Qed.

Lemma diverge_sym p q : diverge p q = diverge q p.
Proof. rewrite !diverge_prefix. apply andb_comm. Qed.

Lemma diverge_app_r p q r : diverge p q = true -> diverge p (q ++ r) = true.
Proof.
  revert q. induction p as [|c p IH]; intros [|d q]; simpl; try discriminate.
  destruct (c =? d); [apply IH|reflexivity].
Qed.


Lemma is_prefix_app p q : is_prefix p (p ++ q) = true.
Proof. induction p as [|c p IH]; [reflexivity|]. simpl. rewrite String.eqb_refl. assumption. Qed.

Lemma is_prefix_spec p q : is_prefix p q = true <-> exists r, q = p ++ r.
Proof.
  split.
  - revert q. induction p as [|c p IH]; intros q Hp.
    + exists q. reflexivity.
    + destruct q as [|d q]; [discriminate|]. simpl in Hp.
      apply andb_prop in Hp. destruct Hp as [E Hp]. apply String.eqb_eq in E. subst d.
      destruct (IH q Hp) as [r ->]. exists r. reflexivity.
  - intros [r ->]. apply is_prefix_app.
Qed.

Lemma is_prefix_trans p q r :
  is_prefix p q = true -> is_prefix q r = true -> is_prefix p r = true.
Proof.
  rewrite !is_prefix_spec. intros [a ->] [b ->]. exists (a ++ b).
  rewrite app_assoc. reflexivity.
Qed.

(** An update below [p] is not seen from a path that parts from [p]. *)
Lemma get_update_diverge p q f t :
  diverge p q = true -> get q (update p f t) = get q t.
Proof.
  revert q t. induction p as [|c p IH]; intros [|d q] t Hd; try discriminate.
  simpl in Hd. destruct t as [x|es]; [reflexivity|]. simpl.
  destruct (c =? d) eqn:E.
  - apply String.eqb_eq in E. subst d. rewrite find_alter_same.
    destruct (find_entry c es); simpl; [apply IH; assumption|reflexivity].
  - rewrite find_alter_other; [reflexivity|].
    intros ->. rewrite String.eqb_refl in E. discriminate.
Qed.

End Lookups.

(* ===================================================================== *)
(** ** A repository and a home directory to run the scripts on *)
(* ===================================================================== *)

(** The interpreter the examples are run with ends the descent of a copy
    into itself at once; no example has such a copy. *)
#[export] Instance ends_at_once : Interpreter := {
  copy_into_itself := fun _ _ t => (t, "maximum recursion depth exceeded")
}.

Definition skill_md : node := File [x23; x20; x66; x6d; x74; x0a].

(** [/repo] holds the two scripts and a skill, both at its top and under
    [/repo/skills]; [/home/u/work] is a workspace with a [.agent]
    directory and a subdirectory [sub]. *)
Definition demo_tree : node :=
  Dir [("repo",
        Dir [("skills-manager", Dir [("manage_skills.py", File [])]);
             ("opencode-installer", Dir [("manage_skills.py", File [])]);
             ("git-formatter", Dir [("SKILL.md", skill_md)]);
             (".git", Dir []);
             ("README.md", File []);
             ("skills",
              Dir [("skills-manager", Dir [("notes.md", File [])]);
                   ("git-formatter", Dir [("SKILL.md", skill_md)])])]);
       ("home",
        Dir [("u", Dir [("work", Dir [(".agent", Dir []); ("sub", Dir [])])])])].

(** The manager run from [/home/u/work/sub]. *)
Definition manager_env : env :=
  {| home := ["home"; "u"];
     cwd := ["home"; "u"; "work"; "sub"];
     script := ["repo"; "skills-manager"; "manage_skills.py"] |}.

(** The installer run from [/repo]. *)
Definition installer_env : env :=
  {| home := ["home"; "u"];
     cwd := ["repo"];
     script := ["repo"; "opencode-installer"; "manage_skills.py"] |}.

Definition manager_args (tg sc cmd : string) (sk : option string) (al : bool)
  : SkillsManager.args :=
  {| SkillsManager.target := tg; SkillsManager.scope := sc;
     SkillsManager.command := Some cmd; SkillsManager.skill := sk;
     SkillsManager.all := al |}.

Definition installer_args (cmd : string) (sk : option string) (al : bool)
  : OpencodeInstaller.args :=
  {| OpencodeInstaller.command := Some cmd; OpencodeInstaller.skill := sk;
     OpencodeInstaller.all := al |}.

(** The ancestors of a given working directory, one by one. *)
Ltac ancestors H :=
  repeat match type of H with
         | _ :: _ = ?a ++ _ =>
             destruct a; simpl in H; [|injection H as <- H]
         | [] = ?a ++ _ =>
             destruct a; simpl in H; [|discriminate H]
         end.

(** On [demo_tree], [list --target opencode --scope workspace] warns and
    goes on as with the global scope. *)
Lemma opencode_workspace_is_global_witness :
  SkillsManager.main manager_env (manager_args "opencode" "workspace" "list" None false)
    (start demo_tree)
  = SkillsManager.main manager_env (manager_args "opencode" "global" "list" None false)
      {| world := demo_tree; stdout := [downgrade_warning] |}.
Proof.
  exact (proj2 (opencode_workspace_is_global manager_env)
           (manager_args "opencode" "workspace" "list" None false)
           (start demo_tree) eq_refl eq_refl eq_refl).
Defined.

(** From [/home/u/work/sub] the workspace is [/home/u/work]; from [/repo],
    which has no marked ancestor, it is [/repo] itself. *)
Lemma workspace_resolution_witness :
  workspace_dest manager_env (start demo_tree)
  = (Normal ["home"; "u"; "work"; ".agent"; "skills"], start demo_tree)
  /\ workspace_dest installer_env (start demo_tree)
     = (Normal ["repo"; ".agent"; "skills"], start demo_tree).
Proof.
  split.
  - apply (proj1 (workspace_resolution manager_env (start demo_tree))
             ["home"; "u"; "work"] ["sub"]).
    + reflexivity.
    + discriminate.
    + reflexivity.
    + intros anc' rest' Hcwd Hne Hm. simpl in Hcwd.
      ancestors Hcwd; try reflexivity; try congruence; discriminate Hm.
  - apply (proj2 (workspace_resolution installer_env (start demo_tree))).
    intros anc rest Hcwd Hne. simpl in Hcwd.
    ancestors Hcwd; try reflexivity; congruence.
Defined.

(** A marker in the file system root is never looked at: from [/x], with
    [/.agent] the only marker there is, the claim as first stated gives
    [/.agent/skills] and the script gives [/x/.agent/skills]. *)
Definition root_marked_tree : node := Dir [(".agent", Dir []); ("x", Dir [])].

Definition x_env : env :=
  {| home := ["home"; "u"]; cwd := ["x"]; script := ["repo"; "m"; "s.py"] |}.

Lemma workspace_root_marker_is_skipped :
  cwd x_env = [] ++ ["x"]
  /\ has_marker root_marked_tree [] = inr true
  /\ (forall anc' rest', cwd x_env = anc' ++ rest' ->
                         has_marker root_marked_tree anc' = inr true -> anc' = [])
  /\ workspace_dest x_env (start root_marked_tree)
     = (Normal ["x"; ".agent"; "skills"], start root_marked_tree)
  /\ workspace_dest x_env (start root_marked_tree)
     <> (Normal ([] ++ [".agent"; "skills"]), start root_marked_tree).
Proof.
  repeat apply conj; try reflexivity.
  - intros anc' rest' Hcwd Hm. simpl in Hcwd.
    ancestors Hcwd; try reflexivity; discriminate Hm.
  - discriminate.
Qed.

(** The installer on [/repo/skills]: no name is excluded, so the
    directory [skills-manager] found there is attempted (and installed)
    like any skill; the claim as first stated excludes it. *)
Lemma installer_takes_installer_dirs :
  fs_iterdir ["repo"; "skills"] demo_tree = inr ["skills-manager"; "git-formatter"]
  /\ In "skills-manager" SkillsManager.installer_dirs
  /\ fst (OpencodeInstaller.skills_to_install (installer_args "install" None true)
            ["repo"; "skills"] (start demo_tree))
     = Normal ["skills-manager"; "git-formatter"]
  /\ In (installing "skills-manager")
       (stdout (snd (OpencodeInstaller.main installer_env
                       (installer_args "install" None true) (start demo_tree)))).
Proof.
  repeat apply conj; try reflexivity.
  - left. reflexivity.
  - vm_compute. tauto.
Qed.

(** On [demo_tree] the manager takes [git-formatter] and [skills] out of
    the six entries of [/repo], the installer both entries of
    [/repo/skills]. *)
Lemma install_all_selection_witness :
  fst (SkillsManager.skills_to_install (manager_args "opencode" "global" "install" None true)
         ["repo"] (start demo_tree))
  = Normal ["git-formatter"; "skills"]
  /\ fst (OpencodeInstaller.skills_to_install (installer_args "install" None true)
            ["repo"; "skills"] (start demo_tree))
     = Normal ["skills-manager"; "git-formatter"].
Proof.
  split.
  - rewrite (proj1 (proj1 (install_all_selection (H := tree_fs))
                      (manager_args "opencode" "global" "install" None true)
                      ["repo"] (start demo_tree)
                      ["skills-manager"; "opencode-installer"; "git-formatter";
                       ".git"; "README.md"; "skills"]
                      eq_refl eq_refl)).
    reflexivity.
  - rewrite (proj1 (proj2 (install_all_selection (H := tree_fs))
                      (installer_args "install" None true)
                      ["repo"; "skills"] (start demo_tree)
                      ["skills-manager"; "git-formatter"] eq_refl eq_refl)).
    reflexivity.
Defined.

(** [demo_tree] with a file where the skill is to be installed. *)
Definition blocked_tree : node :=
  put_at ["home"; "u"; ".config"]
    (Dir [("opencode", Dir [("skills", Dir [("git-formatter", File [])])])])
    demo_tree.




(** On [demo_tree] neither [~/.config/opencode/skills] nor
    [~/.gemini/antigravity/skills] exists. *)
Lemma remove_all_without_destination_witness :
  exit_code (OpencodeInstaller.main installer_env
               (installer_args "remove" None true) (start demo_tree)) = 0%Z
  /\ world (snd (SkillsManager.main manager_env
                   (manager_args "antigravity" "global" "remove" None true)
                   (start demo_tree))) = demo_tree.
Proof.
  split.
  - apply (proj1 (remove_all_without_destination installer_env)
             (installer_args "remove" None true) (start demo_tree));
      reflexivity.
  - apply (proj2 (remove_all_without_destination manager_env)
             (manager_args "antigravity" "global" "remove" None true)
             (start demo_tree) ["home"; "u"; ".gemini"; "antigravity"; "skills"]);
      try reflexivity.
    intros [w out] Hw. simpl in Hw. subst w. reflexivity.
Defined.

(** [demo_tree] without the marker of the workspace. *)
Definition unmarked_tree : node := remove_at ["home"; "u"; "work"; ".agent"] demo_tree.

(** The same target, scope, home and working directory, and two
    destinations: the file system decides. *)
Lemma resolution_depends_on_the_file_system :
  fst (SkillsManager.get_dest_skills_dir manager_env "antigravity" "workspace"
         (start demo_tree))
  = Normal ["home"; "u"; "work"; ".agent"; "skills"]
  /\ fst (SkillsManager.get_dest_skills_dir manager_env "antigravity" "workspace"
            (start unmarked_tree))
     = Normal ["home"; "u"; "work"; "sub"; ".agent"; "skills"]
  /\ fst (SkillsManager.get_dest_skills_dir manager_env "antigravity" "workspace"
            (start demo_tree))
     <> fst (SkillsManager.get_dest_skills_dir manager_env "antigravity" "workspace"
               (start unmarked_tree)).
Proof.
  repeat apply conj; try reflexivity. discriminate.
Qed.

(** Two states with the same file system resolve alike, and a [list] run
    deletes nothing at all. *)
Lemma resolution_reads_only_witness :
  fst (SkillsManager.get_dest_skills_dir manager_env "antigravity" "workspace"
         (start demo_tree))
  = fst (SkillsManager.get_dest_skills_dir manager_env "antigravity" "workspace"
           {| world := demo_tree; stdout := [Help] |})
  /\ deleted_from demo_tree
       (world (snd (SkillsManager.main manager_env
                      (manager_args "antigravity" "workspace" "list" None false)
                      (start demo_tree)))).
Proof.
  pose proof (resolution_reads_only (W := node) manager_env)
    as (_ & _ & Hsame & Hmanager & _).
  split.
  - apply Hsame. intros anc rest _. reflexivity.
  - apply (Hmanager (manager_args "antigravity" "workspace" "list" None false)
             (start demo_tree)).
    reflexivity.
Defined.

Section PlainNames.

Lemma split_on_lacks (sep : ascii) (s : string) :
  lacks sep s = true -> split_on sep s = [s].
Proof.
  induction s as [|c s IH]; [reflexivity|]. simpl. intros Hl.
  apply andb_prop in Hl. destruct Hl as [Hc Hl].
  apply negb_true_iff in Hc. rewrite Hc, (IH Hl). reflexivity.
Qed.

(** Joining a plain name adds one part. *)
Lemma joinpath_plain (p : path) (S : string) :
  plain_name S = true -> (p / S)%path = p ++ [S].
Proof.
  unfold plain_name. intros Hp.
  apply andb_prop in Hp. destruct Hp as [Hp Hslash].
  apply andb_prop in Hp. destruct Hp as [Hp _].
  apply andb_prop in Hp. destruct Hp as [Hempty Hdot].
  assert (Hsw : startswith S "/" = false).
  { destruct S as [|c S]; [reflexivity|]. simpl in Hslash.
    apply andb_prop in Hslash. destruct Hslash as [Hc _].
    apply negb_true_iff in Hc. unfold startswith.
    change (String.prefix "/" (String c S))
      with (if ascii_dec "/" c then String.prefix "" S else false).
    destruct (ascii_dec "/" c) as [<-|Hne]; [discriminate Hc|reflexivity]. }
  unfold joinpath, parse_parts. rewrite Hsw, (split_on_lacks _ _ Hslash).
  simpl. unfold keep_part. rewrite Hempty, Hdot. reflexivity.
Qed.

Lemma plain_not_dotdot (S : string) : plain_name S = true -> (S =? "..") = false.
Proof.
  unfold plain_name. intros Hp.
  apply andb_prop in Hp. destruct Hp as [Hp _].
  apply andb_prop in Hp. destruct Hp as [_ Hp].
  apply negb_true_iff in Hp. assumption.
Qed.

Lemma plain_not_empty (S : string) : plain_name S = true -> S <> "".
Proof. intros Hp ->. discriminate Hp. Qed.

Lemma canonical_app (p q : path) :
  canonical (p ++ q) = canonical p && canonical q.
Proof. unfold canonical. apply forallb_app. Qed.

Lemma canonical_plain (p : path) (S : string) :
  canonical p = true -> plain_name S = true -> canonical (p ++ [S]) = true.
Proof.
  intros Hp HS. rewrite canonical_app, Hp. simpl.
  rewrite (plain_not_dotdot S HS). reflexivity.
Qed.

End PlainNames.

Section Edits.

Implicit Types (p q r : path) (t v : node) (c n : string)
  (f : list (string * node) -> list (string * node)).

Lemma parent_cons c p : p <> [] -> parent (c :: p) = c :: parent p.
Proof. destruct p; [congruence|reflexivity]. Qed.

Lemma name_cons c p : p <> [] -> name (c :: p) = name p.
Proof. destruct p; [congruence|reflexivity]. Qed.

Lemma update_update p f f' t :
  update p f' (update p f t) = update p (fun es => f' (f es)) t.
Proof.
  revert t. induction p as [|c p IH]; intros [d|es]; try reflexivity. simpl.
  rewrite alter_alter. f_equal. apply alter_ext. intros v _. apply IH.
Qed.

Lemma update_ext p f f' t :
  (forall es, f es = f' es) -> update p f t = update p f' t.
Proof.
  intros Hf. revert t. induction p as [|c p IH]; intros [d|es]; try reflexivity; simpl.
  - rewrite Hf. reflexivity.
  - f_equal. apply alter_ext. intros v _. apply IH.
Qed.

Lemma update_same p f t :
  (forall es, get p t = Some (Dir es) -> f es = es) -> update p f t = t.
Proof.
  revert t. induction p as [|c p IH]; intros [d|es] Hf; try reflexivity; simpl.
  - rewrite Hf; reflexivity.
  - f_equal. apply alter_same_value. intros v Hv. apply IH.
    intros es' Hes'. apply Hf. simpl. rewrite Hv. assumption.
Qed.

(** The node at the place of an update. *)
Lemma get_update_at p f t :
  get p (update p f t)
  = match get p t with
    | Some (Dir es) => Some (Dir (f es))
    | other => other
    end.
Proof.
  rewrite <- (app_nil_r p) at 2. rewrite get_update_above.
  destruct (get p t) as [[d|es]|]; reflexivity.
Qed.

(** The entry at [p ++ [n]] after an update of the directory [p]. *)
Lemma get_update_entry p n r f t :
  get (p ++ n :: r) (update p f t)
  = match get p t with
    | Some (Dir es) => match find_entry n (f es) with
                       | Some v => get r v
                       | None => None
                       end
    | _ => None
    end.
Proof.
  rewrite get_app, get_update_at.
  destruct (get p t) as [[d|es]|]; reflexivity.
Qed.

Lemma remove_at_snoc p n t : remove_at (p ++ [n]) t = update p (drop_entry n) t.
Proof. unfold remove_at. rewrite parent_snoc, name_snoc. reflexivity. Qed.

Lemma put_at_snoc p n v t :
  put_at (p ++ [n]) v t = update p (fun es => drop_entry n es ++ [(n, v)]) t.
Proof. unfold put_at. rewrite parent_snoc, name_snoc. reflexivity. Qed.

(** Nothing is left at a removed path, nor below it. *)
Lemma get_remove_below p n r t : get (p ++ n :: r) (remove_at (p ++ [n]) t) = None.
Proof.
  rewrite remove_at_snoc, get_update_entry.
  destruct (get p t) as [[d|es]|]; try reflexivity.
  rewrite find_drop_same. reflexivity.
Qed.

Lemma get_remove_same p n t : get (p ++ [n]) (remove_at (p ++ [n]) t) = None.
Proof. apply get_remove_below. Qed.

(** The directory that held a removed entry is still a directory. *)
Lemma get_remove_parent p n t es :
  get p t = Some (Dir es) ->
  get p (remove_at (p ++ [n]) t) = Some (Dir (drop_entry n es)).
Proof. intros Hp. rewrite remove_at_snoc, get_update_at, Hp. reflexivity. Qed.

(** What was put in a directory is there. *)
Lemma get_put_same p n v t es :
  get p t = Some (Dir es) -> get (p ++ [n]) (put_at (p ++ [n]) v t) = Some v.
Proof.
  intros Hp. rewrite put_at_snoc, get_update_entry, Hp.
  rewrite find_app, find_drop_same. simpl. rewrite String.eqb_refl. reflexivity.
Qed.

(** A path that parts from [p ++ [n]] sees neither removal nor addition
    there. *)
Lemma get_update_entry_diverge p n q f t :
  (forall m es, m <> n -> find_entry m (f es) = find_entry m es) ->
  diverge (p ++ [n]) q = true ->
  get q (update p f t) = get q t.
Proof.
  intros Hf. revert q t. induction p as [|c p IH]; intros [|d q] t Hd;
    try discriminate; simpl in Hd.
  - destruct t as [x|es]; [reflexivity|]. simpl.
    destruct (n =? d) eqn:E; [discriminate|].
    rewrite Hf; [reflexivity|]. intros ->. rewrite String.eqb_refl in E. discriminate.
  - destruct t as [x|es]; [reflexivity|]. simpl.
    destruct (c =? d) eqn:E.
    + apply String.eqb_eq in E. subst d. rewrite find_alter_same.
      destruct (find_entry c es); simpl; [apply IH; assumption|reflexivity].
    + rewrite find_alter_other; [reflexivity|].
      intros ->. rewrite String.eqb_refl in E. discriminate.
Qed.

Lemma get_remove_diverge p n q t :
  diverge (p ++ [n]) q = true -> get q (remove_at (p ++ [n]) t) = get q t.
Proof.
  intros Hd. rewrite remove_at_snoc. apply get_update_entry_diverge with (n := n).
  - intros m es Hm. apply find_drop_other. assumption.
  - assumption.
Qed.

Lemma get_put_diverge p n v q t :
  diverge (p ++ [n]) q = true -> get q (put_at (p ++ [n]) v t) = get q t.
Proof.
  intros Hd. rewrite put_at_snoc. apply get_update_entry_diverge with (n := n).
  - intros m es Hm. rewrite find_app, find_drop_other by assumption.
    destruct (find_entry m es); [reflexivity|]. simpl.
    destruct (n =? m) eqn:E; [|reflexivity].
    apply String.eqb_eq in E. congruence.
  - assumption.
Qed.

(** Removing what was put where nothing was gives the tree back. *)
Lemma remove_put p n v t :
  get (p ++ [n]) t = None -> remove_at (p ++ [n]) (put_at (p ++ [n]) v t) = t.
Proof.
  intros Hn. rewrite remove_at_snoc, put_at_snoc, update_update.
  apply update_same. intros es Hes. apply drop_put_absent.
  rewrite get_app, Hes in Hn. simpl in Hn.
  destruct (find_entry n es); [discriminate|reflexivity].
Qed.

(** Removing what is not there changes nothing. *)
Lemma remove_absent p n t : get (p ++ [n]) t = None -> remove_at (p ++ [n]) t = t.
Proof.
  intros Hn. rewrite remove_at_snoc. apply update_same. intros es Hes.
  apply drop_absent. rewrite get_app, Hes in Hn. simpl in Hn.
  destruct (find_entry n es); [discriminate|reflexivity].
Qed.

(** [clear_at] leaves an empty directory. *)
Lemma get_clear p t es : get p t = Some (Dir es) -> get p (clear_at p t) = Some (Dir []).
Proof. intros Hp. unfold clear_at. rewrite get_update_at, Hp. reflexivity. Qed.


End Edits.

Section Walks.

Implicit Types (p q r cur : path) (t v : node) (c n : string).

Lemma canonical_cons c p :
  canonical (c :: p) = true -> (c =? "..") = false /\ canonical p = true.
Proof.
  unfold canonical. simpl. intros Hc. apply andb_prop in Hc.
  destruct Hc as [Hc Hp]. apply negb_true_iff in Hc. split; assumption.
Qed.

Lemma cons_snoc {A : Type} (l : list A) (x : A) (m : list A) :
  l ++ x :: m = (l ++ [x]) ++ m.
Proof. rewrite <- app_assoc. reflexivity. Qed.

(** Without [".."] a path leads where it says, when there is something. *)
Lemma walk_canonical p :
  canonical p = true ->
  forall t cur v,
    get cur t = Some v ->
    walk t cur p = match get (cur ++ p) t with
                   | Some _ => Some (cur ++ p)
                   | None => None
                   end.
Proof.
  induction p as [|c p IH]; intros Hc t cur v Hcur.
  - rewrite app_nil_r, Hcur. reflexivity.
  - apply canonical_cons in Hc. destruct Hc as [Hc Hp]. simpl.
    rewrite Hcur, Hc, (cons_snoc cur c p).
    destruct v as [d|es].
    + rewrite get_app, get_app, Hcur. reflexivity.
    + destruct (get (cur ++ [c]) t) as [u|] eqn:Eu.
      * apply (IH Hp t (cur ++ [c]) u Eu).
      * rewrite get_app, Eu. reflexivity.
Qed.

Lemma realpath_canonical p t :
  canonical p = true ->
  realpath t p = match get p t with
                 | Some _ => Some p
                 | None => None
                 end.
Proof. intros Hc. apply (walk_canonical p Hc t [] t). reflexivity. Qed.


(** A lookup stops exactly when it does not arrive. *)
Lemma walk_stops p :
  forall t cur,
    match walk t cur p with
    | Some _ => stops t cur p = None
    | None => stops t cur p <> None
    end.
Proof.
  induction p as [|c p IH]; intros t cur; simpl; [reflexivity|].
  destruct (get cur t) as [[d|es]|]; try discriminate.
  destruct (c =? ".."); [apply IH|].
  destruct (get (cur ++ [c]) t); [apply IH|discriminate].
Qed.

Lemma stops_app p q :
  forall t cur,
    stops t cur (p ++ q) = match walk t cur p with
                           | Some mid => stops t mid q
                           | None => stops t cur p
                           end.
Proof.
  induction p as [|c p IH]; intros t cur; [reflexivity|]. simpl.
  destruct (get cur t) as [[d|es]|]; try reflexivity.
  destruct (c =? ".."); [apply IH|].
  destruct (get (cur ++ [c]) t); [apply IH|reflexivity].
Qed.

Lemma stops_found p t v :
  canonical p = true -> get p t = Some v -> stops t [] p = None.
Proof.
  intros Hc Hg. pose proof (walk_stops p t []) as Hw.
  fold (realpath t p) in Hw. rewrite (realpath_canonical p t Hc), Hg in Hw. exact Hw.
Qed.

(** The lookup of a name that a directory does not hold. *)
Lemma stops_absent p c r t es :
  canonical p = true ->
  get p t = Some (Dir es) ->
  get (p ++ [c]) t = None ->
  (c =? "..") = false ->
  stops t [] (p ++ c :: r) = Some (if long c then TooLong else Missing).
Proof.
  intros Hc Hp Hn Hdd. rewrite stops_app.
  fold (realpath t p). rewrite (realpath_canonical p t Hc), Hp. simpl.
  rewrite Hp, Hdd, Hn. reflexivity.
Qed.

Lemma tree_exists_canonical p t :
  canonical p = true ->
  tree_exists p t = match get p t with
                    | Some _ => inr true
                    | None =>
                        match stops t [] p with
                        | Some TooLong => inl (etoolong p)
                        | _ => inr false
                        end
                    end.
Proof.
  intros Hc. unfold tree_exists. rewrite realpath_canonical by assumption.
  destruct (get p t); reflexivity.
Qed.

Lemma tree_is_dir_canonical p t :
  canonical p = true ->
  tree_is_dir p t = match get p t with
                    | Some (Dir _) => true
                    | _ => false
                    end.
Proof.
  intros Hc. unfold tree_is_dir. rewrite realpath_canonical by assumption.
  destruct (get p t) as [v|] eqn:E; [rewrite E|]; reflexivity.
Qed.

End Walks.

Section Mkdirs.

Implicit Types (p q r cur seen whole : path) (t v : node) (c n : string) (made : bool).

Lemma is_prefix_refl p : is_prefix p p = true.
Proof. rewrite <- (app_nil_r p) at 2. apply is_prefix_app. Qed.

(** [mkdirs] leaves alone whatever is not above the directory it makes. *)
Lemma mkdirs_elsewhere p :
  canonical p = true ->
  forall t made cur seen whole q,
    is_prefix q (cur ++ p) = false ->
    get q (fst (mkdirs t made cur seen p whole)) = get q t.
Proof.
  induction p as [|c p IH]; intros Hc t made cur seen whole q Hq; [reflexivity|].
  apply canonical_cons in Hc. destruct Hc as [Hc Hp]. simpl. rewrite Hc.
  rewrite (cons_snoc cur c p) in Hq.
  destruct (get (cur ++ [c]) t) as [[d|es]|] eqn:Ec.
  - reflexivity.
  - apply (IH Hp); assumption.
  - destruct (long c); [reflexivity|].
    rewrite (IH Hp) by assumption.
    assert (Hnp : is_prefix q (cur ++ [c]) = false).
    { destruct (is_prefix q (cur ++ [c])) eqn:E; [|reflexivity].
      rewrite (is_prefix_trans q (cur ++ [c]) ((cur ++ [c]) ++ p) E
                 (is_prefix_app _ _)) in Hq. discriminate. }
    destruct (diverge (cur ++ [c]) q) eqn:Ed.
    + apply get_put_diverge. assumption.
    + rewrite diverge_prefix, Hnp, andb_true_r in Ed.
      apply negb_false_iff in Ed. apply is_prefix_spec in Ed.
      destruct Ed as [r ->]. destruct r as [|n r].
      * rewrite app_nil_r, is_prefix_refl in Hnp. discriminate.
      * rewrite (get_app (cur ++ [c]) (n :: r) t), Ec.
        rewrite put_at_snoc, <- app_assoc. simpl. rewrite get_update_entry.
        destruct (get cur t) as [[d|es]|]; try reflexivity.
        rewrite find_app, find_drop_same. simpl. rewrite String.eqb_refl.
        reflexivity.
Qed.

(** When [mkdirs] returns, the directory is there. *)
Lemma mkdirs_made p :
  canonical p = true ->
  forall t made cur seen whole t' es,
    get cur t = Some (Dir es) ->
    mkdirs t made cur seen p whole = (t', None) ->
    exists es', get (cur ++ p) t' = Some (Dir es').
Proof.
  induction p as [|c p IH]; intros Hc t made cur seen whole t' es Hcur Hm.
  - simpl in Hm. injection Hm as <-. rewrite app_nil_r. exists es. assumption.
  - apply canonical_cons in Hc. destruct Hc as [Hc Hp]. simpl in Hm.
    rewrite Hc in Hm. rewrite (cons_snoc cur c p).
    destruct (get (cur ++ [c]) t) as [[d|es1]|] eqn:Ec.
    + discriminate.
    + apply (IH Hp t made (cur ++ [c]) _ whole t' es1 Ec Hm).
    + destruct (long c); [discriminate|].
      apply (IH Hp _ true (cur ++ [c]) _ whole t' []
               (get_put_same cur c (Dir []) t es Hcur) Hm).
Qed.

(** On a directory that exists, [mkdirs] does nothing. *)
Lemma mkdirs_existing p :
  forall t made cur seen whole es,
    get (cur ++ p) t = Some (Dir es) ->
    canonical p = true ->
    mkdirs t made cur seen p whole = (t, None).
Proof.
  induction p as [|c p IH]; intros t made cur seen whole es Hg Hc; [reflexivity|].
  apply canonical_cons in Hc. destruct Hc as [Hc Hp]. simpl. rewrite Hc.
  rewrite (cons_snoc cur c p) in Hg.
  destruct p as [|c' p].
  - rewrite app_nil_r in Hg. rewrite Hg. reflexivity.
  - destruct (get_above (cur ++ [c]) (c' :: p) t _ Hg) as [es1 E1]; [discriminate|].
    rewrite E1. apply (IH t made (cur ++ [c]) _ whole es Hg Hp).
Qed.

(** The directory [mkdirs] starts from is a directory afterwards. *)
Lemma mkdirs_keeps p :
  canonical p = true ->
  forall t made cur seen whole es,
    get cur t = Some (Dir es) ->
    exists es', get cur (fst (mkdirs t made cur seen p whole)) = Some (Dir es').
Proof.
  induction p as [|c p IH]; intros Hc t made cur seen whole es Hcur.
  - exists es. exact Hcur.
  - apply canonical_cons in Hc. destruct Hc as [Hc Hp]. simpl. rewrite Hc.
    destruct (get (cur ++ [c]) t) as [[d|es1]|] eqn:Ec.
    + exists es. exact Hcur.
    + destruct (IH Hp t made (cur ++ [c]) (seen ++ [c]) whole es1 Ec) as [es' He].
      apply (get_above cur [c] _ _ He). discriminate.
    + destruct (long c); [exists es; exact Hcur|].
      destruct (IH Hp (put_at (cur ++ [c]) (Dir []) t) true (cur ++ [c]) (seen ++ [c])
                  whole [] (get_put_same cur c (Dir []) t es Hcur)) as [es' He].
      apply (get_above cur [c] _ _ He). discriminate.
Qed.

(** A [mkdirs] that raised raises again on what it left, and makes
    nothing more. *)
Lemma mkdirs_again p :
  canonical p = true ->
  forall t made cur seen whole t' err es,
    get cur t = Some (Dir es) ->
    mkdirs t made cur seen p whole = (t', Some err) ->
    forall made' seen' whole',
    exists err', mkdirs t' made' cur seen' p whole' = (t', Some err').
Proof.
  induction p as [|c p IH];
    intros Hc t made cur seen whole t' err es Hcur Hm made' seen' whole'.
  - discriminate.
  - apply canonical_cons in Hc. destruct Hc as [Hc Hp]. simpl in Hm. simpl.
    rewrite Hc in *.
    destruct (get (cur ++ [c]) t) as [[d|es1]|] eqn:Ec.
    + injection Hm as <- _. rewrite Ec. eexists. reflexivity.
    + pose proof (mkdirs_keeps p Hp t made (cur ++ [c]) (seen ++ [c]) whole es1 Ec)
        as [es' He].
      rewrite Hm in He. simpl in He. rewrite He.
      apply (IH Hp t made (cur ++ [c]) (seen ++ [c]) whole t' err es1 Ec Hm).
    + destruct (long c) eqn:El.
      * injection Hm as <- _. rewrite Ec. eexists. reflexivity.
      * pose proof (get_put_same cur c (Dir []) t es Hcur) as Hput.
        pose proof (mkdirs_keeps p Hp _ true (cur ++ [c]) (seen ++ [c]) whole [] Hput)
          as [es' He].
        rewrite Hm in He. simpl in He. rewrite He.
        apply (IH Hp _ true (cur ++ [c]) (seen ++ [c]) whole t' err [] Hput Hm).
Qed.

(** [os.makedirs] goes through the directories that exist. *)
Lemma makedirs_skip p :
  canonical p = true ->
  forall t cur seen q es,
    get (cur ++ p) t = Some (Dir es) ->
    q <> [] ->
    makedirs t cur seen (p ++ q) = makedirs t (cur ++ p) (seen ++ p) q.
Proof.
  induction p as [|c p IH]; intros Hc t cur seen q es Hg Hq.
  - rewrite !app_nil_r. reflexivity.
  - apply canonical_cons in Hc. destruct Hc as [Hc Hp].
    rewrite (cons_snoc cur c p) in Hg.
    assert (Hdir : exists es1, get (cur ++ [c]) t = Some (Dir es1)).
    { destruct p as [|c' p].
      - rewrite app_nil_r in Hg. exists es. exact Hg.
      - apply (get_above (cur ++ [c]) (c' :: p) t _ Hg). discriminate. }
    destruct Hdir as [es1 Hdir].
    change ((c :: p) ++ q) with (c :: (p ++ q)). simpl. rewrite Hc, Hdir.
    destruct (p ++ q) as [|x l] eqn:E.
    + apply app_eq_nil in E. destruct E as [_ E]. congruence.
    + rewrite <- E. rewrite (IH Hp t (cur ++ [c]) (seen ++ [c]) q es Hg Hq).
      rewrite (cons_snoc cur c p), (cons_snoc seen c p). reflexivity.
Qed.

End Mkdirs.

(* ===================================================================== *)
(** ** The library calls on paths without [".."] *)
(* ===================================================================== *)

Section PlainCalls.

Context {python : Interpreter}.
Variables (droot : path) (S : string).
Hypothesis droot_canonical : canonical droot = true.
Hypothesis S_plain : plain_name S = true.

Let dst : path := droot ++ [S].

Lemma dst_canonical : canonical dst = true.
Proof. apply canonical_plain; assumption. Qed.

Lemma dst_not_above_droot : is_prefix dst ([] ++ droot) = false.
Proof.
  destruct (is_prefix dst ([] ++ droot)) eqn:E; [|reflexivity].
  apply is_prefix_spec in E. destruct E as [r E].
  apply (f_equal (@List.length string)) in E. unfold dst in E. simpl in E.
  rewrite !length_app in E. simpl in E. lia.
Qed.

(** [shutil.rmtree] on [destination_root/S]. *)
Lemma tree_rmtree_plain (t : node) :
  tree_rmtree dst t
  = match get dst t with
    | Some (Dir _) => (remove_at dst t, None)
    | Some (File _) => (t, Some (enotdir_path dst))
    | None => (t, Some (lookup_error t dst))
    end.
Proof.
  unfold tree_rmtree. rewrite (realpath_canonical dst t dst_canonical).
  destruct (get dst t) as [[d|es]|] eqn:E; rewrite ?E; try reflexivity.
  rewrite (stops_found dst (clear_at dst t) (Dir []) dst_canonical
             (get_clear dst t es E)).
  assert (Hn : (name dst =? "..") = false).
  { unfold dst. rewrite name_snoc. apply plain_not_dotdot. assumption. }
  rewrite Hn. unfold dst. destruct droot; reflexivity.
Qed.

(** [os.makedirs] on [destination_root/S], the destination root in
    place. *)
Lemma makedirs_plain (t : node) (esd : list (string * node)) :
  get droot t = Some (Dir esd) ->
  get dst t = None ->
  makedirs t [] [] dst
  = if long S then (t, Some (etoolong dst)) else (put_at dst (Dir []) t, None).
Proof.
  intros Hd Hn. unfold dst.
  rewrite (makedirs_skip droot droot_canonical t [] [] [S] esd Hd) by discriminate.
  simpl. rewrite (plain_not_dotdot S S_plain). fold dst. rewrite Hn. reflexivity.
Qed.

Lemma below_diverge (p q : path) : diverge p q = true -> below p q = None.
Proof.
  revert q. induction p as [|c p IH]; intros [|d q]; simpl; try discriminate.
  destruct (c =? d); [apply IH|reflexivity].
Qed.

(** Putting twice at the same place. *)
Lemma put_put (v u t : node) : put_at dst v (put_at dst u t) = put_at dst v t.
Proof.
  unfold dst. rewrite !put_at_snoc, update_update.
  apply update_ext. intros es.
  rewrite drop_app, drop_drop. simpl. rewrite String.eqb_refl, app_nil_r. reflexivity.
Qed.

(** [shutil.copytree] from a directory to [destination_root/S], with
    the destination root in place, nothing at the destination and the
    two apart. *)
Lemma tree_copytree_plain (src : path) (t : node)
  (es esd : list (string * node)) :
  canonical src = true ->
  diverge src dst = true ->
  get src t = Some (Dir es) ->
  get droot t = Some (Dir esd) ->
  get dst t = None ->
  tree_copytree copy_into_itself src dst t
  = if long S then (t, Some (etoolong dst)) else (put_at dst (Dir es) t, None).
Proof.
  intros Hsrc Hap Hs Hd Hn. unfold tree_copytree.
  rewrite (realpath_canonical src t Hsrc), Hs. cbv beta iota. rewrite Hs.
  rewrite (makedirs_plain t esd Hd Hn).
  destruct (long S); [reflexivity|].
  rewrite (realpath_canonical dst _ dst_canonical).
  unfold dst at 1 2. rewrite (get_put_same droot S (Dir []) t esd Hd). fold dst.
  unfold copies_into_itself. rewrite (below_diverge src dst Hap).
  rewrite put_put. reflexivity.
Qed.

(** [shutil.copytree] from what is no directory. *)
Lemma tree_copytree_no_source (src to : path) (t : node) :
  canonical src = true ->
  match get src t with
  | Some (Dir _) => True
  | Some (File _) => tree_copytree copy_into_itself src to t = (t, Some (enotdir src))
  | None => tree_copytree copy_into_itself src to t = (t, Some (lookup_error t src))
  end.
Proof.
  intros Hsrc. unfold tree_copytree. rewrite (realpath_canonical src t Hsrc).
  destruct (get src t) as [[d|es]|] eqn:E; rewrite ?E; auto.
Qed.

End PlainCalls.

(* ===================================================================== *)
(** ** Install and remove on trees *)
(* ===================================================================== *)

Section InstallOnTrees.

Context {python : Interpreter}.
Variables (sroot droot : path) (S : string).
Hypothesis sroot_canonical : canonical sroot = true.
Hypothesis droot_canonical : canonical droot = true.
Hypothesis S_plain : plain_name S = true.

Let src : path := sroot ++ [S].
Let dst : path := droot ++ [S].

(** Neither of the two skill directories lies in the other. *)
Hypothesis apart : diverge src dst = true.

Lemma src_canonical : canonical src = true.
Proof. apply canonical_plain; assumption. Qed.

Lemma src_not_above_droot : is_prefix src ([] ++ droot) = false.
Proof.
  destruct (is_prefix src ([] ++ droot)) eqn:E; [|reflexivity].
  pose proof apart as Ha. rewrite diverge_prefix in Ha.
  rewrite (is_prefix_trans src droot dst E (is_prefix_app droot [S])) in Ha.
  discriminate.
Qed.

Lemma root_is_dir (t v : node) :
  get src t = Some v -> exists es, get [] t = Some (Dir es).
Proof.
  intros Hs. apply (get_above [] src t v Hs). unfold src. destruct sroot; discriminate.
Qed.

Lemma update_root_dir (p : path) f (t : node) es :
  get [] t = Some (Dir es) -> exists es', get [] (update p f t) = Some (Dir es').
Proof.
  simpl. intros [= ->]. destruct p; simpl; eexists; reflexivity.
Qed.

(** The file system in front of [mkdir]: without the old installation,
    unless a file is in its place or [dest_path.exists()] raises. *)
Lemma before_mkdir_tree (t : node) :
  (before_mkdir dst t, rmtree_raises dst t)
  = match get dst t with
    | Some (File _) => (t, Some (enotdir_path dst))
    | _ =>
        match stops t [] dst with
        | Some TooLong => (t, Some (etoolong dst))
        | _ => (remove_at dst t, None)
        end
    end.
Proof.
  unfold before_mkdir, rmtree_raises.
  change (@fs_exists node tree_fs) with tree_exists.
  change (@fs_rmtree node tree_fs) with tree_rmtree.
  pose proof (dst_canonical droot S droot_canonical S_plain) as Hc. fold dst in Hc.
  rewrite (tree_exists_canonical dst t Hc).
  unfold dst. rewrite (tree_rmtree_plain droot S droot_canonical S_plain t). fold dst.
  destruct (get dst t) as [[d|es]|] eqn:E.
  - reflexivity.
  - rewrite (stops_found dst t (Dir es) Hc E). reflexivity.
  - unfold dst in *. rewrite (remove_absent droot S t E).
    destruct (stops t [] (droot ++ [S])) as [[| |]|]; reflexivity.
Qed.

(** What a run does once the old installation is out of the way and
    [mkdir] has run: [made] is what [mkdir] returned. *)
Definition copies (vs : node) (made : node * option string) : node * option string :=
  match made with
  | (t2, Some err) => (t2, Some err)
  | (t2, None) =>
      match vs with
      | File _ => (t2, Some (enotdir src))
      | Dir es =>
          if long S then (t2, Some (etoolong dst))
          else (put_at dst (Dir es) t2, None)
      end
  end.

(** What a run needs to know about the tree in front of [mkdir]. *)
Lemma cleared_tree (t vs : node) :
  get src t = Some vs ->
  get src (remove_at dst t) = Some vs /\ get dst (remove_at dst t) = None.
Proof.
  intros Hs. split.
  - rewrite <- Hs. apply get_remove_diverge. rewrite diverge_sym. exact apart.
  - apply get_remove_same.
Qed.

(** [mkdir], raising or not, leaves the source and makes no
    destination. *)
Lemma mkdir_tree (t1 t2 vs : node) (r : option string) :
  get src t1 = Some vs ->
  get dst t1 = None ->
  mkdirs t1 false [] [] droot droot = (t2, r) ->
  get src t2 = Some vs /\ get dst t2 = None.
Proof.
  intros Hs1 Hd1 Em.
  assert (E2 : t2 = fst (mkdirs t1 false [] [] droot droot)) by (rewrite Em; reflexivity).
  split.
  - rewrite <- Hs1, E2.
    apply mkdirs_elsewhere; [assumption|apply src_not_above_droot].
  - rewrite <- Hd1, E2.
    apply mkdirs_elsewhere; [assumption|apply dst_not_above_droot].
Qed.

(** What a run needs to know about the tree in front of [copytree]. *)
Lemma prepared_tree (t1 t2 vs : node) :
  get src t1 = Some vs ->
  get dst t1 = None ->
  mkdirs t1 false [] [] droot droot = (t2, None) ->
  get src t2 = Some vs /\ get dst t2 = None
  /\ (exists es2, get droot t2 = Some (Dir es2))
  /\ mkdirs t2 false [] [] droot droot = (t2, None)
  /\ stops t2 [] dst = Some (if long S then TooLong else Missing).
Proof.
  intros Hs1 Hd1 Em.
  destruct (root_is_dir t1 vs Hs1) as [es0 Hroot].
  destruct (mkdirs_made droot droot_canonical t1 false [] [] droot t2 es0 Hroot Em)
    as [es2 Hdir].
  destruct (mkdir_tree t1 t2 vs _ Hs1 Hd1 Em) as [Hs2 Hd2].
  repeat apply conj; try assumption.
  - exists es2. exact Hdir.
  - apply (mkdirs_existing droot t2 false [] [] droot es2 Hdir droot_canonical).
  - apply (stops_absent droot S [] t2 es2 droot_canonical Hdir Hd2
             (plain_not_dotdot S S_plain)).
Qed.

(** One run of [install_skill] on a tree without an old installation. *)
Lemma install_on_clear_tree (t1 vs : node) :
  get src t1 = Some vs ->
  get dst t1 = None ->
  (install_world src dst t1, install_raises src dst t1)
  = match stops t1 [] dst with
    | Some TooLong => (t1, Some (etoolong dst))
    | _ => copies vs (mkdirs t1 false [] [] droot droot)
    end.
Proof.
  intros Hs1 Hd1. pose proof (before_mkdir_tree t1) as Hb.
  rewrite Hd1 in Hb.
  assert (Hrm : remove_at dst t1 = t1) by exact (remove_absent droot S t1 Hd1).
  rewrite Hrm in Hb.
  destruct (stops t1 [] dst) as [k|] eqn:Ek.
  2:{ pose proof (walk_stops dst t1 []) as Hw. fold (realpath t1 dst) in Hw.
      rewrite (realpath_canonical dst t1 (dst_canonical droot S droot_canonical S_plain))
        in Hw.
      fold dst in Hw. rewrite Hd1 in Hw. contradiction. }
  assert (Hgo : before_mkdir dst t1 = t1 -> rmtree_raises dst t1 = None ->
                (install_world src dst t1, install_raises src dst t1)
                = copies vs (mkdirs t1 false [] [] droot droot)).
  { intros Hw Hr.
    unfold install_world, install_raises, mkdir_raises, copytree_raises,
      after_copy, before_copy. rewrite Hr, Hw.
    change (@fs_mkdir_parents node tree_fs) with tree_mkdir_parents.
    change (@fs_copytree node tree_fs) with (tree_copytree copy_into_itself).
    unfold tree_mkdir_parents.
    assert (Hp : parent dst = droot) by apply parent_snoc. rewrite Hp.
    destruct (mkdirs t1 false [] [] droot droot) as [t2 [err|]] eqn:Em; cbn [fst snd copies].
    - reflexivity.
    - destruct (prepared_tree t1 t2 vs Hs1 Hd1 Em) as (Hs2 & Hd2 & [es2 Hdir] & _ & _).
      destruct vs as [d|es].
      + pose proof (tree_copytree_no_source src dst t2 src_canonical) as Hcp.
        rewrite Hs2 in Hcp. rewrite Hcp. reflexivity.
      + unfold dst at 1 2.
        rewrite (tree_copytree_plain droot S droot_canonical S_plain src t2 es es2
                   src_canonical apart Hs2 Hdir Hd2).
        fold dst. destruct (long S); reflexivity. }
  destruct k; injection Hb as Hw Hr.
  - apply Hgo; assumption.
  - apply Hgo; assumption.
  - unfold install_world, install_raises. rewrite Hr, Hw. reflexivity.
Qed.

(** One run of [install_skill] on a tree where the source exists. *)
Lemma install_on_tree (t vs : node) :
  get src t = Some vs ->
  (install_world src dst t, install_raises src dst t)
  = match get dst t with
    | Some (File _) => (t, Some (enotdir_path dst))
    | Some (Dir _) => copies vs (mkdirs (remove_at dst t) false [] [] droot droot)
    | None =>
        match stops t [] dst with
        | Some TooLong => (t, Some (etoolong dst))
        | _ => copies vs (mkdirs t false [] [] droot droot)
        end
    end.
Proof.
  intros Hs. pose proof (before_mkdir_tree t) as Hb.
  destruct (get dst t) as [[d|es]|] eqn:Ed.
  - injection Hb as Hw Hr.
    unfold install_world, install_raises. rewrite Hr, Hw. reflexivity.
  - rewrite (stops_found dst t (Dir es)
               (dst_canonical droot S droot_canonical S_plain) Ed) in Hb.
    injection Hb as Hw Hr.
    destruct (cleared_tree t vs Hs) as [Hs1 Hd1].
    unfold install_world, install_raises, mkdir_raises, copytree_raises,
      after_copy, before_copy. rewrite Hr, Hw.
    change (@fs_mkdir_parents node tree_fs) with tree_mkdir_parents.
    change (@fs_copytree node tree_fs) with (tree_copytree copy_into_itself).
    unfold tree_mkdir_parents.
    assert (Hp : parent dst = droot) by apply parent_snoc. rewrite Hp.
    destruct (mkdirs (remove_at dst t) false [] [] droot droot) as [t2 [err|]] eqn:Em;
      cbn [fst snd copies].
    + reflexivity.
    + destruct (prepared_tree _ t2 vs Hs1 Hd1 Em) as (Hs2 & Hd2 & [es2 Hdir] & _ & _).
      destruct vs as [d|es'].
      * pose proof (tree_copytree_no_source src dst t2 src_canonical) as Hcp.
        rewrite Hs2 in Hcp. rewrite Hcp. reflexivity.
      * unfold dst at 1 2.
        rewrite (tree_copytree_plain droot S droot_canonical S_plain src t2 es' es2
                   src_canonical apart Hs2 Hdir Hd2).
        fold dst. destruct (long S); reflexivity.
  - apply (install_on_clear_tree t vs Hs Ed).
Qed.

(** A run that raises nothing leaves the source directory, as it was,
    at the destination. *)
Lemma copies_copy (t1 vs : node) (w : node) :
  get src t1 = Some vs ->
  get dst t1 = None ->
  copies vs (mkdirs t1 false [] [] droot droot) = (w, None) ->
  exists es, vs = Dir es /\ get dst w = Some (Dir es).
Proof.
  intros Hs1 Hd1 E.
  destruct (mkdirs t1 false [] [] droot droot) as [t2 [err|]] eqn:Em;
    cbn [copies] in E; [discriminate|].
  destruct (prepared_tree t1 t2 vs Hs1 Hd1 Em) as (_ & _ & [es2 Hdir] & _ & _).
  destruct vs as [d|es]; [discriminate|].
  destruct (long S); [discriminate|].
  injection E as <-. exists es. split; [reflexivity|].
  apply (get_put_same droot S (Dir es) t2 es2 Hdir).
Qed.

Lemma installed_copy (t vs : node) :
  get src t = Some vs ->
  install_raises src dst t = None ->
  exists es, vs = Dir es /\ get dst (install_world src dst t) = Some (Dir es).
Proof.
  intros Hs Hr. pose proof (install_on_tree t vs Hs) as E. rewrite Hr in E.
  destruct (cleared_tree t vs Hs) as [Hs1 Hd1].
  destruct (get dst t) as [[d|es]|] eqn:Ed.
  - discriminate.
  - apply (copies_copy (remove_at dst t) vs _ Hs1 Hd1). symmetry. exact E.
  - destruct (stops t [] dst) as [[| |]|]; try discriminate;
      apply (copies_copy t vs _ Hs Ed); symmetry; exact E.
Qed.

(** After the run on a tree without an old installation a second run
    leaves the file system as it is. *)
Lemma copies_again (t1 vs : node) :
  get src t1 = Some vs ->
  get dst t1 = None ->
  let w := fst (copies vs (mkdirs t1 false [] [] droot droot)) in
  get src w = Some vs /\ install_world src dst w = w.
Proof.
  intros Hs1 Hd1 w. subst w.
  destruct (mkdirs t1 false [] [] droot droot) as [t2 [err|]] eqn:Em; cbn [copies fst].
  - destruct (mkdir_tree t1 t2 vs _ Hs1 Hd1 Em) as [Hs2 Hd2].
    split; [exact Hs2|].
    pose proof (install_on_clear_tree t2 vs Hs2 Hd2) as E2.
    destruct (root_is_dir t1 vs Hs1) as [es0 Hroot].
    destruct (mkdirs_again droot droot_canonical t1 false [] [] droot t2 err es0
                Hroot Em false [] droot) as [err' Em2].
    rewrite Em2 in E2. cbn [copies] in E2.
    destruct (stops t2 [] dst) as [[| |]|]; injection E2 as Hw _; exact Hw.
  - destruct (prepared_tree t1 t2 vs Hs1 Hd1 Em) as (Hs2 & Hd2 & [es2 Hdir] & Em2 & Hst).
    pose proof (install_on_clear_tree t2 vs Hs2 Hd2) as E2.
    rewrite Hst, Em2 in E2. cbn [copies] in E2.
    destruct vs as [d|es].
    + cbn [fst]. split; [exact Hs2|].
      destruct (long S); injection E2 as Hw _; exact Hw.
    + destruct (long S) eqn:El; cbn [fst].
      * split; [exact Hs2|]. injection E2 as Hw _. exact Hw.
      * assert (Hs3 : get src (put_at dst (Dir es) t2) = Some (Dir es)).
        { rewrite <- Hs2. apply get_put_diverge. rewrite diverge_sym. exact apart. }
        split; [exact Hs3|].
        pose proof (install_on_tree _ _ Hs3) as E3.
        assert (Hd3 : get dst (put_at dst (Dir es) t2) = Some (Dir es))
          by exact (get_put_same droot S (Dir es) t2 es2 Hdir).
        assert (Hr3 : remove_at dst (put_at dst (Dir es) t2) = t2)
          by exact (remove_put droot S (Dir es) t2 Hd2).
        rewrite Hd3, Hr3, Em2 in E3. cbn [copies] in E3. rewrite El in E3.
        injection E3 as Hw3 _. exact Hw3.
Qed.

(** After a run the source is as it was, and a second run leaves the
    file system the first run left. *)
Lemma install_world_again (t vs : node) :
  get src t = Some vs ->
  get src (install_world src dst t) = Some vs
  /\ install_world src dst (install_world src dst t) = install_world src dst t.
Proof.
  intros Hs. pose proof (install_on_tree t vs Hs) as E.
  destruct (cleared_tree t vs Hs) as [Hs1 Hd1].
  destruct (get dst t) as [[d|es]|] eqn:Ed.
  - injection E as Hw _. rewrite !Hw. split; [assumption|reflexivity].
  - apply (f_equal fst) in E. cbn [fst] in E. rewrite E.
    apply (copies_again (remove_at dst t) vs Hs1 Hd1).
  - destruct (stops t [] dst) as [[| |]|];
      try (apply (f_equal fst) in E; cbn [fst] in E; rewrite E;
           apply (copies_again t vs Hs Ed)).
    injection E as Hw _. rewrite !Hw. split; [assumption|reflexivity].
Qed.

End InstallOnTrees.

(* ===================================================================== *)
(** ** Install copies, remove removes, install twice is install once *)
(* ===================================================================== *)

Section CopiesAndRemoves.

Context {python : Interpreter}.

(** A run of [install_skill] that returns [True] leaves at
    [destination_root/S] the directory that was at [source_root/S] when
    it started, and nothing else. *)
Definition copies_skill (install_skill : string -> path -> path -> M node bool) : Prop :=
  forall (sroot droot : path) (S : string) (t : node) (out : list output)
         (s' : state node),
    canonical sroot = true ->
    canonical droot = true ->
    plain_name S = true ->
    diverge (sroot / S)%path (droot / S)%path = true ->
    install_skill S (sroot / S)%path (droot / S)%path {| world := t; stdout := out |}
    = (Normal true, s') ->
    exists es,
      get (sroot / S)%path t = Some (Dir es)
      /\ get (droot / S)%path (world s') = Some (Dir es).


Lemma oc_copies_skill : copies_skill OpencodeInstaller.install_skill.
Proof.
  intros sroot droot S t out s' Hsr Hdr HS.
  rewrite !(joinpath_plain _ S HS). intros Hap Hrun.
  pose (s := {| world := t; stdout := out |}).
  destruct (fs_exists (sroot ++ [S]) t) as [err|[|]] eqn:Hex.
  - rewrite (install_skill_unreadable S _ _ {| world := t; stdout := out |} err Hex)
      in Hrun.
    discriminate.
  - destruct (install_skill_present S (sroot ++ [S]) (droot ++ [S]) s Hex) as [mid Hp].
    unfold s in Hp. rewrite Hp in Hrun. clear Hp.
    change (@fs_exists node tree_fs) with tree_exists in Hex.
    rewrite (tree_exists_canonical _ t (src_canonical sroot S Hsr HS)) in Hex.
    destruct (get (sroot ++ [S]) t) as [vs|] eqn:Hs.
    2:{ destruct (stops t [] (sroot ++ [S])) as [[| |]|]; discriminate. }
    destruct (install_raises (sroot ++ [S]) (droot ++ [S]) t) eqn:Hr.
    { simpl in Hrun. rewrite Hr in Hrun. discriminate. }
    destruct (installed_copy sroot droot S Hsr Hdr HS Hap t vs Hs Hr) as [es [-> Hd]].
    exists es. simpl in Hrun. rewrite Hr in Hrun. injection Hrun as <-.
    split; [reflexivity|exact Hd].
  - rewrite (install_skill_missing S _ _ {| world := t; stdout := out |} Hex) in Hrun.
    discriminate.
Qed.



(** Running [install_skill] again on what a first run left gives the
    same file system. *)
Definition installs_idempotently
  (install_skill : string -> path -> path -> M node bool) : Prop :=
  forall (sroot droot : path) (S : string) (t : node) (out : list output),
    canonical sroot = true ->
    canonical droot = true ->
    plain_name S = true ->
    diverge (sroot / S)%path (droot / S)%path = true ->
    (exists v, get (sroot / S)%path t = Some v) ->
    let once :=
      install_skill S (sroot / S)%path (droot / S)%path {| world := t; stdout := out |} in
    let twice := install_skill S (sroot / S)%path (droot / S)%path (snd once) in
    world (snd twice) = world (snd once).

Lemma oc_installs_idempotently : installs_idempotently OpencodeInstaller.install_skill.
Proof.
  intros sroot droot S t out Hsr Hdr HS.
  rewrite !(joinpath_plain _ S HS). intros Hap [vs Hs] once twice.
  pose proof (src_canonical sroot S Hsr HS) as Hsc.
  destruct (install_world_again sroot droot S Hsr Hdr HS Hap t vs Hs) as [Hkept Hagain].
  assert (Hex : fs_exists (sroot ++ [S]) t = inr true).
  { change (@fs_exists node tree_fs) with tree_exists.
    rewrite (tree_exists_canonical _ t Hsc), Hs. reflexivity. }
  destruct (install_skill_present S (sroot ++ [S]) (droot ++ [S])
              {| world := t; stdout := out |} Hex) as [mid Hp].
  assert (Hw1 : world (snd once) = install_world (sroot ++ [S]) (droot ++ [S]) t).
  { unfold once. rewrite Hp. reflexivity. }
  assert (Hex1 : fs_exists (sroot ++ [S]) (world (snd once)) = inr true).
  { rewrite Hw1. change (@fs_exists node tree_fs) with tree_exists.
    rewrite (tree_exists_canonical _ _ Hsc), Hkept. reflexivity. }
  destruct (install_skill_present S (sroot ++ [S]) (droot ++ [S]) (snd once) Hex1)
    as [mid1 Hp1].
  unfold twice. rewrite Hp1. simpl. rewrite Hw1. exact Hagain.
Qed.

(** C4.  For a skill [S] present in the source root (with the provisos
    of C1 on names and paths) and every state of the destination, a
    second [install_skill] right after the first leaves the whole file
    system, and so the destination tree, as the first left it; whether
    the runs succeed or fail.  In both scripts. *)
Theorem install_twice_is_install_once :
  installs_idempotently OpencodeInstaller.install_skill
  /\ installs_idempotently SkillsManager.install_skill.
Proof.
  split.
  - apply oc_installs_idempotently.
  - rewrite install_skill_same. apply oc_installs_idempotently.
Qed.

End CopiesAndRemoves.

(* ===================================================================== *)
(** ** Names that leave the destination root *)
(* ===================================================================== *)

Section DotDot.

Context {python : Interpreter}.















End DotDot.

(* ===================================================================== *)
(** ** The tree theorems on the example repository *)
(* ===================================================================== *)

(** [demo_tree] with an older installation of the skill that holds a file
    the source does not have. *)
Definition stale_tree : node :=
  put_at ["home"; "u"; ".config"]
    (Dir [("opencode",
           Dir [("skills",
                 Dir [("git-formatter", Dir [("old.txt", File [x6f; x6c; x64])]);
                      ("other", Dir [])])])])
    demo_tree.

Definition demo_source_root : path := ["repo"; "skills"].
Definition demo_dest_root : path := ["home"; "u"; ".config"; "opencode"; "skills"].


(** A destination inside the source.  With the source root [/r], the
    destination root [/r/s] and the skill [s], the source directory is
    [/r/s] and the destination [/r/s/s]: the older installation, with its
    file [old], is part of the source when the install starts.  The
    install deletes it, copies what is left and returns [True]: the
    destination holds [f] only, which is not the source as it was. *)
Definition nested_tree : node :=
  Dir [("r", Dir [("s", Dir [("f", File [x66]);
                             ("s", Dir [("old", File [x6f])])])])].

Lemma install_into_the_source_is_no_copy :
  canonical ["r"] = true
  /\ canonical ["r"; "s"] = true
  /\ plain_name "s" = true
  /\ fst (OpencodeInstaller.install_skill "s" (["r"] / "s")%path (["r"; "s"] / "s")%path
            (start nested_tree)) = Normal true
  /\ fst (SkillsManager.install_skill "s" (["r"] / "s")%path (["r"; "s"] / "s")%path
            (start nested_tree)) = Normal true
  /\ get (["r"] / "s")%path nested_tree
     = Some (Dir [("f", File [x66]); ("s", Dir [("old", File [x6f])])])
  /\ get (["r"; "s"] / "s")%path
       (world (snd (OpencodeInstaller.install_skill "s" (["r"] / "s")%path
                      (["r"; "s"] / "s")%path (start nested_tree))))
     = Some (Dir [("f", File [x66])])
  /\ Dir [("f", File [x66])]
     <> Dir [("f", File [x66]); ("s", Dir [("old", File [x6f])])].
Proof.
  repeat apply conj; try reflexivity. discriminate.
Qed.

(** On [stale_tree] and on [blocked_tree], where the first run fails, a
    second run changes nothing. *)
Lemma install_twice_is_install_once_witness :
  (let once :=
     OpencodeInstaller.install_skill "git-formatter"
       (demo_source_root / "git-formatter")%path
       (demo_dest_root / "git-formatter")%path (start stale_tree) in
   world (snd (OpencodeInstaller.install_skill "git-formatter"
                 (demo_source_root / "git-formatter")%path
                 (demo_dest_root / "git-formatter")%path (snd once)))
   = world (snd once))
  /\
  (let once :=
     SkillsManager.install_skill "git-formatter"
       (demo_source_root / "git-formatter")%path
       (demo_dest_root / "git-formatter")%path (start blocked_tree) in
   world (snd (SkillsManager.install_skill "git-formatter"
                 (demo_source_root / "git-formatter")%path
                 (demo_dest_root / "git-formatter")%path (snd once)))
   = world (snd once)).
Proof.
  split.
  - apply (proj1 install_twice_is_install_once demo_source_root demo_dest_root
             "git-formatter" stale_tree [] eq_refl eq_refl eq_refl eq_refl).
    eexists. reflexivity.
  - apply (proj2 install_twice_is_install_once demo_source_root demo_dest_root
             "git-formatter" blocked_tree [] eq_refl eq_refl eq_refl eq_refl).
    eexists. reflexivity.
Defined.


(** [remove ..] does not delete the parent of the destination root, and
    it does fail: on [stale_tree] the call returns [False],
    [~/.config/opencode] is still there, an empty directory, and the run
    prints the error of the item and [Done. Removed 0/1 skills.] *)
Lemma remove_dotdot_fails_and_the_parent_stays :
  fst (OpencodeInstaller.remove_skill ".." (demo_dest_root / "..")%path
         (start stale_tree)) = Normal false
  /\ fs_exists ["home"; "u"; ".config"; "opencode"]
       (world (snd (OpencodeInstaller.remove_skill ".." (demo_dest_root / "..")%path
                      (start stale_tree)))) = inr true
  /\ get ["home"; "u"; ".config"; "opencode"]
       (world (snd (OpencodeInstaller.remove_skill ".." (demo_dest_root / "..")%path
                      (start stale_tree)))) = Some (Dir [])
  /\ stdout (snd (OpencodeInstaller.dispatch
                    (installer_args "remove" (Some "..") false)
                    demo_source_root demo_dest_root (start stale_tree)))
     = [removing "..";
        remove_error ".." (enoent (demo_dest_root ++ [".."]));
        Line (repeat_char "-" 50);
        Line "Done. Removed 0/1 skills."]
  /\ stdout (snd (SkillsManager.dispatch
                    (manager_args "opencode" "global" "remove" (Some "..") false)
                    ["repo"] demo_dest_root (start stale_tree)))
     = [removing "..";
        remove_error ".." (enoent (demo_dest_root ++ [".."]));
        Line (repeat_char "=" 60);
        Line "Done. Removed 0/1 skills."].
Proof.
  repeat apply conj; reflexivity.
Qed.

(* ===================================================================== *)
(** ** Runs that end before any operation *)
(* ===================================================================== *)

Section EarlyExits.

Context {W : Type} `{FileSystem W}.
Variable e : env.

Definition source_not_located (p : path) : output :=
  Line ("Error: Could not locate source skills directory at " ++ str p).

Definition invalid_target (tg : string) : output :=
  Line ("Error: Invalid target '" ++ tg ++ "'").

Definition no_skill_given : output :=
  Line "Error: Please specify a skill name or use --all".

(** The warning of the scope check, when there is one. *)
Definition scope_warning (a : SkillsManager.args) : list output :=
  if (SkillsManager.target a =? "opencode") && (SkillsManager.scope a =? "workspace")
  then [downgrade_warning] else [].

Lemma oc_get_source_missing (s : state W) :
  dir_at (world s) (oc_source e) = inr false ->
  OpencodeInstaller.get_source_skills_dir e s
  = (Exited 1,
     {| world := world s; stdout := stdout s ++ [source_not_located (oc_source e)] |}).
Proof.
  unfold dir_at, OpencodeInstaller.get_source_skills_dir. intros Hd.
  change (parent (parent (script e)) / "skills")%path with (oc_source e).
  run. destruct (fs_exists (oc_source e) (world s)) as [err|[|]]; simpl in *.
  - discriminate.
  - injection Hd as Hd. rewrite Hd. reflexivity.
  - reflexivity.
Qed.

Lemma sm_get_source_missing (s : state W) :
  dir_at (world s) (sm_source e) = inr false ->
  SkillsManager.get_source_skills_dir e s
  = (Exited 1,
     {| world := world s; stdout := stdout s ++ [source_not_located (sm_source e)] |}).
Proof.
  unfold dir_at, SkillsManager.get_source_skills_dir. intros Hd.
  fold (sm_source e).
  run. destruct (fs_exists (sm_source e) (world s)) as [err|[|]]; simpl in *.
  - discriminate.
  - injection Hd as Hd. rewrite Hd. reflexivity.
  - reflexivity.
Qed.

Lemma sm_validate_scope_run (a : SkillsManager.args) (s : state W) :
  SkillsManager.validate_scope a s
  = (Normal (effective_scope a),
     {| world := world s; stdout := stdout s ++ scope_warning a |}).
Proof.
  unfold SkillsManager.validate_scope, effective_scope, scope_warning.
  destruct ((SkillsManager.target a =? "opencode")
            && (SkillsManager.scope a =? "workspace")).
  - reflexivity.
  - unfold ret. rewrite app_nil_r. destruct s; reflexivity.
Qed.

(** X1.  A source root that is missing or is not a directory is fatal for
    every command of both scripts: the run prints where it looked, ends
    with exit status 1 and has not touched the file system.  For a
    target that is neither [opencode] nor [antigravity],
    [get_dest_skills_dir] of the manager prints the error and exits with
    status 1, whatever the scope. *)
Theorem configuration_errors_are_fatal :
  (forall (a : OpencodeInstaller.args) (s : state W),
      truthy (OpencodeInstaller.command a) = true ->
      dir_at (world s) (oc_source e) = inr false ->
      OpencodeInstaller.main e a s
      = (Exited 1,
         {| world := world s;
            stdout := stdout s ++ [source_not_located (oc_source e)] |}))
  /\
  (forall (a : SkillsManager.args) (s : state W),
      truthy (SkillsManager.command a) = true ->
      dir_at (world s) (sm_source e) = inr false ->
      SkillsManager.main e a s
      = (Exited 1,
         {| world := world s;
            stdout := stdout s ++ scope_warning a
                      ++ [source_not_located (sm_source e)] |}))
  /\
  (forall (tg sc : string) (s : state W),
      tg <> "opencode" ->
      tg <> "antigravity" ->
      SkillsManager.get_dest_skills_dir e tg sc s
      = (Exited 1,
         {| world := world s; stdout := stdout s ++ [invalid_target tg] |})).
Proof.
  split; [|split].
  - intros a s Hc Hd. unfold OpencodeInstaller.main. rewrite Hc. simpl.
    unfold bind at 1. unfold ret at 1. unfold bind at 1.
    rewrite oc_get_source_missing by assumption. reflexivity.
  - intros a s Hc Hd. unfold SkillsManager.main. rewrite Hc. simpl.
    unfold bind at 1. unfold ret at 1. unfold bind at 1.
    rewrite sm_validate_scope_run. unfold bind at 1.
    rewrite sm_get_source_missing by assumption. simpl.
    rewrite <- app_assoc. reflexivity.
  - intros tg sc s Ho Ha. unfold SkillsManager.get_dest_skills_dir.
    apply String.eqb_neq in Ho, Ha. rewrite Ho, Ha. reflexivity.
Qed.

(** X2.  Usage errors of both scripts.  Without a command the run prints
    the help and ends with status 1 before it looks at the file system.
    An install or a remove with neither a name nor [--all], the empty
    name counting as none, prints the error and ends with status 1; the
    file system is as it was. *)
Theorem usage_errors :
  (forall (a : OpencodeInstaller.args) (s : state W),
      truthy (OpencodeInstaller.command a) = false ->
      OpencodeInstaller.main e a s
      = (Exited 1, {| world := world s; stdout := stdout s ++ [Help] |}))
  /\
  (forall (a : SkillsManager.args) (s : state W),
      truthy (SkillsManager.command a) = false ->
      SkillsManager.main e a s
      = (Exited 1, {| world := world s; stdout := stdout s ++ [Help] |}))
  /\
  (forall (a : OpencodeInstaller.args) (s : state W),
      OpencodeInstaller.command a = Some "install"
      \/ OpencodeInstaller.command a = Some "remove" ->
      truthy (OpencodeInstaller.skill a) = false ->
      OpencodeInstaller.all a = false ->
      dir_at (world s) (oc_source e) = inr true ->
      OpencodeInstaller.main e a s
      = (Exited 1,
         {| world := world s;
            stdout := stdout s ++ oc_header e ++ [no_skill_given] |}))
  /\
  (forall (a : SkillsManager.args) (s : state W) (d : path),
      SkillsManager.command a = Some "install"
      \/ SkillsManager.command a = Some "remove" ->
      truthy (SkillsManager.skill a) = false ->
      SkillsManager.all a = false ->
      dir_at (world s) (sm_source e) = inr true ->
      resolves_to e (world s) (SkillsManager.target a) (effective_scope a) d ->
      SkillsManager.main e a s
      = (Exited 1,
         {| world := world s;
            stdout := stdout s ++ sm_header e a d ++ [no_skill_given] |})).
Proof.
  split; [|split; [|split]].
  - intros a s Hc. unfold OpencodeInstaller.main. rewrite Hc. reflexivity.
  - intros a s Hc. unfold SkillsManager.main. rewrite Hc. reflexivity.
  - intros a s Hc Hs Ha Hd.
    rewrite oc_main_run; [|destruct Hc as [-> | ->]; reflexivity|assumption].
    unfold OpencodeInstaller.dispatch, OpencodeInstaller.command_is.
    destruct Hc as [-> | ->]; simpl; rewrite Hs, Ha; simpl;
      run; rewrite <- app_assoc; reflexivity.
  - intros a s d Hc Hs Ha Hd Hr.
    rewrite (sm_main_run e a s d); [|destruct Hc as [-> | ->]; reflexivity
                                    |assumption|assumption].
    unfold SkillsManager.dispatch, SkillsManager.command_is.
    destruct Hc as [-> | ->]; simpl; rewrite Hs, Ha; simpl;
      run; rewrite <- app_assoc; reflexivity.
Qed.

End EarlyExits.

(* ===================================================================== *)
(** ** The list command, and skills that are not installed *)
(* ===================================================================== *)

From Stdlib Require Import Sorted Permutation.

Section Sorting.


Lemma insert_sorted_perm (x : string) (l : list string) :
  Permutation (x :: l) (insert_sorted x l).
Proof.
  induction l as [|y l IH]; simpl; [apply Permutation_refl|].
  destruct (String.leb x y); [apply Permutation_refl|].
  apply perm_trans with (y :: x :: l); [apply perm_swap|].
  apply perm_skip. exact IH.
Qed.

Lemma sorted_perm (l : list string) : Permutation l (sorted l).
Proof.
  induction l as [|x l IH]; simpl; [apply perm_nil|].
  apply perm_trans with (x :: sorted l); [apply perm_skip; exact IH|].
  apply insert_sorted_perm.
Qed.




End Sorting.

Section Listing.

Context {W : Type} `{FileSystem W}.
Variable e : env.

Definition not_installed_yet : output :=
  Line "No skills installed yet (destination directory does not exist).".

Definition none_installed : output := Line "No skills installed.".

Definition installed_header (n : nat) : output :=
  Line ("Installed Skills (" ++ str_nat n ++ "):").

(** One line of the listing, with the bullet of each script. *)
Definition oc_item (n : string) : output := Line (" - " ++ n).
Definition sm_item (n : string) : output := Line ("  - " ++ n).

Lemma oc_print_each_run (l : list string) :
  forall s : state W,
    OpencodeInstaller.print_each l s
    = (Normal tt, {| world := world s; stdout := stdout s ++ map oc_item l |}).
Proof.
  induction l as [|n l IH]; intros s.
  - simpl. unfold ret. rewrite app_nil_r. destruct s; reflexivity.
  - simpl. unfold bind, print. rewrite IH. simpl. lines. reflexivity.
Qed.

Lemma sm_print_each_run (l : list string) :
  forall s : state W,
    SkillsManager.print_each l s
    = (Normal tt, {| world := world s; stdout := stdout s ++ map sm_item l |}).
Proof.
  induction l as [|n l IH]; intros s.
  - simpl. unfold ret. rewrite app_nil_r. destruct s; reflexivity.
  - simpl. unfold bind, print. rewrite IH. simpl. lines. reflexivity.
Qed.

(** What [list] prints for the names [l] it found. *)
Definition listing (item : string -> output) (l : list string) : list output :=
  match l with
  | [] => [none_installed]
  | _ => installed_header (List.length l) :: map item (sorted l)
  end.

Lemma oc_list_missing (d : path) (s : state W) :
  fs_exists d (world s) = inr false ->
  OpencodeInstaller.list_installed_skills d s
  = (Normal tt, {| world := world s; stdout := stdout s ++ [not_installed_yet] |}).
Proof.
  intros Hd. unfold OpencodeInstaller.list_installed_skills. run. rewrite Hd.
  reflexivity.
Qed.

Lemma sm_list_missing (d : path) (s : state W) :
  fs_exists d (world s) = inr false ->
  SkillsManager.list_installed_skills d s
  = (Normal tt, {| world := world s; stdout := stdout s ++ [not_installed_yet] |}).
Proof.
  intros Hd. unfold SkillsManager.list_installed_skills. run. rewrite Hd.
  reflexivity.
Qed.

Lemma oc_list_present (d : path) (s : state W) (names : list string) :
  fs_exists d (world s) = inr true ->
  fs_iterdir d (world s) = inr names ->
  OpencodeInstaller.list_installed_skills d s
  = (Normal tt,
     {| world := world s;
        stdout := stdout s ++ listing oc_item (filter (visible d (world s)) names) |}).
Proof.
  intros Hd Hn. unfold OpencodeInstaller.list_installed_skills.
  unfold bind at 1. unfold exists_, read_or_raise. cbn [world]. rewrite Hd. cbn [negb].
  unfold bind at 1. unfold iterdir, read_or_raise. rewrite Hn.
  unfold bind at 1.
  rewrite (select_reads _ (fun n w => visible d w n))
    by (intros; apply oc_visible_dir_reads).
  change (fun n : string => visible d (world s) n) with (visible d (world s)).
  destruct (filter (visible d (world s)) names) as [|x l] eqn:E.
  - reflexivity.
  - unfold bind, print. rewrite oc_print_each_run. simpl. lines. reflexivity.
Qed.

Lemma sm_list_present (d : path) (s : state W) (names : list string) :
  fs_exists d (world s) = inr true ->
  fs_iterdir d (world s) = inr names ->
  SkillsManager.list_installed_skills d s
  = (Normal tt,
     {| world := world s;
        stdout := stdout s ++ listing sm_item (filter (visible d (world s)) names) |}).
Proof.
  intros Hd Hn. unfold SkillsManager.list_installed_skills.
  unfold bind at 1. unfold exists_, read_or_raise. cbn [world]. rewrite Hd. cbn [negb].
  unfold bind at 1. unfold iterdir, read_or_raise. rewrite Hn.
  unfold bind at 1.
  rewrite (select_reads _ (fun n w => visible d w n))
    by (intros; apply sm_visible_dir_reads).
  change (fun n : string => visible d (world s) n) with (visible d (world s)).
  destruct (filter (visible d (world s)) names) as [|x l] eqn:E.
  - reflexivity.
  - unfold bind, print. rewrite sm_print_each_run. simpl. lines. reflexivity.
Qed.





End Listing.

Section NotThere.

Context {W : Type} `{FileSystem W}.
Variable e : env.

(** X4.  A destination root that exists and cannot be listed (a regular
    file in its place, say) is not handled: in both scripts [list] and
    [remove --all] let the exception of [iterdir] through, so the run
    ends with exit status 1 after the header, without the summary and
    without having touched the file system. *)
Theorem unlistable_destination_is_fatal :
  (forall (a : OpencodeInstaller.args) (s : state W) (err : string),
      OpencodeInstaller.command a = Some "list"
      \/ (OpencodeInstaller.command a = Some "remove"
          /\ OpencodeInstaller.all a = true) ->
      dir_at (world s) (oc_source e) = inr true ->
      fs_exists (oc_dest e) (world s) = inr true ->
      fs_iterdir (oc_dest e) (world s) = inl err ->
      OpencodeInstaller.main e a s
      = (Raised err, {| world := world s; stdout := stdout s ++ oc_header e |}))
  /\
  (forall (a : SkillsManager.args) (s : state W) (d : path) (err : string),
      SkillsManager.command a = Some "list"
      \/ (SkillsManager.command a = Some "remove"
          /\ SkillsManager.all a = true) ->
      dir_at (world s) (sm_source e) = inr true ->
      resolves_to e (world s) (SkillsManager.target a) (effective_scope a) d ->
      fs_exists d (world s) = inr true ->
      fs_iterdir d (world s) = inl err ->
      SkillsManager.main e a s
      = (Raised err, {| world := world s; stdout := stdout s ++ sm_header e a d |})).
Proof.
  split.
  - intros a s err Hc Hsrc Hd Hn.
    rewrite oc_main_run; [|destruct Hc as [-> | [-> _]]; reflexivity|assumption].
    unfold OpencodeInstaller.dispatch, OpencodeInstaller.command_is.
    destruct Hc as [-> | [-> Ha]]; simpl.
    + unfold OpencodeInstaller.list_installed_skills. run. rewrite Hd. simpl.
      rewrite Hn. reflexivity.
    + rewrite Ha, andb_false_r. unfold OpencodeInstaller.skills_to_remove.
      rewrite Ha. run. rewrite Hd. simpl. rewrite Hn. reflexivity.
  - intros a s d err Hc Hsrc Hr Hd Hn.
    rewrite (sm_main_run e a s d);
      [|destruct Hc as [-> | [-> _]]; reflexivity|assumption|assumption].
    unfold SkillsManager.dispatch, SkillsManager.command_is.
    destruct Hc as [-> | [-> Ha]]; simpl.
    + unfold SkillsManager.list_installed_skills. run. rewrite Hd. simpl.
      rewrite Hn. reflexivity.
    + rewrite Ha, andb_false_r. unfold SkillsManager.skills_to_remove.
      rewrite Ha. run. rewrite Hd. simpl. rewrite Hn. reflexivity.
Qed.




(** X6.  With several marked ancestors the nearest wins: when a
    directory at or above the working directory, below the file system
    root, holds a directory [.agent] and none of the directories between
    it and the working directory does, workspace resolution returns its
    [.agent/skills], whatever is marked further up. *)
Theorem nearest_marker_wins (s : state W) (anc rest : path) :
  cwd e = anc ++ rest ->
  anc <> [] ->
  has_marker (world s) anc = inr true ->
  (forall r r', rest = r ++ r' -> r <> [] -> has_marker (world s) (anc ++ r) = inr false) ->
  SkillsManager.get_dest_skills_dir e "antigravity" "workspace" s
  = (Normal (anc ++ [".agent"; "skills"]), s).
Proof.
  intros Hcwd Hne Hm Hbelow.
  change (SkillsManager.get_dest_skills_dir e "antigravity" "workspace" s)
    with (workspace_dest e s).
  rewrite workspace_dest_unfold, Hcwd.
  rewrite search_up_found by assumption. reflexivity.
Qed.

End NotThere.

(* ===================================================================== *)
(** ** What install and remove leave alone, and how they fail *)
(* ===================================================================== *)

Section Frames.

Context {python : Interpreter}.
Variables (sroot droot : path) (S : string).
Hypothesis sroot_canonical : canonical sroot = true.
Hypothesis droot_canonical : canonical droot = true.
Hypothesis S_plain : plain_name S = true.

Let src : path := sroot ++ [S].
Let dst : path := droot ++ [S].


Lemma tree_fs_exists (p : path) (t : node) :
  canonical p = true ->
  fs_exists p t = match get p t with
                  | Some _ => inr true
                  | None =>
                      match stops t [] p with
                      | Some TooLong => inl (etoolong p)
                      | _ => inr false
                      end
                  end.
Proof. intros Hp. apply (tree_exists_canonical p t Hp). Qed.

(** [remove_skill] on a tree, by what is at the destination path. *)
Lemma remove_on_tree (t : node) (out : list output) :
  OpencodeInstaller.remove_skill S dst {| world := t; stdout := out |}
  = match get dst t with
    | Some (Dir _) =>
        (Normal true,
         {| world := remove_at dst t;
            stdout := out ++ [removing S;
                              Line ("  ✅ Successfully removed " ++ str dst)] |})
    | Some (File _) =>
        (Normal false,
         {| world := t;
            stdout := out ++ [removing S; remove_error S (enotdir_path dst)] |})
    | None =>
        match fs_exists dst t with
        | inl err => (Raised err, {| world := t; stdout := out ++ [removing S] |})
        | inr _ =>
            (Normal false,
             {| world := t; stdout := out ++ [removing S; missing_dest S dst] |})
        end
    end.
Proof.
  pose proof (tree_fs_exists dst t (dst_canonical droot S droot_canonical S_plain)) as Hex.
  destruct (get dst t) as [v|] eqn:Ed.
  - rewrite (remove_skill_present S dst {| world := t; stdout := out |} Hex).
    cbn [world stdout].
    change (@fs_rmtree node tree_fs) with tree_rmtree.
    unfold dst. rewrite (tree_rmtree_plain droot S droot_canonical S_plain t).
    fold dst. rewrite Ed. destruct v; reflexivity.
  - destruct (fs_exists dst t) as [err|b] eqn:Hx.
    + apply (remove_skill_unreadable S dst {| world := t; stdout := out |} err Hx).
    + assert (Hb : b = false).
      { destruct (stops t [] dst) as [[| |]|]; congruence. }
      subst b. apply (remove_skill_missing S dst {| world := t; stdout := out |} Hx).
Qed.


(** A regular file at the destination path makes [install_skill] fail
    before it changes anything. *)
Lemma install_blocked (t : node) (out : list output) (d : list byte) (vs : node) :
  get src t = Some vs ->
  get dst t = Some (File d) ->
  exists mid,
    OpencodeInstaller.install_skill S src dst {| world := t; stdout := out |}
    = (Normal false,
       {| world := t;
          stdout := out ++ installing S :: mid
                    ++ [install_error S (enotdir_path dst)] |}).
Proof.
  intros Hs Hd.
  pose proof (tree_fs_exists src t (src_canonical sroot S sroot_canonical S_plain)) as Hex.
  fold src in Hex. rewrite Hs in Hex.
  destruct (install_skill_present S src dst {| world := t; stdout := out |} Hex)
    as [mid Hp].
  pose proof (before_mkdir_tree droot S droot_canonical S_plain t) as E.
  fold dst in E. rewrite Hd in E. injection E as Hw Hr.
  cbn [world stdout] in Hp. unfold install_world, install_raises in Hp.
  rewrite Hr, Hw in Hp. exists mid. exact Hp.
Qed.

Hypothesis apart : diverge src dst = true.



(** A regular file at the source path: the old installation is deleted
    and nothing is put in its place. *)
Lemma install_of_a_file (t : node) (out : list output) (d : list byte)
  (es : list (string * node)) :
  get src t = Some (File d) ->
  get dst t = Some (Dir es) ->
  exists mid,
    OpencodeInstaller.install_skill S src dst {| world := t; stdout := out |}
    = (Normal false,
       {| world := remove_at dst t;
          stdout := out ++ installing S :: mid ++ [install_error S (enotdir src)] |}).
Proof.
  intros Hs Hd.
  pose proof (tree_fs_exists src t (src_canonical sroot S sroot_canonical S_plain)) as Hex.
  fold src in Hex. rewrite Hs in Hex.
  destruct (install_skill_present S src dst {| world := t; stdout := out |} Hex)
    as [mid Hp].
  pose proof (install_on_tree sroot droot S sroot_canonical droot_canonical
                S_plain apart t (File d) Hs) as E.
  fold src dst in E. rewrite Hd in E.
  destruct (get_above droot [S] t (Dir es) Hd) as [esd Hdir]; [discriminate|].
  assert (Hdir' : get ([] ++ droot) (remove_at dst t) = Some (Dir (drop_entry S esd)))
    by exact (get_remove_parent droot S t esd Hdir).
  rewrite (mkdirs_existing droot (remove_at dst t) false [] [] droot _ Hdir'
             droot_canonical) in E.
  cbn [copies] in E. injection E as Hw Hr.
  cbn [world stdout] in Hp. rewrite Hw, Hr in Hp. exists mid. exact Hp.
Qed.


End Frames.

Section TheRest.

Context {python : Interpreter}.

(** Two names of one directory part from each other as paths. *)
Lemma siblings_diverge (droot : path) (S S' : string) :
  S' <> S -> diverge (droot ++ [S']) (droot ++ [S]) = true.
Proof.
  intros Hne. induction droot as [|c p IH]; simpl.
  - destruct (S' =? S) eqn:E; [apply String.eqb_eq in E; congruence|reflexivity].
  - rewrite String.eqb_refl. exact IH.
Qed.






(** How [install_skill] fails on regular files. *)
Definition install_fails_on_files
  (install_skill : string -> path -> path -> M node bool) : Prop :=
  forall (sroot droot : path) (S : string) (t : node) (out : list output),
    canonical sroot = true ->
    canonical droot = true ->
    plain_name S = true ->
    let src := (sroot / S)%path in
    let dst := (droot / S)%path in
    (forall d vs,
        get src t = Some vs ->
        get dst t = Some (File d) ->
        exists mid,
          install_skill S src dst {| world := t; stdout := out |}
          = (Normal false,
             {| world := t;
                stdout := out ++ installing S :: mid
                          ++ [install_error S (enotdir_path dst)] |}))
    /\
    (forall d es,
        diverge src dst = true ->
        get src t = Some (File d) ->
        get dst t = Some (Dir es) ->
        exists mid,
          install_skill S src dst {| world := t; stdout := out |}
          = (Normal false,
             {| world := remove_at dst t;
                stdout := out ++ installing S :: mid
                          ++ [install_error S (enotdir src)] |})).

(** X9.  Regular files in the way of [install_skill], in both scripts.
    A file at [destination_root/S] is not overwritten: [shutil.rmtree]
    raises on it, with a text that names the [PosixPath], the install
    fails and the file system is as it was.  A file at [source_root/S],
    not inside the installed directory, passes the existence test, so
    the installed directory is deleted first and [shutil.copytree] then
    raises: the install fails and the old installation is gone, with no
    rollback. *)
Theorem install_and_regular_files :
  install_fails_on_files OpencodeInstaller.install_skill
  /\ install_fails_on_files SkillsManager.install_skill.
Proof.
  assert (Hoc : install_fails_on_files OpencodeInstaller.install_skill).
  { intros sroot droot S t out Hsr Hdr HS.
    rewrite !(joinpath_plain _ S HS). intros src dst. split.
    - intros d vs Hs Hd.
      apply (install_blocked sroot droot S Hsr Hdr HS t out d vs Hs Hd).
    - intros d es Hap Hs Hd.
      apply (install_of_a_file sroot droot S Hsr Hdr HS Hap t out d es Hs Hd). }
  split; [exact Hoc|rewrite install_skill_same; exact Hoc].
Qed.



End TheRest.

(* ===================================================================== *)
(** ** What list shows after an install and after a remove *)
(* ===================================================================== *)

Section Shown.

Context {python : Interpreter}.

Lemma oc_item_inj (n m : string) : oc_item n = oc_item m -> n = m.
Proof. unfold oc_item. intros E. injection E as E. exact E. Qed.

Lemma sm_item_inj (n m : string) : sm_item n = sm_item m -> n = m.
Proof. unfold sm_item. intros E. injection E as E. exact E. Qed.

Lemma oc_item_not_heading (n : string) (k : nat) :
  oc_item n <> installed_header k /\ oc_item n <> none_installed.
Proof.
  unfold oc_item, installed_header, none_installed.
  split; intros E; discriminate E.
Qed.

Lemma sm_item_not_heading (n : string) (k : nat) :
  sm_item n <> installed_header k /\ sm_item n <> none_installed.
Proof.
  unfold sm_item, installed_header, none_installed.
  split; intros E; discriminate E.
Qed.

(** A name has its line in the listing exactly when it was found. *)
Lemma shown_iff (item : string -> output) (S : string) (l : list string) :
  (forall n m, item n = item m -> n = m) ->
  (forall n k, item n <> installed_header k /\ item n <> none_installed) ->
  In (item S) (listing item l) <-> In S l.
Proof.
  intros Hinj Hhead. unfold listing. destruct l as [|x l].
  - simpl. split; [|intros []]. intros [E|[]].
    destruct (Hhead S 0) as [_ Hn]. symmetry in E. contradiction.
  - remember (x :: l) as xs. split.
    + intros [E|Hin].
      * destruct (Hhead S (List.length xs)) as [Hh _]. symmetry in E. contradiction.
      * apply in_map_iff in Hin. destruct Hin as [n [E Hn]].
        apply Hinj in E. subst n.
        apply (Permutation_in S (Permutation_sym (sorted_perm xs)) Hn).
    + intros Hin. right. apply in_map.
      apply (Permutation_in S (sorted_perm xs) Hin).
Qed.

Lemma find_entry_In (n : string) (es : list (string * node)) (v : node) :
  find_entry n es = Some v -> In n (map fst es).
Proof.
  induction es as [|[k u] es IH]; simpl; [discriminate|].
  destruct (k =? n) eqn:E.
  - apply String.eqb_eq in E. intros _. left. exact E.
  - intros Hf. right. apply IH, Hf.
Qed.

Lemma drop_entry_not_In (n : string) (es : list (string * node)) :
  ~ In n (map fst (drop_entry n es)).
Proof.
  induction es as [|[k u] es IH]; simpl; [intros []|].
  destruct (k =? n) eqn:E; [exact IH|].
  simpl. intros [Hk|Hin]; [|exact (IH Hin)].
  subst k. rewrite String.eqb_refl in E. discriminate.
Qed.

Lemma tree_iterdir_dir (p : path) (t : node) (es : list (string * node)) :
  canonical p = true ->
  get p t = Some (Dir es) ->
  fs_exists p t = inr true /\ fs_iterdir p t = inr (map fst es).
Proof.
  intros Hp Hg. split.
  - change (tree_exists p t = inr true).
    rewrite (tree_exists_canonical p t Hp), Hg. reflexivity.
  - change (tree_iterdir p t = inr (map fst es)).
    unfold tree_iterdir. rewrite (realpath_canonical p t Hp), Hg, Hg. reflexivity.
Qed.

Variables (droot : path) (S : string).
Hypothesis droot_canonical : canonical droot = true.
Hypothesis S_plain : plain_name S = true.

(** With a directory [S] in the destination root, the names [list]
    finds hold [S] unless it starts with a dot. *)
Lemma found_when_installed (t : node) (es : list (string * node)) :
  get (droot ++ [S]) t = Some (Dir es) ->
  exists names,
    fs_exists droot t = inr true
    /\ fs_iterdir droot t = inr names
    /\ (startswith S "." = false -> In S (filter (visible droot t) names)).
Proof.
  intros Hd.
  destruct (get_above droot [S] t (Dir es) Hd) as [esd Hdir]; [discriminate|].
  destruct (tree_iterdir_dir droot t esd droot_canonical Hdir) as [Hex Hit].
  exists (map fst esd). repeat split; try assumption.
  intros Hvis. apply filter_In. split.
  - rewrite get_app, Hdir in Hd. simpl in Hd.
    destruct (find_entry S esd) as [v|] eqn:Ef; [|discriminate].
    apply (find_entry_In S esd v Ef).
  - unfold visible. change (@fs_is_dir node tree_fs) with tree_is_dir.
    rewrite (tree_is_dir_canonical _ t (dst_canonical droot S droot_canonical S_plain)).
    rewrite Hd, Hvis. reflexivity.
Qed.

(** After the removal of the directory [S], the names [list] finds do
    not hold [S]. *)
Lemma not_found_when_removed (t : node) (es : list (string * node)) :
  get (droot ++ [S]) t = Some (Dir es) ->
  exists names,
    fs_exists droot (remove_at (droot ++ [S]) t) = inr true
    /\ fs_iterdir droot (remove_at (droot ++ [S]) t) = inr names
    /\ ~ In S names.
Proof.
  intros Hd.
  destruct (get_above droot [S] t (Dir es) Hd) as [esd Hdir]; [discriminate|].
  pose proof (get_remove_parent droot S t esd Hdir) as Hdir'.
  destruct (tree_iterdir_dir droot _ _ droot_canonical Hdir') as [Hex Hit].
  exists (map fst (drop_entry S esd)). repeat split; try assumption.
  apply drop_entry_not_In.
Qed.

End Shown.

Section Listed.

Context {python : Interpreter}.

(** After a successful install of [S], [list] shows [S]. *)
Definition listed_after_install
  (install_skill : string -> path -> path -> M node bool)
  (list_installed_skills : path -> M node unit)
  (item : string -> output) : Prop :=
  forall (sroot droot : path) (S : string) (t : node) (out : list output)
         (s' : state node),
    canonical sroot = true ->
    canonical droot = true ->
    plain_name S = true ->
    diverge (sroot / S)%path (droot / S)%path = true ->
    startswith S "." = false ->
    install_skill S (sroot / S)%path (droot / S)%path {| world := t; stdout := out |}
    = (Normal true, s') ->
    exists shown,
      list_installed_skills droot s'
      = (Normal tt, {| world := world s'; stdout := stdout s' ++ shown |})
      /\ In (item S) shown.

(** After a successful remove of [S], [list] does not show [S]. *)
Definition not_listed_after_remove
  (remove_skill : string -> path -> M node bool)
  (list_installed_skills : path -> M node unit)
  (item : string -> output) : Prop :=
  forall (droot : path) (S : string) (t : node) (out : list output)
         (s' : state node),
    canonical droot = true ->
    plain_name S = true ->
    remove_skill S (droot / S)%path {| world := t; stdout := out |}
    = (Normal true, s') ->
    exists shown,
      list_installed_skills droot s'
      = (Normal tt, {| world := world s'; stdout := stdout s' ++ shown |})
      /\ ~ In (item S) shown.

Lemma listed_by_either
  (item : string -> output) (list_installed_skills : path -> M node unit) :
  (forall n m, item n = item m -> n = m) ->
  (forall n k, item n <> installed_header k /\ item n <> none_installed) ->
  (forall d s names,
      fs_exists d (world s) = inr true ->
      fs_iterdir d (world s) = inr names ->
      list_installed_skills d s
      = (Normal tt,
         {| world := world s;
            stdout := stdout s ++ listing item (filter (visible d (world s)) names) |})) ->
  listed_after_install OpencodeInstaller.install_skill list_installed_skills item
  /\ not_listed_after_remove OpencodeInstaller.remove_skill list_installed_skills item.
Proof.
  intros Hinj Hhead Hlist. split.
  - intros sroot droot S t out s' Hsr Hdr HS Hap Hvis Hrun.
    destruct (oc_copies_skill sroot droot S t out s' Hsr Hdr HS Hap Hrun)
      as [es [_ Hd]].
    rewrite (joinpath_plain _ S HS) in Hd.
    destruct (found_when_installed droot S Hdr HS (world s') es Hd)
      as [names [Hex [Hit Hin]]].
    exists (listing item (filter (visible droot (world s')) names)).
    split; [apply Hlist; assumption|].
    apply shown_iff; [assumption..|]. apply Hin, Hvis.
  - intros droot S t out s' Hdr HS. rewrite (joinpath_plain _ S HS).
    rewrite (remove_on_tree droot S Hdr HS t out).
    destruct (get (droot ++ [S]) t) as [[d|es]|] eqn:Hd; try discriminate.
    2:{ destruct (fs_exists (droot ++ [S]) t); discriminate. }
    intros Hrun. injection Hrun as <-. cbn [world stdout].
    destruct (not_found_when_removed droot S Hdr t es Hd)
      as [names [Hex [Hit Hnot]]].
    exists (listing item (filter (visible droot (remove_at (droot ++ [S]) t)) names)).
    split; [apply (Hlist droot {| world := remove_at (droot ++ [S]) t; stdout := _ |});
            assumption|].
    intros Hin. apply shown_iff in Hin; [|assumption..].
    apply filter_In in Hin. exact (Hnot (proj1 Hin)).
Qed.

(** X11.  What [list] shows follows the installs and removes, in both
    scripts: after a successful install of [S], a [list] of the same
    destination root prints the line of [S], provided the name does not
    start with a dot; after a successful remove of [S], a [list] does not
    print it. *)
Theorem list_follows_install_and_remove :
  listed_after_install OpencodeInstaller.install_skill
    OpencodeInstaller.list_installed_skills oc_item
  /\ listed_after_install SkillsManager.install_skill
       SkillsManager.list_installed_skills sm_item
  /\ not_listed_after_remove OpencodeInstaller.remove_skill
       OpencodeInstaller.list_installed_skills oc_item
  /\ not_listed_after_remove SkillsManager.remove_skill
       SkillsManager.list_installed_skills sm_item.
Proof.
  destruct (listed_by_either oc_item OpencodeInstaller.list_installed_skills
              oc_item_inj oc_item_not_heading
              (fun d s names => oc_list_present d s names)) as [Hi Hr].
  destruct (listed_by_either sm_item SkillsManager.list_installed_skills
              sm_item_inj sm_item_not_heading
              (fun d s names => sm_list_present d s names)) as [Hi' Hr'].
  split; [exact Hi|]. split; [rewrite install_skill_same; exact Hi'|].
  split; [exact Hr|rewrite remove_skill_same; exact Hr'].
Qed.

End Listed.

(* ===================================================================== *)
(** ** Names that start with a dot *)
(* ===================================================================== *)

Section Hidden.

Context {W : Type} `{FileSystem W}.

Lemma item_not_missing (n : string) :
  oc_item n <> not_installed_yet /\ sm_item n <> not_installed_yet.
Proof. split; intros E; discriminate E. Qed.

Lemma hidden_not_visible (d : path) (w : W) (names : list string) (S : string) :
  startswith S "." = true -> ~ In S (filter (visible d w) names).
Proof.
  intros Hdot Hin. apply filter_In in Hin. destruct Hin as [_ Hv].
  unfold visible in Hv. rewrite Hdot, andb_false_r in Hv. discriminate.
Qed.

Lemma hidden_not_installable (d : path) (w : W) (names : list string) (S : string) :
  startswith S "." = true -> ~ In S (filter (installable d w) names).
Proof.
  intros Hdot Hin. apply filter_In in Hin. destruct Hin as [_ Hv].
  unfold installable in Hv. rewrite Hdot, andb_false_r in Hv. discriminate.
Qed.

(** The lines a run of [list] adds do not hold the line of [S]. *)
Definition never_listed (list_installed_skills : path -> M W unit)
  (item : string -> output) (S : string) : Prop :=
  forall (d : path) (s s' : state W) (shown : list output),
    list_installed_skills d s = (Normal tt, s') ->
    stdout s' = stdout s ++ shown ->
    ~ In (item S) shown.

Lemma oc_never_listed (S : string) :
  startswith S "." = true ->
  never_listed OpencodeInstaller.list_installed_skills oc_item S.
Proof.
  intros Hdot d s s' shown Hrun Hout.
  destruct (fs_exists d (world s)) as [err|[|]] eqn:Hex.
  - unfold OpencodeInstaller.list_installed_skills in Hrun.
    unfold bind at 1 in Hrun. unfold exists_, read_or_raise in Hrun.
    cbn [world] in Hrun. rewrite Hex in Hrun. discriminate.
  - destruct (fs_iterdir d (world s)) as [err|names] eqn:Hit.
    + unfold OpencodeInstaller.list_installed_skills in Hrun.
      unfold bind at 1 in Hrun. unfold exists_, read_or_raise in Hrun.
      cbn [world] in Hrun. rewrite Hex in Hrun. cbn [negb] in Hrun.
      unfold bind at 1 in Hrun. unfold iterdir, read_or_raise in Hrun.
      rewrite Hit in Hrun. discriminate.
    + rewrite (oc_list_present d s names Hex Hit) in Hrun.
      injection Hrun as <-. cbn [stdout] in Hout.
      apply app_inv_head in Hout. subst shown. intros Hin.
      apply shown_iff in Hin; [|apply oc_item_inj|apply oc_item_not_heading].
      exact (hidden_not_visible d (world s) names S Hdot Hin).
  - rewrite (oc_list_missing d s Hex) in Hrun.
    injection Hrun as <-. cbn [stdout] in Hout.
    apply app_inv_head in Hout. subst shown. intros [E|[]].
    symmetry in E. exact (proj1 (item_not_missing S) E).
Qed.

Lemma sm_never_listed (S : string) :
  startswith S "." = true ->
  never_listed SkillsManager.list_installed_skills sm_item S.
Proof.
  intros Hdot d s s' shown Hrun Hout.
  destruct (fs_exists d (world s)) as [err|[|]] eqn:Hex.
  - unfold SkillsManager.list_installed_skills in Hrun.
    unfold bind at 1 in Hrun. unfold exists_, read_or_raise in Hrun.
    cbn [world] in Hrun. rewrite Hex in Hrun. discriminate.
  - destruct (fs_iterdir d (world s)) as [err|names] eqn:Hit.
    + unfold SkillsManager.list_installed_skills in Hrun.
      unfold bind at 1 in Hrun. unfold exists_, read_or_raise in Hrun.
      cbn [world] in Hrun. rewrite Hex in Hrun. cbn [negb] in Hrun.
      unfold bind at 1 in Hrun. unfold iterdir, read_or_raise in Hrun.
      rewrite Hit in Hrun. discriminate.
    + rewrite (sm_list_present d s names Hex Hit) in Hrun.
      injection Hrun as <-. cbn [stdout] in Hout.
      apply app_inv_head in Hout. subst shown. intros Hin.
      apply shown_iff in Hin; [|apply sm_item_inj|apply sm_item_not_heading].
      exact (hidden_not_visible d (world s) names S Hdot Hin).
  - rewrite (sm_list_missing d s Hex) in Hrun.
    injection Hrun as <-. cbn [stdout] in Hout.
    apply app_inv_head in Hout. subst shown. intros [E|[]].
    symmetry in E. exact (proj2 (item_not_missing S) E).
Qed.

(** The names a selection with [--all] returns do not hold [S]. *)
Definition never_selected {A : Type} (all : A -> bool)
  (skills_to : A -> path -> M W (list string)) (S : string) : Prop :=
  forall (a : A) (d : path) (s s' : state W) (l : list string),
    all a = true ->
    skills_to a d s = (Normal l, s') ->
    ~ In S l.

Lemma oc_install_never_selects (S : string) :
  startswith S "." = true ->
  never_selected OpencodeInstaller.all OpencodeInstaller.skills_to_install S.
Proof.
  intros Hdot a d s s' l Ha. unfold OpencodeInstaller.skills_to_install.
  rewrite Ha. unfold bind at 1. unfold iterdir, read_or_raise.
  destruct (fs_iterdir d (world s)) as [err|names]; [discriminate|].
  unfold bind at 1.
  rewrite (select_reads _ (fun n w => visible d w n))
    by (intros; apply oc_visible_dir_reads).
  unfold bind, print, ret. intros E. injection E as <- _.
  apply (hidden_not_visible d (world s) names S Hdot).
Qed.

Lemma sm_install_never_selects (S : string) :
  startswith S "." = true ->
  never_selected SkillsManager.all SkillsManager.skills_to_install S.
Proof.
  intros Hdot a d s s' l Ha. unfold SkillsManager.skills_to_install.
  rewrite Ha. unfold bind at 1. unfold iterdir, read_or_raise.
  destruct (fs_iterdir d (world s)) as [err|names]; [discriminate|].
  unfold bind at 1.
  rewrite (select_reads _ (fun n w => installable d w n))
    by (intros; apply sm_installable_dir_reads).
  unfold bind, print, ret. intros E. injection E as <- _.
  apply (hidden_not_installable d (world s) names S Hdot).
Qed.

Lemma oc_remove_never_selects (S : string) :
  startswith S "." = true ->
  never_selected OpencodeInstaller.all OpencodeInstaller.skills_to_remove S.
Proof.
  intros Hdot a d s s' l Ha. unfold OpencodeInstaller.skills_to_remove.
  rewrite Ha. unfold bind at 1. unfold exists_, read_or_raise.
  destruct (fs_exists d (world s)) as [err|[|]]; cbn [negb].
  - discriminate.
  - unfold bind at 1. unfold ret at 1. unfold bind at 1.
    unfold iterdir, read_or_raise.
    destruct (fs_iterdir d (world s)) as [err|names]; [discriminate|].
    unfold bind at 1.
    rewrite (select_reads _ (fun n w => visible d w n))
      by (intros; apply oc_visible_dir_reads).
    unfold bind, print, ret. intros E. injection E as <- _.
    apply (hidden_not_visible d (world s) names S Hdot).
  - unfold bind, print, sys_exit. discriminate.
Qed.

Lemma sm_remove_never_selects (S : string) :
  startswith S "." = true ->
  never_selected SkillsManager.all SkillsManager.skills_to_remove S.
Proof.
  intros Hdot a d s s' l Ha. unfold SkillsManager.skills_to_remove.
  rewrite Ha. unfold bind at 1. unfold exists_, read_or_raise.
  destruct (fs_exists d (world s)) as [err|[|]]; cbn [negb].
  - discriminate.
  - unfold bind at 1. unfold ret at 1. unfold bind at 1.
    unfold iterdir, read_or_raise.
    destruct (fs_iterdir d (world s)) as [err|names]; [discriminate|].
    unfold bind at 1.
    rewrite (select_reads _ (fun n w => visible d w n))
      by (intros; apply sm_visible_dir_reads).
    unfold bind, print, ret. intros E. injection E as <- _.
    apply (hidden_not_visible d (world s) names S Hdot).
  - unfold bind, print, sys_exit. discriminate.
Qed.

(** X12.  A name that starts with a dot is invisible to both scripts,
    whatever the file system holds: [list] never prints its line, and
    neither [install --all] nor [remove --all] ever selects it.  Such a
    skill can be installed and removed by name only. *)
Theorem dot_names_are_never_listed_nor_selected :
  forall S : string,
    startswith S "." = true ->
    never_listed OpencodeInstaller.list_installed_skills oc_item S
    /\ never_listed SkillsManager.list_installed_skills sm_item S
    /\ never_selected OpencodeInstaller.all OpencodeInstaller.skills_to_install S
    /\ never_selected SkillsManager.all SkillsManager.skills_to_install S
    /\ never_selected OpencodeInstaller.all OpencodeInstaller.skills_to_remove S
    /\ never_selected SkillsManager.all SkillsManager.skills_to_remove S.
Proof.
  intros S Hdot.
  split; [exact (oc_never_listed S Hdot)|].
  split; [exact (sm_never_listed S Hdot)|].
  split; [exact (oc_install_never_selects S Hdot)|].
  split; [exact (sm_install_never_selects S Hdot)|].
  split; [exact (oc_remove_never_selects S Hdot)|exact (sm_remove_never_selects S Hdot)].
Qed.

End Hidden.

(* ===================================================================== *)
(** ** remove --all on a tree *)
(* ===================================================================== *)

Section RemoveAll.

Context {python : Interpreter}.
Variable droot : path.
Hypothesis droot_canonical : canonical droot = true.

(** A path under another name of the destination root parts from
    [destination_root/n]. *)
Lemma below_sibling_diverges (m n : string) (r : path) :
  m <> n -> diverge (droot ++ m :: r) (droot ++ [n]) = true.
Proof.
  intros Hne. change (m :: r) with ([m] ++ r). rewrite app_assoc.
  rewrite diverge_sym. apply diverge_app_r. apply siblings_diverge.
  intros E. apply Hne. symmetry. exact E.
Qed.

(** What is not there is not there after a removal. *)
Lemma get_remove_none (p q : path) (t : node) :
  get q t = None -> get q (remove_at p t) = None.
Proof.
  unfold remove_at. generalize (name p) as c. generalize (parent p) as r.
  clear p. intros r c. revert q t.
  induction r as [|d r IH]; intros q t Hq.
  - destruct t as [x|es]; [exact Hq|]. destruct q as [|e q]; [discriminate|].
    simpl in *. destruct (String.eqb_spec e c) as [->|Hne].
    + rewrite find_drop_same. reflexivity.
    + rewrite find_drop_other by assumption. exact Hq.
  - destruct t as [x|es]; [exact Hq|]. destruct q as [|e q]; [discriminate|].
    simpl in *. destruct (String.eqb_spec e d) as [->|Hne].
    + rewrite find_alter_same. destruct (find_entry d es); simpl; [apply IH|]; exact Hq.
    + rewrite find_alter_other by assumption. exact Hq.
Qed.


Definition a_directory (t : node) (p : path) : Prop :=
  exists es, get p t = Some (Dir es).

(** The loop of [remove] over plain names, each once and each a
    directory of the destination root, on a tree. *)
Lemma remove_each_on_tree (names : list string) :
  Forall (fun n => plain_name n = true) names ->
  NoDup names ->
  forall (k : nat) (t : node) (out : list output),
  (forall n, In n names -> a_directory t (droot ++ [n])) ->
  exists (t' : node) (more : list output),
    OpencodeInstaller.remove_each droot names k {| world := t; stdout := out |}
    = (Normal (k + List.length names), {| world := t'; stdout := out ++ more |})
    /\ (forall n, In n names -> get (droot ++ [n]) t' = None)
    /\ (forall q, (forall n, In n names -> diverge q (droot ++ [n]) = true) ->
                  get q t' = get q t).
Proof.
  induction 1 as [|n rest Hn Hrest IH]; intros Hnd k t out Hdirs.
  - exists t, []. simpl. unfold ret. rewrite app_nil_r, Nat.add_0_r.
    split; [reflexivity|]. split; [intros n []|reflexivity].
  - apply NoDup_cons_iff in Hnd. destruct Hnd as [Hnotin Hnd].
    simpl OpencodeInstaller.remove_each. unfold bind at 1.
    rewrite (joinpath_plain droot n Hn).
    rewrite (remove_on_tree droot n droot_canonical Hn t out).
    destruct (Hdirs n (or_introl eq_refl)) as [es Hes]. rewrite Hes.
    set (dn := droot ++ [n]) in *.
    assert (Hkeep : forall q, diverge q dn = true -> get q (remove_at dn t) = get q t).
    { intros q Hq. apply get_remove_diverge. rewrite diverge_sym. exact Hq. }
    destruct (IH Hnd (Datatypes.S k) (remove_at dn t)
                (out ++ [removing n; Line ("  ✅ Successfully removed " ++ str dn)]))
      as (t' & more & Hrun & Hgone' & Hframe').
    { intros m Hm. destruct (Hdirs m (or_intror Hm)) as [esm Hesm].
      exists esm. rewrite Hkeep; [exact Hesm|].
      apply siblings_diverge. intros ->. contradiction. }
    exists t', ([removing n; Line ("  ✅ Successfully removed " ++ str dn)] ++ more).
    split; [|split].
    + rewrite Hrun, <- app_assoc. simpl List.length.
      rewrite Nat.add_succ_r. reflexivity.
    + intros m [<-|Hin]; [|apply Hgone'; exact Hin].
      rewrite Hframe'; [apply get_remove_same|].
      intros m Hm. apply siblings_diverge. intros <-. contradiction.
    + intros q Hq. rewrite Hframe'; [apply Hkeep, Hq; left; reflexivity|].
      intros m Hm. apply Hq. right. exact Hm.
Qed.

End RemoveAll.

Section RemoveAllOnTrees.

Context {python : Interpreter}.

(** A directory of a well-formed tree: plain entry names, each once. *)
Definition well_named (es : list (string * node)) : Prop :=
  Forall (fun n => plain_name n = true) (map fst es) /\ NoDup (map fst es).

(** What [remove --all] leaves of the tree [t], where [rule] is the line
    the script draws above its summary. *)
Definition all_removed (droot : path) (t : node) (out : list output)
  (rule : output) (r : control unit * state node) : Prop :=
  exists (k : nat) (more : list output),
    fst r = Normal tt
    /\ stdout (snd r) = out ++ more ++ [rule; removed_of k k]
    /\ (forall n es, get (droot ++ [n]) t = Some (Dir es) ->
                     startswith n "." = false ->
                     get (droot ++ [n]) (world (snd r)) = None)
    /\ (forall n r', startswith n "." = true ->
                     get (droot ++ n :: r') (world (snd r)) = get (droot ++ n :: r') t)
    /\ (forall n d, get (droot ++ [n]) t = Some (File d) ->
                    get (droot ++ [n]) (world (snd r)) = Some (File d))
    /\ (forall q, diverge q droot = true -> get q (world (snd r)) = get q t).

Lemma remove_all_on_tree (droot : path) (t : node) (out : list output)
  (esd : list (string * node)) :
  canonical droot = true ->
  get droot t = Some (Dir esd) ->
  well_named esd ->
  let l := filter (visible droot t) (map fst esd) in
  exists (t' : node) (more : list output),
    OpencodeInstaller.remove_each droot l 0
      {| world := t; stdout := out ++ [found_to_remove l] |}
    = (Normal (List.length l),
       {| world := t'; stdout := (out ++ [found_to_remove l]) ++ more |})
    /\ (forall n es, get (droot ++ [n]) t = Some (Dir es) ->
                     startswith n "." = false ->
                     get (droot ++ [n]) t' = None)
    /\ (forall n r', startswith n "." = true ->
                     get (droot ++ n :: r') t' = get (droot ++ n :: r') t)
    /\ (forall n d, get (droot ++ [n]) t = Some (File d) ->
                    get (droot ++ [n]) t' = Some (File d))
    /\ (forall q, diverge q droot = true -> get q t' = get q t).
Proof.
  intros Hdr Hdir [Hplain Hnd] l.
  assert (Hl : forall n, In n l ->
             In n (map fst esd) /\ plain_name n = true
             /\ startswith n "." = false /\ a_directory t (droot ++ [n])).
  { intros n Hin. apply filter_In in Hin. destruct Hin as [Hin Hv].
    split; [exact Hin|].
    split; [exact (proj1 (Forall_forall _ _) Hplain n Hin)|].
    unfold visible in Hv. apply andb_prop in Hv. destruct Hv as [Hd Hv].
    split; [apply negb_true_iff; exact Hv|].
    change (@fs_is_dir node tree_fs) with tree_is_dir in Hd.
    rewrite (tree_is_dir_canonical _ t
               (dst_canonical droot n Hdr (proj1 (Forall_forall _ _) Hplain n Hin)))
      in Hd.
    destruct (get (droot ++ [n]) t) as [[d|es]|] eqn:Hg; try discriminate.
    exists es. exact Hg. }
  assert (Hlp : Forall (fun n => plain_name n = true) l).
  { apply Forall_forall. intros n Hin. apply (Hl n Hin). }
  destruct (remove_each_on_tree droot Hdr l Hlp (NoDup_filter _ Hnd) 0 t
              (out ++ [found_to_remove l]))
    as (t' & more & Hrun & Hgone & Hframe).
  { intros n Hin. apply (Hl n Hin). }
  exists t', more. split; [exact Hrun|].
  split; [|split; [|split]].
  - intros n es Hn Hvis. apply Hgone.
    apply filter_In. split.
    + rewrite get_app, Hdir in Hn. simpl in Hn.
      destruct (find_entry n esd) as [v|] eqn:Ef; [|discriminate].
      apply (find_entry_In n esd v Ef).
    + unfold visible. change (@fs_is_dir node tree_fs) with tree_is_dir.
      assert (Hpn : plain_name n = true).
      { rewrite get_app, Hdir in Hn. simpl in Hn.
        destruct (find_entry n esd) as [v|] eqn:Ef; [|discriminate].
        exact (proj1 (Forall_forall _ _) Hplain n (find_entry_In n esd v Ef)). }
      rewrite (tree_is_dir_canonical _ t (dst_canonical droot n Hdr Hpn)).
      rewrite Hn, Hvis. reflexivity.
  - intros n r' Hdot. apply Hframe. intros m Hm.
    apply below_sibling_diverges. intros ->.
    destruct (Hl m Hm) as (_ & _ & Hv & _). congruence.
  - intros n d Hn. rewrite <- Hn. apply Hframe. intros m Hm.
    apply siblings_diverge. intros ->.
    destruct (Hl m Hm) as (_ & _ & _ & [es Hes]). congruence.
  - intros q Hq. apply Hframe. intros m _. apply diverge_app_r. exact Hq.
Qed.

(** X13.  [remove --all] on a destination root that exists, in both
    scripts: every directory of the destination root whose name does not
    start with a dot is gone afterwards, every one of them counts as
    removed in the summary, and the run ends normally.  Directories whose
    names start with a dot stay with all they hold, regular files of the
    destination root stay, and nothing outside the destination root
    changes. *)
Theorem remove_all_clears_the_destination :
  (forall (a : OpencodeInstaller.args) (sroot droot : path) (t : node)
          (out : list output) (esd : list (string * node)),
      OpencodeInstaller.command a = Some "remove" ->
      OpencodeInstaller.all a = true ->
      canonical droot = true ->
      get droot t = Some (Dir esd) ->
      well_named esd ->
      all_removed droot t out (Line (repeat_char "-" 50))
        (OpencodeInstaller.dispatch a sroot droot {| world := t; stdout := out |}))
  /\
  (forall (a : SkillsManager.args) (sroot droot : path) (t : node)
          (out : list output) (esd : list (string * node)),
      SkillsManager.command a = Some "remove" ->
      SkillsManager.all a = true ->
      canonical droot = true ->
      get droot t = Some (Dir esd) ->
      well_named esd ->
      all_removed droot t out (Line (repeat_char "=" 60))
        (SkillsManager.dispatch a sroot droot {| world := t; stdout := out |})).
Proof.
  split.
  - intros a sroot droot t out esd Hc Ha Hdr Hdir Hwf.
    destruct (tree_iterdir_dir droot t esd Hdr Hdir) as [Hex Hit].
    destruct (remove_all_on_tree droot t out esd Hdr Hdir Hwf)
      as (t' & more & Hrun & Hgone & Hdot & Hfile & Hout).
    unfold all_removed.
    rewrite (oc_dispatch_remove_all a sroot droot {| world := t; stdout := out |}
               (map fst esd) _ _ Hc Ha Hex Hit Hrun).
    cbn [fst snd world stdout].
    eexists _, (_ :: more). split; [reflexivity|].
    split; [rewrite <- !app_assoc; reflexivity|].
    repeat split; assumption.
  - intros a sroot droot t out esd Hc Ha Hdr Hdir Hwf.
    destruct (tree_iterdir_dir droot t esd Hdr Hdir) as [Hex Hit].
    destruct (remove_all_on_tree droot t out esd Hdr Hdir Hwf)
      as (t' & more & Hrun & Hgone & Hdot & Hfile & Hout).
    unfold all_removed.
    rewrite <- remove_each_same in Hrun.
    rewrite (sm_dispatch_remove_all a sroot droot {| world := t; stdout := out |}
               (map fst esd) _ _ Hc Ha Hex Hit Hrun).
    cbn [fst snd world stdout].
    eexists _, (_ :: more). split; [reflexivity|].
    split; [rewrite <- !app_assoc; reflexivity|].
    repeat split; assumption.
Qed.

End RemoveAllOnTrees.

(* ===================================================================== *)
(** ** Absolute skill names *)
(* ===================================================================== *)

Section AbsoluteNames.

Context {python : Interpreter}.

Lemma split_on_sep (x rest : string) :
  lacks "/" x = true ->
  split_on "/" (x ++ String "/" rest) = x :: split_on "/" rest.
Proof.
  induction x as [|c x IH]; [reflexivity|]. simpl lacks. intros Hl.
  apply andb_prop in Hl. destruct Hl as [Hc Hl]. apply negb_true_iff in Hc.
  change (String c x ++ String "/" rest)%string
    with (String c (x ++ String "/" rest)).
  simpl split_on. rewrite Hc, (IH Hl). reflexivity.
Qed.

Lemma split_concat (p : path) :
  p <> [] ->
  Forall (fun c => lacks "/" c = true) p ->
  split_on "/" (String.concat "/" p) = p.
Proof.
  induction p as [|x p IH]; [congruence|]. intros _ Hp.
  inversion Hp as [|x' p' Hx Hrest]; subst.
  destruct p as [|y r].
  - simpl. apply split_on_lacks, Hx.
  - change (String.concat "/" (x :: y :: r))
      with (x ++ String "/" (String.concat "/" (y :: r)))%string.
    rewrite (split_on_sep _ _ Hx), IH; [reflexivity|discriminate|exact Hrest].
Qed.

Definition plain_parts (p : path) : Prop :=
  Forall (fun c => plain_name c = true) p.

Lemma plain_lacks (c : string) : plain_name c = true -> lacks "/" c = true.
Proof. unfold plain_name. intros Hp. apply andb_prop in Hp. apply Hp. Qed.

Lemma plain_kept (c : string) : plain_name c = true -> keep_part c = true.
Proof.
  unfold plain_name, keep_part. intros Hp.
  apply andb_prop in Hp. destruct Hp as [Hp _].
  apply andb_prop in Hp. destruct Hp as [Hp _]. exact Hp.
Qed.

Lemma plain_parts_canonical (p : path) : plain_parts p -> canonical p = true.
Proof.
  intros Hp. unfold canonical. apply forallb_forall. intros c Hc.
  rewrite (plain_not_dotdot c (proj1 (Forall_forall _ _) Hp c Hc)). reflexivity.
Qed.

(** [Path(str(p)) == p]: the round trip of a path through its text. *)
Lemma parse_str (p : path) : plain_parts p -> parse_parts (str p) = p.
Proof.
  intros Hp. unfold parse_parts, str.
  destruct p as [|x r]; [reflexivity|].
  change ("/" ++ String.concat "/" (x :: r))%string
    with (String "/" (String.concat "/" (x :: r))).
  change (split_on "/" (String "/" (String.concat "/" (x :: r))))
    with (EmptyString :: split_on "/" (String.concat "/" (x :: r))).
  rewrite split_concat;
    [|discriminate|apply (Forall_impl _ plain_lacks Hp)].
  change (filter keep_part (EmptyString :: x :: r)) with (filter keep_part (x :: r)).
  assert (Hall : forall l, plain_parts l -> filter keep_part l = l).
  { induction l as [|c l IH]; [reflexivity|]. intros Hl.
    inversion Hl; subst. simpl. rewrite plain_kept by assumption.
    rewrite IH by assumption. reflexivity. }
  apply Hall, Hp.
Qed.

(** Joined to any root, the text of an absolute path is that path. *)
Lemma joinpath_absolute (q p : path) :
  plain_parts p -> (q / str p)%path = p.
Proof.
  intros Hp. unfold joinpath.
  assert (Hs : startswith (str p) "/" = true).
  { unfold startswith, str.
    change (String.prefix "/" ("/" ++ String.concat "/" p))
      with (if ascii_dec "/" "/"
            then String.prefix EmptyString (String.concat "/" p) else false).
    destruct (ascii_dec "/" "/") as [_|Hne]; [|congruence].
    destruct (String.concat "/" p); reflexivity. }
  rewrite Hs. apply parse_str, Hp.
Qed.

Variables (p : path) (t : node) (es : list (string * node)).
Hypothesis p_plain : plain_parts p.
Hypothesis p_not_root : p <> [].
Hypothesis p_is_dir : get p t = Some (Dir es).

Lemma absolute_parts :
  exists (q : path) (n : string),
    p = q ++ [n] /\ canonical q = true /\ plain_name n = true.
Proof.
  destruct (exists_last p_not_root) as [q [n E]]. exists q, n.
  split; [exact E|]. unfold plain_parts in p_plain. rewrite E in p_plain.
  apply Forall_app in p_plain. destruct p_plain as [Hq Hn].
  split; [apply plain_parts_canonical, Hq|]. inversion Hn; assumption.
Qed.

Lemma remove_absolute (S : string) (out : list output) :
  OpencodeInstaller.remove_skill S p {| world := t; stdout := out |}
  = (Normal true,
     {| world := remove_at p t;
        stdout := out ++ [removing S;
                          Line ("  ✅ Successfully removed " ++ str p)] |}).
Proof.
  destruct absolute_parts as (q & n & E & Hq & Hn).
  assert (Hex : fs_exists p t = inr true).
  { rewrite (tree_fs_exists p t (plain_parts_canonical p p_plain)), p_is_dir.
    reflexivity. }
  rewrite (remove_skill_present S p {| world := t; stdout := out |} Hex).
  cbn [world stdout]. change (@fs_rmtree node tree_fs) with tree_rmtree.
  assert (Hrm : tree_rmtree p t = (remove_at p t, None)).
  { pose proof (tree_rmtree_plain q n Hq Hn t) as Hr.
    rewrite <- E in Hr. rewrite p_is_dir in Hr. exact Hr. }
  rewrite Hrm. reflexivity.
Qed.

(** [str(e)] for the lookup of a path whose last part has just been
    deleted: the name is not there, or it is one that no directory
    holds. *)
Definition gone_error (p : path) : string :=
  if long (name p) then etoolong p else enoent p.

Lemma install_absolute (S : string) (out : list output) :
  exists mid,
    OpencodeInstaller.install_skill S p p {| world := t; stdout := out |}
    = (Normal false,
       {| world := remove_at p t;
          stdout := out ++ installing S :: mid ++ [install_error S (gone_error p)] |}).
Proof.
  destruct absolute_parts as (q & n & E & Hq & Hn).
  assert (Hc : canonical p = true) by apply (plain_parts_canonical p p_plain).
  assert (Hex : fs_exists p t = inr true).
  { rewrite (tree_fs_exists p t Hc), p_is_dir. reflexivity. }
  destruct (install_skill_present S p p {| world := t; stdout := out |} Hex)
    as [mid Hp].
  assert (Hrm : tree_rmtree p t = (remove_at p t, None)).
  { pose proof (tree_rmtree_plain q n Hq Hn t) as Hr.
    rewrite <- E in Hr. rewrite p_is_dir in Hr. exact Hr. }
  destruct (get_above q [n] t (Dir es)) as [esq Hdir];
    [rewrite <- E; exact p_is_dir|discriminate|].
  assert (Hmk : tree_mkdir_parents (parent p) (remove_at p t) = (remove_at p t, None)).
  { unfold tree_mkdir_parents. rewrite E, parent_snoc.
    apply (mkdirs_existing q (remove_at (q ++ [n]) t) false [] [] q (drop_entry n esq)
             (get_remove_parent q n t esq Hdir) Hq). }
  assert (Hgone : get p (remove_at p t) = None)
    by (rewrite E; apply get_remove_same).
  assert (Hcp : tree_copytree copy_into_itself p p (remove_at p t)
                = (remove_at p t, Some (gone_error p))).
  { pose proof (tree_copytree_no_source p p (remove_at p t) Hc) as Hr.
    rewrite Hgone in Hr. rewrite Hr. unfold lookup_error, gone_error.
    rewrite E, name_snoc.
    rewrite (stops_absent q n [] _ (drop_entry n esq) Hq
               (get_remove_parent q n t esq Hdir) (get_remove_same q n t)
               (plain_not_dotdot n Hn)).
    destruct (long n); reflexivity. }
  assert (Hw : install_world p p t = remove_at p t
               /\ install_raises p p t = Some (gone_error p)).
  { unfold install_world, install_raises, rmtree_raises, mkdir_raises,
      copytree_raises, after_copy, before_copy, before_mkdir.
    rewrite Hex.
    change (@fs_rmtree node tree_fs) with tree_rmtree.
    change (@fs_mkdir_parents node tree_fs) with tree_mkdir_parents.
    change (@fs_copytree node tree_fs) with (tree_copytree copy_into_itself).
    rewrite Hrm. cbn [fst snd]. rewrite Hmk. cbn [fst snd]. rewrite Hcp.
    split; reflexivity. }
  destruct Hw as [Hw Hr]. cbn [world stdout] in Hp. rewrite Hw, Hr in Hp.
  exists mid. exact Hp.
Qed.

End AbsoluteNames.

Section AbsoluteSkillNames.

Context {python : Interpreter}.

(** X14.  A skill name that is an absolute path leaves both roots, in
    both scripts: joined to the source root or to the destination root it
    is that path itself.  So when the path is a directory, [remove_skill]
    deletes it and reports success, and [install_skill] finds source and
    destination to be the same directory, deletes it as the old
    installation, fails in [shutil.copytree] for want of the source
    ([No such file or directory]; on a tree that holds a name of more
    than 255 bytes, which no directory does, the lookup of that name
    gives [File name too long]) and returns [False], with the directory
    gone. *)
Theorem absolute_names_leave_the_roots :
  forall (sroot droot p : path) (t : node) (es : list (string * node))
         (out : list output),
    plain_parts p ->
    p <> [] ->
    get p t = Some (Dir es) ->
    let S := str p in
    (sroot / S)%path = p
    /\ (droot / S)%path = p
    /\ OpencodeInstaller.remove_skill S (droot / S)%path {| world := t; stdout := out |}
       = (Normal true,
          {| world := remove_at p t;
             stdout := out ++ [removing S;
                               Line ("  ✅ Successfully removed " ++ str p)] |})
    /\ SkillsManager.remove_skill S (droot / S)%path {| world := t; stdout := out |}
       = (Normal true,
          {| world := remove_at p t;
             stdout := out ++ [removing S;
                               Line ("  ✅ Successfully removed " ++ str p)] |})
    /\ (exists mid,
          OpencodeInstaller.install_skill S (sroot / S)%path (droot / S)%path
            {| world := t; stdout := out |}
          = (Normal false,
             {| world := remove_at p t;
                stdout := out ++ installing S :: mid
                          ++ [install_error S (gone_error p)] |}))
    /\ (exists mid,
          SkillsManager.install_skill S (sroot / S)%path (droot / S)%path
            {| world := t; stdout := out |}
          = (Normal false,
             {| world := remove_at p t;
                stdout := out ++ installing S :: mid
                          ++ [install_error S (gone_error p)] |}))
    /\ get p (remove_at p t) = None.
Proof.
  intros sroot droot p t es out Hp Hne Hd S.
  rewrite !(joinpath_absolute _ p Hp).
  split; [reflexivity|]. split; [reflexivity|].
  split; [apply (remove_absolute p t es Hp Hne Hd)|].
  split; [rewrite remove_skill_same; apply (remove_absolute p t es Hp Hne Hd)|].
  split; [apply (install_absolute p t es Hp Hne Hd)|].
  split; [rewrite install_skill_same; apply (install_absolute p t es Hp Hne Hd)|].
  destruct (exists_last Hne) as [q [n ->]]. apply get_remove_same.
Qed.

End AbsoluteSkillNames.

(* ===================================================================== *)
(** ** install --all on a tree *)
(* ===================================================================== *)

Section InstallStep.

Context {python : Interpreter}.
Variables (sroot droot : path) (S : string).
Hypothesis sroot_canonical : canonical sroot = true.
Hypothesis droot_canonical : canonical droot = true.
Hypothesis S_plain : plain_name S = true.
Hypothesis S_fits : long S = false.
Hypothesis apart : diverge (sroot ++ [S]) (droot ++ [S]) = true.


End InstallStep.

Section InstallAll.

Context {python : Interpreter}.
Variables (sroot droot : path).
Hypothesis sroot_canonical : canonical sroot = true.
Hypothesis droot_canonical : canonical droot = true.


End InstallAll.

Section InstallAllOnTrees.

Context {python : Interpreter}.






End InstallAllOnTrees.

(* ===================================================================== *)
(** ** The first install *)
(* ===================================================================== *)

Section FirstInstall.

Context {python : Interpreter}.



Variables (sroot base : path) (c : string) (rest : path) (S : string).

Let droot : path := base ++ c :: rest.

Hypothesis sroot_canonical : canonical sroot = true.
Hypothesis droot_canonical : canonical droot = true.
Hypothesis S_plain : plain_name S = true.
Hypothesis names_fit : Forall (fun n => long n = false) (c :: rest ++ [S]).
Hypothesis apart : diverge (sroot ++ [S]) (droot ++ [S]) = true.





End FirstInstall.

Section FirstInstallOnTrees.

Context {python : Interpreter}.



End FirstInstallOnTrees.

(* ===================================================================== *)
(** ** The further properties on the example trees *)
(* ===================================================================== *)

(** The installer finds no [/repo/skills] in [root_marked_tree]; the
    manager is given a target it does not know. *)
Lemma configuration_errors_are_fatal_witness :
  OpencodeInstaller.main installer_env (installer_args "list" None false)
    (start root_marked_tree)
  = (Exited 1,
     {| world := root_marked_tree;
        stdout := [source_not_located ["repo"; "skills"]] |})
  /\ fst (SkillsManager.get_dest_skills_dir manager_env "cursor" "global"
            (start demo_tree))
     = Exited 1.
Proof.
  split.
  - apply (proj1 (configuration_errors_are_fatal (W := node) (H := tree_fs) installer_env)
             (installer_args "list" None false) (start root_marked_tree));
      reflexivity.
  - rewrite (proj2 (proj2 (configuration_errors_are_fatal (W := node) (H := tree_fs) manager_env))
               "cursor" "global" (start demo_tree));
      [reflexivity|discriminate|discriminate].
Defined.

(** No command, and [install] without a name. *)
Lemma usage_errors_witness :
  OpencodeInstaller.main installer_env
    {| OpencodeInstaller.command := None; OpencodeInstaller.skill := None;
       OpencodeInstaller.all := false |} (start demo_tree)
  = (Exited 1, {| world := demo_tree; stdout := [Help] |})
  /\ exit_code (OpencodeInstaller.main installer_env
                  (installer_args "install" (Some EmptyString) false)
                  (start demo_tree)) = 1%Z.
Proof.
  split.
  - apply (proj1 (usage_errors (W := node) (H := tree_fs) installer_env)
             {| OpencodeInstaller.command := None; OpencodeInstaller.skill := None;
                OpencodeInstaller.all := false |} (start demo_tree)).
    reflexivity.
  - rewrite (proj1 (proj2 (proj2 (usage_errors (W := node) (H := tree_fs) installer_env)))
               (installer_args "install" (Some EmptyString) false) (start demo_tree));
      [reflexivity|left; reflexivity|reflexivity..].
Defined.


(** [demo_tree] with a regular file where the destination root is to be. *)
Definition file_dest_tree : node :=
  put_at ["home"; "u"; ".config"]
    (Dir [("opencode", Dir [("skills", File [])])])
    demo_tree.

(** [list] on [file_dest_tree] ends with the exception of [iterdir]. *)
Lemma unlistable_destination_is_fatal_witness :
  fst (OpencodeInstaller.main installer_env (installer_args "list" None false)
         (start file_dest_tree))
  = Raised (enotdir demo_dest_root)
  /\ exit_code (OpencodeInstaller.main installer_env
                  (installer_args "remove" None true) (start file_dest_tree)) = 1%Z.
Proof.
  split.
  - rewrite (proj1 (unlistable_destination_is_fatal (W := node) (H := tree_fs) installer_env)
               (installer_args "list" None false) (start file_dest_tree)
               (enotdir demo_dest_root));
      [reflexivity|left; reflexivity|reflexivity..].
  - rewrite (proj1 (unlistable_destination_is_fatal (W := node) (H := tree_fs) installer_env)
               (installer_args "remove" None true) (start file_dest_tree)
               (enotdir demo_dest_root));
      [reflexivity|right; split; reflexivity|reflexivity..].
Defined.


(** From [/home/u/work/sub] the marker of [/home/u/work] is found. *)
Lemma nearest_marker_wins_witness :
  SkillsManager.get_dest_skills_dir manager_env "antigravity" "workspace"
    (start demo_tree)
  = (Normal ["home"; "u"; "work"; ".agent"; "skills"], start demo_tree).
Proof.
  apply (nearest_marker_wins (W := node) (H := tree_fs) manager_env (start demo_tree)
           ["home"; "u"; "work"] ["sub"]).
  - reflexivity.
  - discriminate.
  - reflexivity.
  - intros r r' E Hr. destruct r as [|x r]; [congruence|].
    simpl in E. injection E as <- E. destruct r as [|y r]; [reflexivity|discriminate E].
Defined.



(** On [blocked_tree] the file at the destination stays. *)
Lemma install_and_regular_files_witness :
  exists mid,
    OpencodeInstaller.install_skill "git-formatter"
      (demo_source_root / "git-formatter")%path
      (demo_dest_root / "git-formatter")%path (start blocked_tree)
    = (Normal false,
       {| world := blocked_tree;
          stdout := [] ++ installing "git-formatter" :: mid
                    ++ [install_error "git-formatter"
                          (enotdir_path (demo_dest_root / "git-formatter")%path)] |}).
Proof.
  apply (proj1 (proj1 install_and_regular_files demo_source_root demo_dest_root
                  "git-formatter" blocked_tree [] eq_refl eq_refl eq_refl)
           [] (Dir [("SKILL.md", skill_md)]));
    reflexivity.
Defined.


(** After the install of [git-formatter] on [stale_tree], [list] shows it. *)
Lemma list_follows_install_and_remove_witness :
  exists shown,
    OpencodeInstaller.list_installed_skills demo_dest_root
      (snd (OpencodeInstaller.install_skill "git-formatter"
              (demo_source_root / "git-formatter")%path
              (demo_dest_root / "git-formatter")%path (start stale_tree)))
    = (Normal tt,
       {| world := world (snd (OpencodeInstaller.install_skill "git-formatter"
                                 (demo_source_root / "git-formatter")%path
                                 (demo_dest_root / "git-formatter")%path
                                 (start stale_tree)));
          stdout := stdout (snd (OpencodeInstaller.install_skill "git-formatter"
                                   (demo_source_root / "git-formatter")%path
                                   (demo_dest_root / "git-formatter")%path
                                   (start stale_tree))) ++ shown |})
    /\ In (oc_item "git-formatter") shown.
Proof.
  apply (proj1 list_follows_install_and_remove demo_source_root demo_dest_root
           "git-formatter" stale_tree []
           (snd (OpencodeInstaller.install_skill "git-formatter"
                   (demo_source_root / "git-formatter")%path
                   (demo_dest_root / "git-formatter")%path (start stale_tree))));
    reflexivity.
Defined.

(** With [--all] on [/repo], the manager does not take [.git]. *)
Lemma dot_names_are_never_listed_nor_selected_witness :
  ~ In ".git"
      (filter (installable ["repo"] demo_tree)
         ["skills-manager"; "opencode-installer"; "git-formatter"; ".git";
          "README.md"; "skills"]).
Proof.
  apply (proj1 (proj2 (proj2 (proj2
           (dot_names_are_never_listed_nor_selected (W := node) (H := tree_fs) ".git" eq_refl))))
           (manager_args "antigravity" "global" "install" None true) ["repo"]
           (start demo_tree)
           (snd (SkillsManager.skills_to_install
                   (manager_args "antigravity" "global" "install" None true) ["repo"]
                   (start demo_tree))));
    reflexivity.
Defined.

(** [remove --all] on [stale_tree]. *)
Lemma remove_all_clears_the_destination_witness :
  all_removed demo_dest_root stale_tree [] (Line (repeat_char "-" 50))
    (OpencodeInstaller.dispatch (installer_args "remove" None true)
       demo_source_root demo_dest_root (start stale_tree)).
Proof.
  apply (proj1 remove_all_clears_the_destination
           (installer_args "remove" None true) demo_source_root demo_dest_root
           stale_tree []
           [("git-formatter", Dir [("old.txt", File [x6f; x6c; x64])]);
            ("other", Dir [])]);
    try reflexivity.
  split.
  - repeat constructor.
  - repeat constructor; simpl; intuition discriminate.
Defined.

(** [remove /home/u/work] on [demo_tree] deletes the workspace. *)
Lemma absolute_names_leave_the_roots_witness :
  world (snd (OpencodeInstaller.remove_skill "/home/u/work"
                (demo_dest_root / "/home/u/work")%path (start demo_tree)))
  = remove_at ["home"; "u"; "work"] demo_tree
  /\ get ["home"; "u"; "work"] (remove_at ["home"; "u"; "work"] demo_tree) = None.
Proof.
  destruct (absolute_names_leave_the_roots demo_source_root demo_dest_root
              ["home"; "u"; "work"] demo_tree
              [(".agent", Dir []); ("sub", Dir [])] [])
    as (_ & _ & Hr & _ & _ & _ & Hgone).
  - repeat constructor.
  - discriminate.
  - reflexivity.
  - split; [|exact Hgone].
    exact (f_equal (fun r => world (snd r)) Hr).
Defined.


